(** * LMS back end: course and user controllers

    A shallow embedding of [src/controllers/course.controller.js] and
    [src/controllers/user.controller.js], and the properties of the
    handlers that the specification states.

    Conventions of the embedding:
    - a JavaScript number that the handlers compute with is an integer; it is
      a [Z], and [NaN] is [None] in [option Z]; [parseInt] rounds what it
      reads to the nearest double, and the handlers' own arithmetic on these
      numbers is exact as long as it stays within 2^53, which the statements
      that depend on it assume;
    - a string is a sequence of characters with codes below 256;
    - [undefined] is [None]; a string is truthy iff it is not empty;
    - a collection of the document database is the list of its documents in
      insertion order; [findById] and [findOne] return the first match, and
      [findById] on a course refuses a string that is not the text of a
      document id;
    - what the models and the driver decide and the controllers do not show
      (the validators of the schemas, the password check, regular
      expressions, the casts of query operands, the driver's version) is a
      parameter of the handlers or a field of the environment;
    - an object that the code builds key by key (the search criteria, the
      sort options) is a [gmap] from key to value;
    - a handler is a computation in the monad [M]: it reads and writes the
      store and either returns a response or throws; what was written before
      a throw stays written (the handlers have no rollback). *)

From stdpp Require Import base option list strings gmap sorting.
From Stdlib Require Import ZArith Ascii String.

Local Open Scope string_scope.
Local Open Scope list_scope.
Local Open Scope Z_scope.

(** ** JavaScript primitives used by the handlers *)

Module JS.

(** [StrWhiteSpaceChar] among the characters below 256:
    TAB, LF, VT, FF, CR, SP and NBSP. *)
Definition is_white (c : ascii) : bool :=
  match N_of_ascii c with
  | 9%N | 10%N | 11%N | 12%N | 13%N | 32%N | 160%N => true
  | _ => false
  end.

Fixpoint trim_start (s : string) : string :=
  match s with
  | String c s' => if is_white c then trim_start s' else s
  | EmptyString => EmptyString
  end.

(** Value of a character as a digit: 0-9, then a-z and A-Z for 10-35. *)
Definition digit_value (c : ascii) : option Z :=
  let n := Z.of_N (N_of_ascii c) in
  if (48 <=? n) && (n <=? 57) then Some (n - 48)
  else if (97 <=? n) && (n <=? 122) then Some (n - 87)
  else if (65 <=? n) && (n <=? 90) then Some (n - 55)
  else None.

(** The longest prefix of radix-[R] digits, read as a number; [acc] is
    [None] as long as no digit was read. *)
Fixpoint digits_prefix (R : Z) (s : string) (acc : option Z) : option Z :=
  match s with
  | String c s' =>
      match digit_value c with
      | Some d =>
          if d <? R then digits_prefix R s' (Some (default 0 acc * R + d))
          else acc
      | None => acc
      end
  | EmptyString => acc
  end.

(** The double nearest to a natural number, ties to even: every integer up
    to 2^53 is a double, beyond that 53 significant bits are kept.  (From
    2^1024 on the nearest double is [Infinity], which is not modelled: it
    takes a numeral of more than 300 digits.) *)
Definition round_double (a : Z) : Z :=
  if a <=? 2 ^ 53 then a
  else
    let e := Z.log2 a - 52 in
    let q := Z.shiftr a e in
    let r := a - Z.shiftl q e in
    let half := Z.shiftl 1 (e - 1) in
    Z.shiftl (if (half <? r) || ((r =? half) && Z.odd q) then q + 1 else q) e.

(** [parseInt(s)] with no radix argument: leading white space, a sign, a
    [0x]/[0X] prefix selecting radix 16, then the digits, whose value is
    rounded to a double; [None] is [NaN]. *)
Definition parseInt (s : string) : option Z :=
  let s1 := trim_start s in
  let '(sign, s2) :=
    match s1 with
    | String "-" r => (-1, r)
    | String "+" r => (1, r)
    | _ => (1, s1)
    end in
  let '(R, s3) :=
    match s2 with
    | String "0" (String "x" r) => (16, r)
    | String "0" (String "X" r) => (16, r)
    | _ => (10, s2)
    end in
  (fun n => sign * round_double n) <$> digits_prefix R s3 None.

(** [ToString] of a value that is a string or [undefined]. *)
Definition ToString (v : option string) : string := default "undefined" v.

(** [n || d] on numbers: [NaN] and [0] are falsy. *)
Definition num_or (n : option Z) (d : Z) : Z :=
  match n with
  | Some z => if z =? 0 then d else z
  | None => d
  end.

(** Truthiness of a string. *)
Definition truthy (s : string) : bool :=
  match s with EmptyString => false | _ => true end.

(** [s || d] on a string that may be [undefined]. *)
Definition str_or (s : option string) (d : string) : string :=
  match s with
  | Some x => if truthy x then x else d
  | None => d
  end.

(** [Math.ceil(a / b)] for integers [a] and [b <> 0]. *)
Definition ceil_div (a b : Z) : Z := - ((- a) / b).

(** [String.prototype.toLowerCase] on one character below 256: the upper
    case letters are A-Z and the accented capitals 192-222 (but 215, the
    multiplication sign), all 32 below their lower case; the other
    characters are kept. *)
Definition lower_ascii (c : ascii) : ascii :=
  let n := N_of_ascii c in
  if (((65 <=? n) && (n <=? 90))
      || ((192 <=? n) && (n <=? 222) && negb (n =? 215)))%N
  then ascii_of_N (n + 32) else c.

Fixpoint toLowerCase (s : string) : string :=
  match s with
  | String c s' => String (lower_ascii c) (toLowerCase s')
  | EmptyString => EmptyString
  end.

(** [s.split(sep)] for a one-character separator. *)
Fixpoint split_aux (sep : ascii) (s : string) (cur : string) : list string :=
  match s with
  | String c s' =>
      if Ascii.eqb c sep then cur :: split_aux sep s' ""
      else split_aux sep s' (cur +:+ String c "")
  | EmptyString => [cur]
  end.

Definition split (sep : ascii) (s : string) : list string :=
  split_aux sep s "".

End JS.


(** ** Documents *)

(** What the media store answers to an upload: every field may be missing. *)
Record UploadResult := {
  secure_url : option string;
  public_id : option string;
  duration : option Z
}.

(** The values that flow through the media-related fields: [undefined], a
    string, or an upload result object.  The user schema is not part of the
    controllers; the handlers compare a user's [avatar] with the string
    ["default-avatar.png"], assign an upload result to it and read its
    [public_id], so the field can hold all three shapes. *)
Inductive JsValue :=
| Undefined
| Str (s : string)
| Obj (r : UploadResult).

Module User.
Record doc := {
  _id : string;
  name : string;
  email : string;
  password : string;
  role : string;
  bio : string;
  avatar : JsValue;
  lastActive : Z
}.
End User.

Module Lecture.
Record doc := {
  _id : string;
  title : option string;
  description : option string;
  isPreview : bool;
  order : Z;
  videoUrl : string;
  publicId : string;
  duration : Z
}.
End Lecture.

Module Course.
Record doc := {
  _id : string;
  title : string;
  subtitle : string;
  description : string;
  category : string;
  level : string;
  price : Z;
  thumbnail : string;
  isPublished : bool;
  instructor : string;
  lectures : list string;
  enrolledStudents : list string;
  createdAt : Z
}.

(** The course as [populate] returns it: with the selected fields ([name],
    [avatar]) of its instructor, [null] when there is no such user; or with
    its lecture documents. *)
Record with_instructor := {
  base : doc;
  instructorInfo : option (string * JsValue)
}.

Record with_lectures := {
  course : doc;
  lectureDocs : list Lecture.doc
}.
End Course.

(** ** The request *)

Record Body := {
  b_name : option string;
  b_email : option string;
  b_password : option string;
  b_role : option string;
  b_bio : option string;
  b_title : option string;
  b_subtitle : option string;
  b_description : option string;
  b_category : option string;
  b_level : option string;
  b_price : option Z;
  b_isPreview : option bool
}.

Record Query := {
  q_query : option string;
  q_categories : option (list string);
  q_level : option string;
  q_priceRange : option string;
  q_sortBy : option string;
  q_page : option string;
  q_limit : option string
}.

(** [req]: [id] is the caller's identity set by the authentication
    middleware; [user] is read by one handler ([updateUserProfile]) and may
    be [undefined]; [file] is the path of the attached upload; [courseId] is
    [req.params.courseId]. *)
Module Req.
Record t := {
  body : Body;
  query : Query;
  courseId : string;
  file : option string;
  id : string;
  user : option User.doc
}.
End Req.

(** ** The update documents *)

(** The update document of [updateUserProfile]; a key whose value is
    [undefined] is not part of the update. *)
Record UserUpdate := {
  up_name : option string;
  up_email : option string;
  up_bio : option string;
  up_avatar : option JsValue
}.

(** The update document of [updateCourseDetails]; as above, [undefined]
    values are left out of the update. *)
Record CourseUpdate := {
  up_title : option string;
  up_subtitle : option string;
  up_description : option string;
  up_category : option string;
  up_level : option string;
  up_price : option Z;
  up_thumbnail : option string
}.

(** ** The environment *)

(** What lies outside the handlers during one request: the clock, the id
    that the database gives to the next document, the media store's answer
    to an upload and the password hash; and what the models and the driver,
    which are not among the controllers, decide:
    - whether an update passes the validators and the indexes of its schema
      (both updates are sent with [runValidators: true], and the user's
      e-mail address is to be unique); for a user this depends on the stored
      users and on the id of the updated one;
    - whether a document has the method [remove]: the driver has it up to
      its version 6 and not from version 7 on. *)
Record Env := {
  now : Z;
  fresh_id : string;
  cloudinary : string -> option UploadResult;
  hash : string -> string;
  course_update_valid : CourseUpdate -> bool;
  user_update_valid : list User.doc -> string -> UserUpdate -> bool;
  document_remove : bool
}.

(** ** The store: three collections and the media store's operation log *)

Inductive MediaOp :=
| Uploaded (path : string)
| Destroyed (ref : JsValue).

Record Store := {
  users : list User.doc;
  courses : list Course.doc;
  lecture_docs : list Lecture.doc;
  media : list MediaOp
}.

(** ** Errors, responses and the handler monad *)

Inductive Error :=
| AppError (message : string) (statusCode : Z)
| TypeError
| DriverError.

(** The central error translator: an [AppError] keeps its status code, any
    other fault is an internal error. *)
Definition status_of (e : Error) : Z :=
  match e with
  | AppError _ c => c
  | TypeError | DriverError => 500
  end.

Inductive Result (A : Type) :=
| Ok (a : A)
| Throw (e : Error).
Arguments Ok {A} a.
Arguments Throw {A} e.

Definition M (A : Type) : Type := Store -> Result A * Store.

Definition ret {A} (a : A) : M A := fun st => (Ok a, st).

Definition bind {A B} (m : M A) (k : A -> M B) : M B :=
  fun st =>
    match m st with
    | (Ok a, st') => k a st'
    | (Throw e, st') => (Throw e, st')
    end.

Definition throw {A} (e : Error) : M A := fun st => (Throw e, st).

Definition get_store : M Store := fun st => (Ok st, st).

Definition put_store (st : Store) : M unit := fun _ => (Ok tt, st).

Declare Scope handler_scope.
Delimit Scope handler_scope with handler.
Notation "'let*' x := m 'in' k" := (bind m (fun x => k))
  (at level 10, x name, m at level 100, k at level 200) : handler_scope.
Notation "m ;;; k" := (bind m (fun _ => k))
  (at level 100, k at level 200, right associativity) : handler_scope.
Local Open Scope handler_scope.

(** [if (!cond) throw e]. *)
Definition guard (cond : bool) (e : Error) : M unit :=
  if cond then ret tt else throw e.

(** ** The models' operations on the store *)

Definition id_is (i : string) (j : string) : bool := bool_decide (i = j).

(** Replace the first element satisfying [p] by its image under [f]. *)
Fixpoint update_first {A} (p : A -> bool) (f : A -> A) (l : list A) : list A :=
  match l with
  | [] => []
  | x :: l' => if p x then f x :: l' else x :: update_first p f l'
  end.

Definition set_users (f : list User.doc -> list User.doc) (st : Store) : Store :=
  {| users := f (users st); courses := courses st;
     lecture_docs := lecture_docs st; media := media st |}.

Definition set_courses (f : list Course.doc -> list Course.doc) (st : Store) : Store :=
  {| users := users st; courses := f (courses st);
     lecture_docs := lecture_docs st; media := media st |}.

Definition set_lecture_docs (f : list Lecture.doc -> list Lecture.doc) (st : Store) : Store :=
  {| users := users st; courses := courses st;
     lecture_docs := f (lecture_docs st); media := media st |}.

Definition set_media (f : list MediaOp -> list MediaOp) (st : Store) : Store :=
  {| users := users st; courses := courses st;
     lecture_docs := lecture_docs st; media := f (media st) |}.

(** *** Media store ([utils/cloudinary.js]) *)

(** Modelled from the spec: the media helpers are not among the controllers;
    the contract is [upload(localPath) -> {secureUrl, publicId, duration?}]
    and [delete(publicId)].  Each call is recorded in the store's log, and
    the answer to an upload comes from the environment. *)
Definition uploadMedia (env : Env) (path : string) : M (option UploadResult) :=
  fun st => (Ok (cloudinary env path), set_media (fun l => l ++ [Uploaded path]) st).

Definition deleteMediaFromCloudinary (ref : JsValue) : M unit :=
  fun st => (Ok tt, set_media (fun l => l ++ [Destroyed ref]) st).

(** *** Users *)

(** The stored user with a given id. *)
Definition user_at (st : Store) (i : string) : option User.doc :=
  List.find (fun u => id_is i (User._id u)) (users st).

Definition User_findById (i : string) : M (option User.doc) :=
  fun st => (Ok (user_at st i), st).

(** [User.findOne({ email })]. *)
Definition User_findOne_email (e : string) : M (option User.doc) :=
  fun st => (Ok (List.find (fun u => bool_decide (User.email u = e)) (users st)), st).

(** [User.create({name, email, password, role})]: the password is stored
    hashed, the avatar starts as the placeholder. *)
Definition User_create (env : Env) (name : option string) (email : string)
    (password : option string) (role : string) : M User.doc :=
  fun st =>
    let u := {| User._id := fresh_id env;
                User.name := default "" name;
                User.email := email;
                User.password := hash env (default "" password);
                User.role := role;
                User.bio := "";
                User.avatar := Str "default-avatar.png";
                User.lastActive := 0 |} in
    (Ok u, set_users (fun l => l ++ [u]) st).

Definition with_lastActive (t : Z) (u : User.doc) : User.doc :=
  {| User._id := User._id u; User.name := User.name u;
     User.email := User.email u; User.password := User.password u;
     User.role := User.role u; User.bio := User.bio u;
     User.avatar := User.avatar u; User.lastActive := t |}.

(** [user.updateLastActive()]: stamps the time and saves the document. *)
Definition updateLastActive (env : Env) (u : User.doc) : M unit :=
  fun st =>
    (Ok tt, set_users (update_first (fun x => id_is (User._id u) (User._id x))
                                    (with_lastActive (now env))) st).

Definition apply_user_update (d : UserUpdate) (u : User.doc) : User.doc :=
  {| User._id := User._id u;
     User.name := default (User.name u) (up_name d);
     User.email := default (User.email u) (up_email d);
     User.password := User.password u;
     User.role := User.role u;
     User.bio := default (User.bio u) (up_bio d);
     User.avatar := default (User.avatar u) (up_avatar d);
     User.lastActive := User.lastActive u |}.

(** [User.findByIdAndUpdate(id, d, {new: true, runValidators: true})]: an
    update that the schema refuses is not made and the call throws;
    otherwise the updated document, or [null] when there is none with this
    id. *)
Definition User_findByIdAndUpdate (env : Env) (i : string) (d : UserUpdate) :
    M (option User.doc) :=
  fun st =>
    if user_update_valid env (users st) i d then
      let p := fun u => id_is i (User._id u) in
      (Ok (apply_user_update d <$> List.find p (users st)),
       set_users (update_first p (apply_user_update d)) st)
    else (Throw DriverError, st).

(** [user.remove()]. *)
Fixpoint remove_first {A} (p : A -> bool) (l : list A) : list A :=
  match l with
  | [] => []
  | x :: l' => if p x then l' else x :: remove_first p l'
  end.

Definition User_remove (env : Env) (u : User.doc) : M unit :=
  fun st =>
    if document_remove env then
      (Ok tt, set_users (remove_first (fun x => id_is (User._id u) (User._id x))) st)
    else (Throw TypeError, st).

(** *** Courses and lectures *)

(** The stored course with a given id. *)
Definition course_at (st : Store) (i : string) : option Course.doc :=
  List.find (fun c => id_is i (Course._id c)) (courses st).

(** A document id is an ObjectId, which is written as 24 hexadecimal
    digits.  (Up to its version 6 the driver also reads a string of 12
    characters as the 12 bytes of an id, and later versions refuse it; the
    model refuses it, and no statement below is about a string of that
    length.) *)
Definition hex_digit (c : ascii) : bool :=
  match JS.digit_value c with
  | Some d => d <? 16
  | None => false
  end.

Fixpoint all_hex (s : string) : bool :=
  match s with
  | String c s' => hex_digit c && all_hex s'
  | EmptyString => true
  end.

Definition ObjectId_isValid (s : string) : bool :=
  Nat.eqb (String.length s) 24 && all_hex s.

(** [findById(i)] casts the string [i] to an ObjectId and looks the document
    up; a string that is no ObjectId is refused with a cast error.  The
    [_id] of a stored document is an ObjectId, so a string that is the id of
    a stored document has passed the cast: the cast decides when nothing is
    found.  [found] is the result of the look-up. *)
Definition findById_result {A} (i : string) (found : option A) : Result (option A) :=
  match found with
  | Some a => Ok (Some a)
  | None => if ObjectId_isValid i then Ok None else Throw DriverError
  end.

Definition Course_findById (i : string) : M (option Course.doc) :=
  fun st => (findById_result i (course_at st i), st).

Definition apply_course_update (d : CourseUpdate) (c : Course.doc) : Course.doc :=
  {| Course._id := Course._id c;
     Course.title := default (Course.title c) (up_title d);
     Course.subtitle := default (Course.subtitle c) (up_subtitle d);
     Course.description := default (Course.description c) (up_description d);
     Course.category := default (Course.category c) (up_category d);
     Course.level := default (Course.level c) (up_level d);
     Course.price := default (Course.price c) (up_price d);
     Course.thumbnail := default (Course.thumbnail c) (up_thumbnail d);
     Course.isPublished := Course.isPublished c;
     Course.instructor := Course.instructor c;
     Course.lectures := Course.lectures c;
     Course.enrolledStudents := Course.enrolledStudents c;
     Course.createdAt := Course.createdAt c |}.

(** [Course.findByIdAndUpdate(id, d, {new: true, runValidators: true})],
    as for users. *)
Definition Course_findByIdAndUpdate (env : Env) (i : string) (d : CourseUpdate) :
    M (option Course.doc) :=
  fun st =>
    if course_update_valid env d then
      let p := fun c => id_is i (Course._id c) in
      (Ok (apply_course_update d <$> List.find p (courses st)),
       set_courses (update_first p (apply_course_update d)) st)
    else (Throw DriverError, st).

(** [course.lectures.push(x)] on the in-memory document. *)
Definition push_lecture (x : string) (c : Course.doc) : Course.doc :=
  {| Course._id := Course._id c;
     Course.title := Course.title c;
     Course.subtitle := Course.subtitle c;
     Course.description := Course.description c;
     Course.category := Course.category c;
     Course.level := Course.level c;
     Course.price := Course.price c;
     Course.thumbnail := Course.thumbnail c;
     Course.isPublished := Course.isPublished c;
     Course.instructor := Course.instructor c;
     Course.lectures := Course.lectures c ++ [x];
     Course.enrolledStudents := Course.enrolledStudents c;
     Course.createdAt := Course.createdAt c |}.

(** [course.save()]: the in-memory document replaces the stored one. *)
Definition Course_save (c : Course.doc) : M unit :=
  fun st =>
    (Ok tt, set_courses (update_first (fun x => id_is (Course._id c) (Course._id x))
                                      (fun _ => c)) st).

(** [Lecture.create({...})]; the preview flag defaults to [false]. *)
Definition Lecture_create (env : Env) (title description : option string)
    (isPreview : option bool) (order : Z) (videoUrl publicId : string)
    (duration : Z) : M Lecture.doc :=
  fun st =>
    let l := {| Lecture._id := fresh_id env;
                Lecture.title := title;
                Lecture.description := description;
                Lecture.isPreview := default false isPreview;
                Lecture.order := order;
                Lecture.videoUrl := videoUrl;
                Lecture.publicId := publicId;
                Lecture.duration := duration |} in
    (Ok l, set_lecture_docs (fun ls => ls ++ [l]) st).

(** ** Responses *)

Record Pagination := {
  page : Z;
  limit : Z;
  total : Z;
  pages : Z
}.

Inductive Payload :=
| CourseData (message : string) (data : option Course.doc)
| LectureData (message : string) (data : Lecture.doc)
| LectureList (lectures : list Lecture.doc) (isEnrolled isInstructor : bool)
| CourseList (data : list Course.with_instructor) (count : Z)
| CoursePage (data : list Course.with_instructor) (pagination : Pagination)
| UserData (message : string) (data : User.doc)
| Token (message : string) (data : User.doc)
| Message (message : string).

Record Response := {
  status : Z;
  payload : Payload
}.

(** ** Queries on the course collection *)

(** The conditions the handlers put on one field. *)
Inductive Atom :=
| EqBool (b : bool)
| EqStr (s : string)
| Regex (pattern options : string)
| In_ (vs : list string)
| Range (gte lte : option string).

(** The value of one key of a filter: a condition on the field of that name,
    or, under ["$or"], a list of alternatives. *)
Inductive Clause :=
| Field (a : Atom)
| AnyOf (alts : list (string * Atom)).

Inductive FieldValue :=
| VBool (b : bool)
| VStr (s : string)
| VNum (z : Z)
| VMissing.

Definition course_field (k : string) (c : Course.doc) : FieldValue :=
  match k with
  | "isPublished" => VBool (Course.isPublished c)
  | "title" => VStr (Course.title c)
  | "subtitle" => VStr (Course.subtitle c)
  | "description" => VStr (Course.description c)
  | "category" => VStr (Course.category c)
  | "level" => VStr (Course.level c)
  | "price" => VNum (Course.price c)
  | "createdAt" => VNum (Course.createdAt c)
  | _ => VMissing
  end.

Section Driver.

(** What the database does with a regular expression and with the operands
    of a range, which reach it as uncast strings, is left open: [regex_test
    pattern options] compiles the pattern and gives the test on a subject,
    or [None] when the database refuses the pattern as ill-formed;
    [range_cast gte lte] casts the operands and gives the test on the field,
    or [None] when the cast is refused. *)
Variable regex_test : string -> string -> option (string -> bool).
Variable range_cast : option string -> option string -> option (Z -> bool).

Definition atom_pred (a : Atom) : option (FieldValue -> bool) :=
  match a with
  | EqBool b =>
      Some (fun v => match v with VBool b' => bool_decide (b = b') | _ => false end)
  | EqStr s =>
      Some (fun v => match v with VStr s' => bool_decide (s = s') | _ => false end)
  | Regex p o =>
      (fun f v => match v with VStr s => f s | _ => false end) <$> regex_test p o
  | In_ vs =>
      Some (fun v => match v with VStr s => bool_decide (s ∈ vs) | _ => false end)
  | Range lo hi =>
      (fun f v => match v with VNum z => f z | _ => false end) <$> range_cast lo hi
  end.

Definition on_field (k : string) (a : Atom) : option (Course.doc -> bool) :=
  (fun f c => f (course_field k c)) <$> atom_pred a.

Definition clause_pred (kc : string * Clause) : option (Course.doc -> bool) :=
  match kc.2 with
  | Field a => on_field kc.1 a
  | AnyOf alts =>
      (fun fs c => existsb (fun f => f c) fs) <$> mapM (fun ka => on_field ka.1 ka.2) alts
  end.

(** A document matches a filter when it satisfies the clause of every key;
    [None] when a pattern or a cast was refused. *)
Definition criteria_pred (crit : gmap string Clause) : option (Course.doc -> bool) :=
  (fun fs c => forallb (fun f => f c) fs) <$> mapM clause_pred (map_to_list crit).

(** Sorting: [1] ascending, [-1] descending, on the stored numeric fields. *)
Definition sort_value (k : string) (c : Course.doc) : Z :=
  match course_field k c with VNum z => z | _ => 0 end.

Fixpoint sort_cmp (spec : list (string * Z)) (c1 c2 : Course.doc) : comparison :=
  match spec with
  | [] => Eq
  | (k, d) :: spec' =>
      match Z.compare (d * sort_value k c1) (d * sort_value k c2) with
      | Eq => sort_cmp spec' c1 c2
      | o => o
      end
  end.

Definition sort_le (spec : gmap string Z) (c1 c2 : Course.doc) : Prop :=
  sort_cmp (map_to_list spec) c1 c2 <> Gt.

Definition sort_le_dec spec c1 c2 : Decision (sort_le spec c1 c2) :=
  not_dec (decide (sort_cmp (map_to_list spec) c1 c2 = Gt)).

(** The order among documents that the specification does not tell apart is
    the database's choice, and may change from one query to the next; the
    merge sort fixes one.  The statements that compare the answers of two
    queries assume that there are no such documents. *)
Definition sort_docs (spec : gmap string Z) (l : list Course.doc) : list Course.doc :=
  @merge_sort _ (sort_le spec) (sort_le_dec spec) l.

(** [skip(n)]: the database refuses a negative [n]. *)
Definition apply_skip {A} (n : Z) (l : list A) : option (list A) :=
  if n <? 0 then None else Some (drop (Z.to_nat n) l).

(** [limit(n)]: [0] is no limit, a negative [n] limits to [|n|]. *)
Definition apply_limit {A} (n : Z) (l : list A) : list A :=
  if n =? 0 then l else take (Z.to_nat (Z.abs n)) l.

(** [Course.find(crit).sort(spec).skip(s).limit(l)]; [skip] and [limit] are
    optional. *)
Definition Course_find (crit : gmap string Clause) (spec : gmap string Z)
    (skip limit : option Z) : M (list Course.doc) :=
  fun st =>
    match criteria_pred crit with
    | None => (Throw DriverError, st)
    | Some p =>
        let found := sort_docs spec (List.filter p (courses st)) in
        match apply_skip (default 0 skip) found with
        | None => (Throw DriverError, st)
        | Some rest => (Ok (apply_limit (default 0 limit) rest), st)
        end
    end.

(** [Course.countDocuments(crit)]. *)
Definition Course_countDocuments (crit : gmap string Clause) : M Z :=
  fun st =>
    match criteria_pred crit with
    | None => (Throw DriverError, st)
    | Some p => (Ok (Z.of_nat (List.length (List.filter p (courses st)))), st)
    end.

(** [.populate({path: "instructor", select: "name avatar"})]. *)
Definition populate_instructor (l : list Course.doc) : M (list Course.with_instructor) :=
  fun st =>
    (Ok (List.map (fun c =>
           {| Course.base := c;
              Course.instructorInfo :=
                (fun u => (User.name u, User.avatar u)) <$>
                List.find (fun u => id_is (Course.instructor c) (User._id u)) (users st) |}) l),
     st).

(** *** [searchCourses] *)

Definition regex_i (query : string) : Atom := Regex query "i".

Definition searchCriteria (q : Query) : gmap string Clause :=
  let query := default "" (q_query q) in
  let categories := default [] (q_categories q) in
  let c0 : gmap string Clause :=
    <["$or" := AnyOf [("title", regex_i query);
                      ("subtitle", regex_i query);
                      ("description", regex_i query)]]>
      (<["isPublished" := Field (EqBool true)]> ∅) in
  let c1 :=
    if (0 <? List.length categories)%nat
    then <["category" := Field (In_ categories)]> c0 else c0 in
  let c2 :=
    match q_level q with
    | Some level =>
        if JS.truthy level then <["level" := Field (EqStr level)]> c1 else c1
    | None => c1
    end in
  match q_priceRange q with
  | Some priceRange =>
      if JS.truthy priceRange then
        let parts := JS.split "-" priceRange in
        <["price" := Field (Range (parts !! 0%nat) (parts !! 1%nat))]> c2
      else c2
  | None => c2
  end.

Definition sortOptions (q : Query) : gmap string Z :=
  match default "newest" (q_sortBy q) with
  | "newest" => <["createdAt" := -1]> ∅
  | "oldest" => <["createdAt" := 1]> ∅
  | "price-high" => <["price" := -1]> ∅
  | "price-low" => <["price" := 1]> ∅
  | "highestRating" => <["averageRating" := -1]> ∅
  | "lowestRating" => <["averageRating" := 1]> ∅
  | _ => <["createdAt" := -1]> ∅
  end.

Definition searchCourses (req : Req.t) : M Response :=
  let* found := Course_find (searchCriteria (Req.query req))
                            (sortOptions (Req.query req)) None None in
  let* courses := populate_instructor found in
  ret {| status := 200;
         payload := CourseList courses (Z.of_nat (List.length courses)) |}.

(** *** [getPublishedCourses] *)

Definition page_of (q : Query) : Z :=
  JS.num_or (JS.parseInt (JS.ToString (q_page q))) 1.

Definition limit_of (q : Query) : Z :=
  JS.num_or (JS.parseInt (JS.ToString (q_limit q))) 10.

Definition skip_of (q : Query) : Z := (page_of q - 1) * limit_of q.

Definition published : gmap string Clause :=
  <["isPublished" := Field (EqBool true)]> ∅.

Definition getPublishedCourses (req : Req.t) : M Response :=
  let page := page_of (Req.query req) in
  let limit := limit_of (Req.query req) in
  let skip := skip_of (Req.query req) in
  let* found := Course_find published (<["createdAt" := -1]> ∅)
                            (Some skip) (Some limit) in
  let* courses := populate_instructor found in
  let* total := Course_countDocuments published in
  ret {| status := 200;
         payload := CoursePage courses
                      {| page := page; limit := limit; total := total;
                         pages := JS.ceil_div total limit |} |}.

End Driver.

(** *** The two objects that [searchCourses] builds

    [searchCriteria] and [sortOptions] above are the values that reach the
    database.  The handler makes them by creating two objects and assigning
    their keys one after the other.  Objects live in the heap of the server
    process, which all the requests share: the heap is the list of the
    objects created so far, and a reference is a position in it. *)

Inductive JsObject :=
| CriteriaObject (keys : gmap string Clause)
| SortObject (keys : gmap string Z).

Definition Heap := list JsObject.

(** [const x = {...}]: a new object; its reference is returned. *)
Definition new_object (o : JsObject) (h : Heap) : nat * Heap :=
  (List.length h, h ++ [o]).

(** [x.k = v] on a criteria object and on a sort object. *)
Definition assign_clause (x : nat) (k : string) (v : Clause) (h : Heap) : Heap :=
  match h !! x with
  | Some (CriteriaObject keys) => <[x := CriteriaObject (<[k := v]> keys)]> h
  | _ => h
  end.

Definition assign_direction (x : nat) (k : string) (v : Z) (h : Heap) : Heap :=
  match h !! x with
  | Some (SortObject keys) => <[x := SortObject (<[k := v]> keys)]> h
  | _ => h
  end.

(** The references of the two objects that one evaluation has built. *)
Record SearchObjects := {
  criteria_ref : nat;
  sort_ref : nat
}.

(** Lines 63 to 82 of the handler, statement by statement: the filter. *)
Definition build_criteria (q : Query) (h : Heap) : nat * Heap :=
  let query := default "" (q_query q) in
  let categories := default [] (q_categories q) in
  let '(criteria, h) :=
    new_object
      (CriteriaObject
         (<["$or" := AnyOf [("title", regex_i query);
                            ("subtitle", regex_i query);
                            ("description", regex_i query)]]>
            (<["isPublished" := Field (EqBool true)]> ∅))) h in
  let h :=
    if (0 <? List.length categories)%nat
    then assign_clause criteria "category" (Field (In_ categories)) h else h in
  let h :=
    match q_level q with
    | Some level =>
        if JS.truthy level
        then assign_clause criteria "level" (Field (EqStr level)) h else h
    | None => h
    end in
  let h :=
    match q_priceRange q with
    | Some priceRange =>
        if JS.truthy priceRange then
          let parts := JS.split "-" priceRange in
          assign_clause criteria "price"
            (Field (Range (parts !! 0%nat) (parts !! 1%nat))) h
        else h
    | None => h
    end in
  (criteria, h).

(** Lines 85 to 107: the sort specification. *)
Definition build_sort (q : Query) (h : Heap) : nat * Heap :=
  let '(sort, h) := new_object (SortObject ∅) h in
  let h :=
    match default "newest" (q_sortBy q) with
    | "newest" => assign_direction sort "createdAt" (-1) h
    | "oldest" => assign_direction sort "createdAt" 1 h
    | "price-high" => assign_direction sort "price" (-1) h
    | "price-low" => assign_direction sort "price" 1 h
    | "highestRating" => assign_direction sort "averageRating" (-1) h
    | "lowestRating" => assign_direction sort "averageRating" 1 h
    | _ => assign_direction sort "createdAt" (-1) h
    end in
  (sort, h).

Definition build_search (q : Query) (h : Heap) : SearchObjects * Heap :=
  let '(criteria, h) := build_criteria q h in
  let '(sort, h) := build_sort q h in
  ({| criteria_ref := criteria; sort_ref := sort |}, h).

(** *** [updateCourseDetails] *)

(** [...(thumbnail && { thumbnail })]. *)
Definition spread_thumbnail (thumbnail : option string) : option string :=
  match thumbnail with
  | Some t => if JS.truthy t then Some t else None
  | None => None
  end.

Definition updateCourseDetails (env : Env) (req : Req.t) : M Response :=
  let b := Req.body req in
  let* found := Course_findById (Req.courseId req) in
  match found with
  | None => throw (AppError "Course not found" 404)
  | Some course =>
      guard (id_is (Course.instructor course) (Req.id req))
            (AppError "You are not authorized to update this course" 403) ;;;
      let* thumbnail :=
        match Req.file req with
        | Some path =>
            (if JS.truthy (Course.thumbnail course)
             then deleteMediaFromCloudinary (Str (Course.thumbnail course))
             else ret tt) ;;;
            let* result := uploadMedia env path in
            ret (Some (JS.str_or (result ≫= secure_url) path))
        | None => ret None
        end in
      let* updatedCourse :=
        Course_findByIdAndUpdate env (Req.courseId req)
          {| up_title := b_title b;
             up_subtitle := b_subtitle b;
             up_description := b_description b;
             up_category := b_category b;
             up_level := b_level b;
             up_price := b_price b;
             up_thumbnail := spread_thumbnail thumbnail |} in
      ret {| status := 200;
             payload := CourseData "Course updated successfully" updatedCourse |}
  end.

(** *** [addLectureToCourse] *)

Definition addLectureToCourse (env : Env) (req : Req.t) : M Response :=
  let b := Req.body req in
  let* found := Course_findById (Req.courseId req) in
  match found with
  | None => throw (AppError "Course not found" 404)
  | Some course =>
      guard (id_is (Course.instructor course) (Req.id req))
            (AppError "Not authorized to update this course" 403) ;;;
      match Req.file req with
      | None => throw (AppError "Video file is required" 400)
      | Some path =>
          let* uploaded := uploadMedia env path in
          match uploaded with
          | None => throw (AppError "Error uploading video" 500)
          | Some result =>
              let* lecture :=
                Lecture_create env (b_title b) (b_description b) (b_isPreview b)
                  (Z.of_nat (List.length (Course.lectures course)) + 1)
                  (JS.str_or (secure_url result) path)
                  (JS.str_or (public_id result) path)
                  (JS.num_or (duration result) 0) in
              Course_save (push_lecture (Lecture._id lecture) course) ;;;
              ret {| status := 201;
                     payload := LectureData "Lecture added successfully" lecture |}
          end
      end
  end.

(** *** [getCourseLectures] *)

Definition order_le (a b : Lecture.doc) : Prop := Lecture.order a <= Lecture.order b.

Definition order_le_dec a b : Decision (order_le a b) :=
  Z_le_dec (Lecture.order a) (Lecture.order b).

(** [Course.findById(id).populate({path: "lectures", options: {sort: {order: 1}}})]:
    the lecture documents that the course refers to, by ascending order. *)
Definition Course_findById_with_lectures (i : string) : M (option Course.with_lectures) :=
  fun st =>
    (findById_result i
       ((fun c =>
           {| Course.course := c;
              Course.lectureDocs :=
                @merge_sort _ order_le order_le_dec
                  (List.filter (fun l => bool_decide (Lecture._id l ∈ Course.lectures c))
                               (lecture_docs st)) |}) <$> course_at st i),
     st).

Definition getCourseLectures (req : Req.t) : M Response :=
  let* found := Course_findById_with_lectures (Req.courseId req) in
  match found with
  | None => throw (AppError "Course not found" 404)
  | Some course =>
      let isEnrolled :=
        bool_decide (Req.id req ∈ Course.enrolledStudents (Course.course course)) in
      let isInstructor := id_is (Course.instructor (Course.course course)) (Req.id req) in
      let lectures := Course.lectureDocs course in
      let lectures :=
        if negb isEnrolled && negb isInstructor
        then List.filter Lecture.isPreview lectures
        else lectures in
      ret {| status := 200;
             payload := LectureList lectures isEnrolled isInstructor |}
  end.

(** *** [createUserAccount] *)

(** Modelled from the spec: [utils/generateToken.js] is not among the
    controllers; the token issuer mints a credential for the user, attaches
    it to the response as a cookie and answers with the message. *)
Definition generateToken (u : User.doc) (message : string) : M Response :=
  ret {| status := 200; payload := Token message u |}.

Definition createUserAccount (env : Env) (req : Req.t) : M Response :=
  let b := Req.body req in
  let role := default "student" (b_role b) in
  match b_email b with
  | None => throw TypeError
  | Some email =>
      let* user := User_findOne_email (JS.toLowerCase email) in
      match user with
      | Some _ => throw (AppError "User already exists" 409)
      | None =>
          let* newUser :=
            User_create env (b_name b) (JS.toLowerCase email) (b_password b) role in
          updateLastActive env newUser ;;;
          generateToken newUser "User created successfully"
      end
  end.

(** *** [updateUserProfile] and [deleteUserAccount] *)

Definition value_truthy (v : JsValue) : bool :=
  match v with
  | Undefined => false
  | Str s => JS.truthy s
  | Obj _ => true
  end.

(** [v !== s] for a string literal [s]. *)
Definition differs_from (v : JsValue) (s : string) : bool :=
  match v with
  | Str x => negb (bool_decide (x = s))
  | _ => true
  end.

(** [v.public_id]: a fault on [undefined], [undefined] on a string. *)
Definition get_public_id (v : JsValue) : M JsValue :=
  match v with
  | Undefined => throw TypeError
  | Str _ => ret Undefined
  | Obj r => ret (from_option Str Undefined (public_id r))
  end.

Definition updateUserProfile (env : Env) (req : Req.t) : M Response :=
  let b := Req.body req in
  match b_email b with
  | None => throw TypeError
  | Some email =>
      let updateData :=
        {| up_name := b_name b; up_email := Some (JS.toLowerCase email);
           up_bio := b_bio b; up_avatar := None |} in
      let* updateData :=
        match Req.file req with
        | Some path =>
            let* avatarResult := uploadMedia env path in
            let updateData :=
              {| up_name := up_name updateData; up_email := up_email updateData;
                 up_bio := up_bio updateData; up_avatar := Obj <$> avatarResult |} in
            let* found := User_findById (Req.id req) in
            match found with
            | None => throw TypeError
            | Some user =>
                (if value_truthy (User.avatar user)
                    && differs_from (User.avatar user) "default-avatar.png"
                 then
                   match Req.user req with
                   | None => throw TypeError
                   | Some req_user =>
                       let* ref := get_public_id (User.avatar req_user) in
                       deleteMediaFromCloudinary ref
                   end
                 else ret tt) ;;;
                ret updateData
            end
        | None => ret updateData
        end in
      let* user := User_findByIdAndUpdate env (Req.id req) updateData in
      match user with
      | None => throw (AppError "User not found" 404)
      | Some user =>
          ret {| status := 200;
                 payload := UserData "User profile updated successfully" user |}
      end
  end.

Definition deleteUserAccount (env : Env) (req : Req.t) : M Response :=
  let* found := User_findById (Req.id req) in
  match found with
  | None => throw TypeError
  | Some user =>
      (if value_truthy (User.avatar user)
          && differs_from (User.avatar user) "default-avatar.png"
       then deleteMediaFromCloudinary (User.avatar user)
       else ret tt) ;;;
      User_remove env user ;;;
      ret {| status := 200; payload := Message "User account deleted successfully" |}
  end.

(** ** The remaining handlers of the two controllers *)

(** The JSON envelope of the handlers below: the status and the data. *)
Record Reply (A : Type) := {
  r_status : Z;
  r_data : A
}.
Arguments r_status {A} _.
Arguments r_data {A} _.

(** [lift r]: a computation that returns or throws as [r] says and does not
    touch the store. *)
Definition lift {A} (r : Result A) : M A := fun st => (r, st).

(** *** [getMyCreatedCourses] *)

(** [Course.find({ instructor: id }).sort({ createdAt: -1 })]. *)
Definition Course_find_instructor (i : string) : M (list Course.doc) :=
  fun st =>
    (Ok (sort_docs (<["createdAt" := -1]> ∅)
           (List.filter (fun c => id_is (Course.instructor c) i) (courses st))),
     st).

(** [.populate({path: "enrolledStudents", select: "name avatar"})]: the
    summaries of the enrolled students that exist, in the order of the
    course's list. *)
Definition populate_enrolledStudents (l : list Course.doc) :
    M (list (Course.doc * list (string * JsValue))) :=
  fun st =>
    (Ok (List.map (fun c =>
           (c, omap (fun i => (fun u => (User.name u, User.avatar u)) <$> user_at st i)
                    (Course.enrolledStudents c))) l),
     st).

Definition getMyCreatedCourses (req : Req.t) :
    M (Reply (list (Course.doc * list (string * JsValue)) * Z)) :=
  let* found := Course_find_instructor (Req.id req) in
  let* course := populate_enrolledStudents found in
  ret {| r_status := 200;
         r_data := (course, Z.of_nat (List.length course)) |}.

(** *** [getCourseDetails] *)

(** The stored lecture with a given id. *)
Definition lecture_at (st : Store) (i : string) : option Lecture.doc :=
  List.find (fun l => id_is i (Lecture._id l)) (lecture_docs st).

Record CourseDetails := {
  d_course : Course.doc;
  d_instructor : option (string * JsValue * string);
  d_lectures : list Lecture.doc;
  d_averageRating : Z
}.

Section Details.

(** [course.averageRating] is a virtual of the course model, which is not
    among the controllers; it is a parameter. *)
Variable averageRating : Course.doc -> Z.

(** [Course.findById(id).populate(instructor: name avatar bio)
    .populate(lectures)]: no sort is asked for, so the lectures come in the
    order of the course's list, those that exist.  The lecture documents
    stand for their selected fields. *)
Definition Course_findById_details (i : string) : M (option CourseDetails) :=
  fun st =>
    (findById_result i
       ((fun c =>
           {| d_course := c;
              d_instructor :=
                (fun u => (User.name u, User.avatar u, User.bio u)) <$>
                user_at st (Course.instructor c);
              d_lectures := omap (lecture_at st) (Course.lectures c);
              d_averageRating := averageRating c |}) <$> course_at st i),
     st).

Definition getCourseDetails (req : Req.t) : M (Reply CourseDetails) :=
  let* found := Course_findById_details (Req.courseId req) in
  match found with
  | None => throw (AppError "Course not found" 404)
  | Some course => ret {| r_status := 200; r_data := course |}
  end.

End Details.

(** *** [authenticateUser] and [changeUserPassword] *)

Definition with_password (p : string) (u : User.doc) : User.doc :=
  {| User._id := User._id u; User.name := User.name u;
     User.email := User.email u; User.password := p;
     User.role := User.role u; User.bio := User.bio u;
     User.avatar := User.avatar u; User.lastActive := User.lastActive u |}.

(** [user.password = p; user.save()]: as in [User_create], the password is
    stored hashed. *)
Definition User_save_password (env : Env) (u : User.doc) (p : string) : M unit :=
  fun st =>
    (Ok tt, set_users (update_first (fun x => id_is (User._id u) (User._id x))
                                    (with_password (hash env p))) st).

Section Credentials.

(** [user.comparePassword(candidate)] is a method of the user model, which
    is not among the controllers: it is a parameter, which answers a boolean
    or faults. *)
Variable comparePassword : User.doc -> option string -> Result bool.

Definition authenticateUser (env : Env) (req : Req.t) : M Response :=
  let b := Req.body req in
  match b_email b with
  | None => throw TypeError
  | Some email =>
      let* found := User_findOne_email (JS.toLowerCase email) in
      match found with
      | None => throw (AppError "User not found" 404)
      | Some user =>
          let* isPasswordCorrect := lift (comparePassword user (b_password b)) in
          guard isPasswordCorrect (AppError "Invalid credentials" 401) ;;;
          updateLastActive env user ;;;
          generateToken user "User signed in successfully"
      end
  end.

(** [currentPassword] and [newPassword] are the two fields of the body that
    this handler reads; the new password is one that the request supplies. *)
Definition changeUserPassword (env : Env) (req : Req.t)
    (currentPassword : option string) (newPassword : string) : M Response :=
  let* found := User_findById (Req.id req) in
  match found with
  | None => throw (AppError "User not found" 404)
  | Some user =>
      let* isPasswordCorrect := lift (comparePassword user currentPassword) in
      guard isPasswordCorrect (AppError "Invalid current password" 401) ;;;
      User_save_password env user newPassword ;;;
      ret {| status := 200; payload := Message "Password changed successfully" |}
  end.

End Credentials.

(** [signOutUser]: clears the cookie and answers; no store is involved. *)
Definition signOutUser : M Response :=
  ret {| status := 200; payload := Message "User signed out successfully" |}.

(** ** Sample data, used to run the handlers *)

Module Sample.

Definition env : Env :=
  {| now := 1700;
     fresh_id := "n1";
     cloudinary := fun path =>
       Some {| secure_url := Some ("https://cdn/" +:+ path);
               public_id := Some ("pid/" +:+ path);
               duration := Some 42 |};
     hash := fun s => "#" +:+ s;
     course_update_valid := fun d =>
       match up_price d with Some p => 0 <=? p | None => true end;
     user_update_valid := fun us i d =>
       match up_email d with
       | Some e =>
           forallb (fun u => id_is i (User._id u)
                             || negb (bool_decide (User.email u = e))) us
       | None => true
       end;
     document_remove := true |}.

Definition ann : User.doc :=
  {| User._id := "u1"; User.name := "Ann"; User.email := "ann@x.org";
     User.password := "#pw"; User.role := "instructor"; User.bio := "";
     User.avatar := Str "old-avatar.png"; User.lastActive := 10 |}.

Definition bob : User.doc :=
  {| User._id := "u2"; User.name := "Bob"; User.email := "bob@x.org";
     User.password := "#pw"; User.role := "student"; User.bio := "";
     User.avatar := Str "default-avatar.png"; User.lastActive := 20 |}.

Definition mk_course (i : string) (pub : bool) (t : Z) : Course.doc :=
  {| Course._id := i; Course.title := "Rocq"; Course.subtitle := "proofs";
     Course.description := "a course"; Course.category := "cs";
     Course.level := "beginner"; Course.price := 30;
     Course.thumbnail := "thumb.png"; Course.isPublished := pub;
     Course.instructor := "u1"; Course.lectures := ["l1"; "l2"];
     Course.enrolledStudents := ["u3"]; Course.createdAt := t |}.

Definition mk_lecture (i : string) (preview : bool) (o : Z) : Lecture.doc :=
  {| Lecture._id := i; Lecture.title := Some "intro";
     Lecture.description := None; Lecture.isPreview := preview;
     Lecture.order := o; Lecture.videoUrl := "v.mp4";
     Lecture.publicId := "v"; Lecture.duration := 60 |}.

Definition store : Store :=
  {| users := [ann; bob];
     courses := [mk_course "64b7f0c2a1d3e4f5a6b7c8c1" true 1; mk_course "64b7f0c2a1d3e4f5a6b7c8c2" false 2; mk_course "64b7f0c2a1d3e4f5a6b7c8c3" true 3];
     lecture_docs := [mk_lecture "l2" false 2; mk_lecture "l1" true 1];
     media := [] |}.

Definition no_body : Body :=
  {| b_name := None; b_email := None; b_password := None; b_role := None;
     b_bio := None; b_title := None; b_subtitle := None;
     b_description := None; b_category := None; b_level := None;
     b_price := None; b_isPreview := None |}.

Definition no_query : Query :=
  {| q_query := None; q_categories := None; q_level := None;
     q_priceRange := None; q_sortBy := None; q_page := None;
     q_limit := None |}.

Definition paged (page limit : option string) : Query :=
  {| q_query := None; q_categories := None; q_level := None;
     q_priceRange := None; q_sortBy := None; q_page := page;
     q_limit := limit |}.

Definition request (caller course : string) (b : Body) (q : Query)
    (f : option string) : Req.t :=
  {| Req.body := b; Req.query := q; Req.courseId := course; Req.file := f;
     Req.id := caller; Req.user := None |}.

(** A stand-in for the database's regular expressions, which knows the
    patterns made of letters, digits and spaces only: such a pattern is a
    substring test without regard to case, and any other is refused; and a
    range cast that reads both operands with [parseInt]. *)
Fixpoint is_prefix (p s : string) : bool :=
  match p, s with
  | EmptyString, _ => true
  | String a p', String b s' => Ascii.eqb a b && is_prefix p' s'
  | _, _ => false
  end.

Fixpoint contains (p s : string) : bool :=
  is_prefix p s || match s with String _ s' => contains p s' | EmptyString => false end.

Fixpoint literal (p : string) : bool :=
  match p with
  | EmptyString => true
  | String c p' =>
      match JS.digit_value c with
      | Some _ => literal p'
      | None => Ascii.eqb c " " && literal p'
      end
  end.

Definition regex_test (pattern options : string) : option (string -> bool) :=
  if literal pattern
  then Some (fun subject => contains (JS.toLowerCase pattern) (JS.toLowerCase subject))
  else None.

Definition range_cast (lo hi : option string) : option (Z -> bool) :=
  match lo ≫= JS.parseInt, hi ≫= JS.parseInt with
  | Some a, Some b => Some (fun z => (a <=? z) && (z <=? b))
  | _, _ => None
  end.

Definition profile_body : Body :=
  {| b_name := Some "Ann"; b_email := Some "ann@x.org"; b_password := None;
     b_role := None; b_bio := Some "hello"; b_title := None;
     b_subtitle := None; b_description := None; b_category := None;
     b_level := None; b_price := None; b_isPreview := None |}.

Definition title_body : Body :=
  {| b_name := None; b_email := None; b_password := None; b_role := None;
     b_bio := None; b_title := Some "Rocq 2"; b_subtitle := None;
     b_description := None; b_category := None; b_level := None;
     b_price := None; b_isPreview := None |}.

(** The profile update of [ann] with a new avatar attached, as the
    authentication middleware hands it over ([req.id] only), and the same
    with [req.user] set to the stored document. *)
Definition avatar_request : Req.t :=
  request "u1" "" profile_body no_query (Some "/tmp/a.png").

Definition avatar_request_with_user : Req.t :=
  {| Req.body := profile_body; Req.query := no_query; Req.courseId := "";
     Req.file := Some "/tmp/a.png"; Req.id := "u1"; Req.user := Some ann |}.

(** [ann] with an avatar stored as an upload result, and her request with
    [req.user] set to that document. *)
Definition old_media : UploadResult :=
  {| secure_url := Some "https://cdn/old.png"; public_id := Some "pid/old.png";
     duration := None |}.

Definition ann_media : User.doc :=
  {| User._id := "u1"; User.name := "Ann"; User.email := "ann@x.org";
     User.password := "#pw"; User.role := "instructor"; User.bio := "";
     User.avatar := Obj old_media; User.lastActive := 10 |}.

Definition store_media : Store :=
  {| users := [ann_media; bob]; courses := []; lecture_docs := []; media := [] |}.

Definition avatar_request_media : Req.t :=
  {| Req.body := profile_body; Req.query := no_query; Req.courseId := "";
     Req.file := Some "/tmp/a.png"; Req.id := "u1"; Req.user := Some ann_media |}.

End Sample.

(** ** More sample data *)

Module Demo.

Definition env2 : Env :=
  {| now := 1800;
     fresh_id := "n2";
     cloudinary := fun path =>
       Some {| secure_url := Some ("https://cdn/" +:+ path);
               public_id := None;
               duration := None |};
     hash := fun s => "#" +:+ s;
     course_update_valid := fun _ => true;
     user_update_valid := fun _ _ _ => true;
     document_remove := true |}.

(** A media store that is down. *)
Definition env_down : Env :=
  {| now := 1900; fresh_id := "n3"; cloudinary := fun _ => None;
     hash := fun s => "#" +:+ s;
     course_update_valid := fun _ => true;
     user_update_valid := fun _ _ _ => true;
     document_remove := true |}.

(** A driver of version 7 or later: documents have no [remove]. *)
Definition env_no_remove : Env :=
  {| now := 2000; fresh_id := "n4"; cloudinary := cloudinary Sample.env;
     hash := hash Sample.env;
     course_update_valid := course_update_valid Sample.env;
     user_update_valid := user_update_valid Sample.env;
     document_remove := false |}.

Definition preview_body : Body :=
  {| b_name := None; b_email := None; b_password := None; b_role := None;
     b_bio := None; b_title := Some "Welcome"; b_subtitle := None;
     b_description := None; b_category := None; b_level := None;
     b_price := None; b_isPreview := Some true |}.

(** [ann] adds a lecture to her course [c3], twice. *)
Definition add_request : Req.t :=
  Sample.request "u1" "64b7f0c2a1d3e4f5a6b7c8c3" preview_body Sample.no_query (Some "/tmp/v.mp4").

Definition dummy : Response := {| status := 0; payload := Message "" |}.

Definition resp1 : Response :=
  Eval vm_compute in
    match (addLectureToCourse Sample.env add_request Sample.store).1 with
    | Ok r => r
    | Throw _ => dummy
    end.

Definition st1 : Store :=
  Eval vm_compute in (addLectureToCourse Sample.env add_request Sample.store).2.

Definition resp2 : Response :=
  Eval vm_compute in
    match (addLectureToCourse env2 add_request st1).1 with
    | Ok r => r
    | Throw _ => dummy
    end.

Definition st2 : Store :=
  Eval vm_compute in (addLectureToCourse env2 add_request st1).2.

(** A search with every filter set. *)
Definition full_query : Query :=
  {| q_query := Some "ro"; q_categories := Some ["cs"];
     q_level := Some "beginner"; q_priceRange := Some "10-50";
     q_sortBy := Some "price-low"; q_page := None; q_limit := None |}.

Definition price_10_50 (z : Z) : bool := (10 <=? z) && (z <=? 50).

Definition text_ro (subject : string) : bool :=
  Sample.contains "ro" (JS.toLowerCase subject).

(** A price that the sample schema refuses. *)
Definition negative_price_body : Body :=
  {| b_name := None; b_email := None; b_password := None; b_role := None;
     b_bio := None; b_title := None; b_subtitle := None;
     b_description := None; b_category := None; b_level := None;
     b_price := Some (-5); b_isPreview := None |}.

(** A search whose text is not a regular expression. *)
Definition unbalanced_query : Query :=
  {| q_query := Some "(ro"; q_categories := None; q_level := None;
     q_priceRange := None; q_sortBy := None; q_page := None; q_limit := None |}.

Definition signup_body (email : string) : Body :=
  {| b_name := Some "Cy"; b_email := Some email; b_password := Some "pw";
     b_role := None; b_bio := None; b_title := None; b_subtitle := None;
     b_description := None; b_category := None; b_level := None;
     b_price := None; b_isPreview := None |}.

Definition signup_request (email : string) : Req.t :=
  Sample.request "" "" (signup_body email) Sample.no_query None.

Definition signup_resp : Response :=
  Eval vm_compute in
    match (createUserAccount Sample.env (signup_request "Cy@X.org") Sample.store).1 with
    | Ok r => r
    | Throw _ => dummy
    end.

Definition signup_st : Store :=
  Eval vm_compute in
    (createUserAccount Sample.env (signup_request "Cy@X.org") Sample.store).2.

(** A password check that agrees with the sample hash. *)
Definition comparePassword (u : User.doc) (candidate : option string) : Result bool :=
  match candidate with
  | Some p => Ok (bool_decide (User.password u = "#" +:+ p))
  | None => Throw TypeError
  end.

End Demo.

(** * Properties *)

(** [m] run in [st] throws an [AppError] with status [code] and leaves the
    store as it was. *)
Definition fails_with {A} (code : Z) (m : M A) (st : Store) : Prop :=
  exists msg, m st = (Throw (AppError msg code), st).

(** Two e-mail addresses compared without regard to case. *)
Definition same_email (a b : string) : Prop :=
  JS.toLowerCase a = JS.toLowerCase b.

(** The data model's invariant on users: stored e-mail addresses are in
    lower case. *)
Definition emails_lowercase (st : Store) : Prop :=
  Forall (fun u => JS.toLowerCase (User.email u) = User.email u) (users st).

(** A computation keeps an invariant of the store, whether it returns or
    throws. *)
Definition preserves {A} (I : Store -> Prop) (m : M A) : Prop :=
  forall st, I st -> I (m st).2.

(** Whatever a computation returns satisfies [Q]. *)
Definition returns_only {A} (Q : A -> Prop) (m : M A) : Prop :=
  forall st a st', m st = (Ok a, st') -> Q a.

(** The number of published courses in the store. *)
Definition count_published (st : Store) : Z :=
  Z.of_nat (List.length (List.filter Course.isPublished (courses st))).

(** Decimal numerals: the string of a list of digits and its value. *)
Definition digit_char (d : nat) : ascii := ascii_of_nat (48 + d).

Fixpoint numeral_string (ds : list nat) : string :=
  match ds with
  | [] => EmptyString
  | d :: ds' => String (digit_char d) (numeral_string ds')
  end.

Definition numeral_value (ds : list nat) : Z :=
  fold_left (fun acc d => acc * 10 + Z.of_nat d) ds 0.

(** The public listing in full: the published courses, newest first. *)
Definition listing (st : Store) : list Course.doc :=
  sort_docs (<["createdAt" := -1]> ∅) (List.filter Course.isPublished (courses st)).

(** The courses of a listing page, when the request succeeded. *)
Definition page_courses (out : Result Response * Store) : list Course.doc :=
  match out.1 with
  | Ok {| payload := CoursePage data _ |} => List.map Course.base data
  | _ => []
  end.

(** Orders on courses and lectures, for lists read from first to last. *)
Definition newest_first (a b : Course.doc) : Prop :=
  Course.createdAt b <= Course.createdAt a.

Definition oldest_first (a b : Course.doc) : Prop :=
  Course.createdAt a <= Course.createdAt b.

Definition cheapest_first (a b : Course.doc) : Prop :=
  Course.price a <= Course.price b.

Definition dearest_first (a b : Course.doc) : Prop :=
  Course.price b <= Course.price a.

(** A string without the character ["-"]. *)
Fixpoint dash_free (s : string) : bool :=
  match s with
  | EmptyString => true
  | String c s' => negb (Ascii.eqb c "-") && dash_free s'
  end.

(** No two stored users share an id. *)
Definition user_ids_unique (st : Store) : Prop :=
  NoDup (List.map User._id (users st)).

(** The update documents that [updateCourseDetails] and [updateUserProfile]
    send for a request, given the thumbnail or the avatar to set. *)
Definition course_update_of (req : Req.t) (thumbnail : option string) : CourseUpdate :=
  {| up_title := b_title (Req.body req);
     up_subtitle := b_subtitle (Req.body req);
     up_description := b_description (Req.body req);
     up_category := b_category (Req.body req);
     up_level := b_level (Req.body req);
     up_price := b_price (Req.body req);
     up_thumbnail := thumbnail |}.

Definition user_update_of (req : Req.t) (email : string) (avatar : option JsValue) :
    UserUpdate :=
  {| up_name := b_name (Req.body req);
     up_email := Some (JS.toLowerCase email);
     up_bio := b_bio (Req.body req);
     up_avatar := avatar |}.

(** The ids of the stored courses are ObjectIds. *)
Definition course_ids_valid (st : Store) : Prop :=
  Forall (fun c => ObjectId_isValid (Course._id c) = true) (courses st).

(** No two published courses were created at the same time. *)
Definition published_dates_distinct (st : Store) : Prop :=
  NoDup (List.map Course.createdAt (List.filter Course.isPublished (courses st))).

(** The shapes of the strings given to [parseInt]: white space, a sign, the
    digits of a decimal numeral, and a rest. *)
Fixpoint all_white (s : string) : bool :=
  match s with
  | EmptyString => true
  | String c s' => JS.is_white c && all_white s'
  end.

Inductive Sign :=
| NoSign
| PlusSign
| MinusSign.

Definition sign_string (sg : Sign) : string :=
  match sg with
  | NoSign => ""
  | PlusSign => "+"
  | MinusSign => "-"
  end.

Definition sign_factor (sg : Sign) : Z :=
  match sg with
  | MinusSign => -1
  | _ => 1
  end.

Definition decimal_digit (c : ascii) : bool :=
  match JS.digit_value c with
  | Some d => d <? 10
  | None => false
  end.

(** What may follow the digits of a numeral: nothing, or a rest that does
    not go on with a decimal digit. *)
Definition ends_numeral (rest : string) : bool :=
  match rest with
  | EmptyString => true
  | String c _ => negb (decimal_digit c)
  end.

(** The numeral ["0"] followed by [x] or [X] opens a hexadecimal numeral. *)
Definition hex_prefix (ds : list nat) (rest : string) : bool :=
  match ds, rest with
  | [O], String c _ => Ascii.eqb c "x" || Ascii.eqb c "X"
  | _, _ => false
  end.

(** Where a number should start there is none: the string ends, or goes on
    with a character that is no decimal digit (nor, when no sign was read,
    white space or a sign). *)
Definition no_number (sg : Sign) (rest : string) : bool :=
  match rest with
  | EmptyString => true
  | String c _ =>
      negb (decimal_digit c)
      && match sg with
         | NoSign => negb (JS.is_white c) && negb (Ascii.eqb c "+")
                     && negb (Ascii.eqb c "-")
         | _ => true
         end
  end.

(** ** The primitives on examples *)

Example parseInt_decimal : JS.parseInt "12" = Some 12.
Proof. reflexivity. Qed.

Example parseInt_prefix : JS.parseInt "  -7px" = Some (-7).
Proof. reflexivity. Qed.

Example parseInt_hex : JS.parseInt "0x1f" = Some 31.
Proof. reflexivity. Qed.

Example parseInt_undefined : JS.parseInt (JS.ToString None) = None.
Proof. reflexivity. Qed.

Example parseInt_leading_space : JS.parseInt " -5" = Some (-5).
Proof. reflexivity. Qed.

Example parseInt_safe : JS.parseInt "9007199254740992" = Some 9007199254740992.
Proof. reflexivity. Qed.

Example parseInt_tie_down : JS.parseInt "9007199254740993" = Some 9007199254740992.
Proof. reflexivity. Qed.

Example parseInt_tie_up : JS.parseInt "9007199254740995" = Some 9007199254740996.
Proof. reflexivity. Qed.

Example parseInt_rounded :
  JS.parseInt "123456789012345678" = Some 123456789012345680.
Proof. reflexivity. Qed.

Example parseInt_minus_zero : JS.num_or (JS.parseInt "-0") 1 = 1.
Proof. reflexivity. Qed.

Example split_range : JS.split "-" "10-200" = ["10"; "200"].
Proof. reflexivity. Qed.

Example split_no_dash : JS.split "-" "100" = ["100"].
Proof. reflexivity. Qed.

Example toLowerCase_mail : JS.toLowerCase "Ann@X.org" = "ann@x.org".
Proof. reflexivity. Qed.

Example ceil_div_7_2 : JS.ceil_div 7 2 = 4.
Proof. reflexivity. Qed.

Example searchCriteria_full :
  map_to_list (searchCriteria
    {| q_query := Some "ro"; q_categories := Some ["cs"];
       q_level := Some "beginner"; q_priceRange := Some "10-50";
       q_sortBy := Some "price-low"; q_page := None; q_limit := None |})
  ≡ₚ [("isPublished", Field (EqBool true));
      ("$or", AnyOf [("title", Regex "ro" "i"); ("subtitle", Regex "ro" "i");
                     ("description", Regex "ro" "i")]);
      ("category", Field (In_ ["cs"]));
      ("level", Field (EqStr "beginner"));
      ("price", Field (Range (Some "10") (Some "50")))].
Proof. vm_compute. solve_Permutation. Qed.

Example sortOptions_unknown :
  sortOptions {| q_query := None; q_categories := None; q_level := None;
                 q_priceRange := None; q_sortBy := Some "cheapest";
                 q_page := None; q_limit := None |}
  = <["createdAt" := -1]> ∅.
Proof. reflexivity. Qed.

Example ObjectId_isValid_sample :
  ObjectId_isValid "64b7f0c2a1d3e4f5a6b7c8c1" = true /\
  ObjectId_isValid "not-an-id" = false /\
  ObjectId_isValid "64b7f0c2a1d3e4f5a6b7c8" = false.
Proof. repeat split. Qed.

Example sample_course_ids_valid : course_ids_valid Sample.store.
Proof. repeat constructor. Qed.

Lemma id_is_true i j : id_is i j = true <-> i = j.
Proof. unfold id_is. apply bool_decide_eq_true. Qed.

Lemma id_is_false i j : id_is i j = false <-> i <> j.
Proof. unfold id_is. apply bool_decide_eq_false. Qed.

(** ** Existence and ownership checks *)




(** On a store whose course ids are document ids, the look-up is the cast
    followed by the search. *)
Lemma Course_findById_cast_first (i : string) (st : Store) :
  course_ids_valid st ->
  Course_findById i st =
    (if ObjectId_isValid i then Ok (course_at st i) else Throw DriverError, st).
Proof.
  intros Hv. unfold Course_findById, findById_result.
  destruct (course_at st i) as [c|] eqn:Hc.
  - unfold course_at in Hc. apply find_some in Hc as [Hin Hid].
    apply id_is_true in Hid. subst i.
    unfold course_ids_valid in Hv. rewrite Forall_forall in Hv.
    rewrite (Hv c); [reflexivity|]. now apply list_elem_of_In.
  - destruct (ObjectId_isValid i); reflexivity.
Qed.

(** ** Lecture visibility *)

(** C2. [getCourseLectures] for a caller who is neither enrolled in the
    course nor its instructor: the request succeeds and every lecture in the
    answer has [isPreview = true]. *)
Theorem lectures_preview_only (req : Req.t) (st : Store) (c : Course.doc) :
  course_at st (Req.courseId req) = Some c ->
  Req.id req ∉ Course.enrolledStudents c ->
  Course.instructor c <> Req.id req ->
  exists ls,
    getCourseLectures req st =
      (Ok {| status := 200; payload := LectureList ls false false |}, st) /\
    Forall (fun l => Lecture.isPreview l = true) ls.
Proof.
  intros Hc Henr Hins. apply id_is_false in Hins.
  unfold getCourseLectures, bind, Course_findById_with_lectures, findById_result.
  rewrite Hc. cbn [fmap option_fmap option_map Course.course Course.lectureDocs].
  rewrite Hins, (bool_decide_eq_false_2 _ Henr). cbn [negb andb].
  eexists. split; [reflexivity|].
  apply Forall_forall. intros l Hl.
  apply list_elem_of_In, filter_In in Hl. tauto.
Qed.

Lemma lectures_preview_only_witness :
  exists ls,
    getCourseLectures
      (Sample.request "u2" "64b7f0c2a1d3e4f5a6b7c8c1" Sample.no_body Sample.no_query None) Sample.store =
      (Ok {| status := 200; payload := LectureList ls false false |}, Sample.store) /\
    Forall (fun l => Lecture.isPreview l = true) ls.
Proof.
  apply (lectures_preview_only
           (Sample.request "u2" "64b7f0c2a1d3e4f5a6b7c8c1" Sample.no_body Sample.no_query None)
           Sample.store (Sample.mk_course "64b7f0c2a1d3e4f5a6b7c8c1" true 1)).
  - reflexivity.
  - vm_compute. intros H. apply list_elem_of_In in H. simpl in H.
    destruct H as [H|[]]. discriminate.
  - discriminate.
Defined.

(** ** Signup *)

Lemma lower_ascii_idem c : JS.lower_ascii (JS.lower_ascii c) = JS.lower_ascii c.
Proof. destruct c as [[] [] [] [] [] [] [] []]; reflexivity. Qed.

Lemma toLowerCase_idem s : JS.toLowerCase (JS.toLowerCase s) = JS.toLowerCase s.
Proof.
  induction s as [|c s IH]; simpl; [reflexivity|].
  now rewrite lower_ascii_idem, IH.
Qed.

Lemma find_is_Some {A} (p : A -> bool) (l : list A) (x : A) :
  x ∈ l -> p x = true -> exists y, List.find p l = Some y.
Proof.
  intros Hx Hp. destruct (List.find p l) as [y|] eqn:Hf.
  - eauto.
  - apply list_elem_of_In in Hx.
    pose proof (find_none _ _ Hf _ Hx) as Hn. congruence.
Qed.

Lemma Forall_update_first {A} (P : A -> Prop) (p : A -> bool) (f : A -> A) l :
  (forall x, P x -> P (f x)) -> Forall P l -> Forall P (update_first p f l).
Proof.
  intros Hf. induction 1 as [|x l Hx Hl IH]; simpl; [constructor|].
  destruct (p x); constructor; auto.
Qed.

Section Preservation.

Context (I : Store -> Prop).

Lemma preserves_ret {A} (a : A) : preserves I (ret a).
Proof. intros st H. exact H. Qed.

Lemma preserves_throw {A} e : preserves I (@throw A e).
Proof. intros st H. exact H. Qed.

Lemma preserves_bind {A B} (m : M A) (k : A -> M B) :
  preserves I m -> (forall a, preserves I (k a)) -> preserves I (bind m k).
Proof.
  intros Hm Hk st H. unfold bind. specialize (Hm st H).
  destruct (m st) as [[a|e] st']; simpl in *; [apply Hk|]; exact Hm.
Qed.

Lemma preserves_guard c e : preserves I (guard c e).
Proof. destruct c; [apply preserves_ret | apply preserves_throw]. Qed.

Lemma preserves_bind_post {A B} (Q : A -> Prop) (m : M A) (k : A -> M B) :
  preserves I m -> returns_only Q m ->
  (forall a, Q a -> preserves I (k a)) -> preserves I (bind m k).
Proof.
  intros Hm HQ Hk st H. unfold bind. specialize (Hm st H).
  destruct (m st) as [[a|e] st'] eqn:Hrun; simpl in *; [|exact Hm].
  apply Hk; [eapply HQ; exact Hrun | exact Hm].
Qed.

End Preservation.

Lemma returns_only_ret {A} (Q : A -> Prop) a : Q a -> returns_only Q (ret a).
Proof. intros H st b st' [= <- _]. exact H. Qed.

Lemma returns_only_throw {A} (Q : A -> Prop) e : returns_only Q (throw e).
Proof. intros st b st' [=]. Qed.

Lemma returns_only_bind {A B} (Q : B -> Prop) (m : M A) (k : A -> M B) :
  (forall a, returns_only Q (k a)) -> returns_only Q (bind m k).
Proof.
  intros Hk st b st'. unfold bind.
  destruct (m st) as [[a|e] st0]; [apply Hk | intros [=]].
Qed.

Lemma emails_lowercase_media f st :
  emails_lowercase st -> emails_lowercase (set_media f st).
Proof. intros H. exact H. Qed.

Lemma preserves_uploadMedia env path : preserves emails_lowercase (uploadMedia env path).
Proof. intros st H. exact H. Qed.

Lemma preserves_deleteMedia ref :
  preserves emails_lowercase (deleteMediaFromCloudinary ref).
Proof. intros st H. exact H. Qed.

Lemma preserves_User_findById i : preserves emails_lowercase (User_findById i).
Proof. intros st H. exact H. Qed.

Lemma preserves_User_findOne_email e :
  preserves emails_lowercase (User_findOne_email e).
Proof. intros st H. exact H. Qed.

Lemma preserves_User_create env n e pw r :
  JS.toLowerCase e = e -> preserves emails_lowercase (User_create env n e pw r).
Proof.
  intros He st H. unfold emails_lowercase. simpl.
  apply Forall_app. split; [exact H|]. repeat constructor. exact He.
Qed.

Lemma preserves_updateLastActive env u :
  preserves emails_lowercase (updateLastActive env u).
Proof.
  intros st H. unfold emails_lowercase. simpl.
  apply Forall_update_first; [intros x Hx; exact Hx | exact H].
Qed.

Lemma preserves_User_findByIdAndUpdate env i d e :
  up_email d = Some (JS.toLowerCase e) ->
  preserves emails_lowercase (User_findByIdAndUpdate env i d).
Proof.
  intros Hd st H. unfold User_findByIdAndUpdate.
  destruct (user_update_valid env (users st) i d); [|exact H].
  unfold emails_lowercase. simpl.
  apply Forall_update_first; [|exact H].
  intros x _. simpl. rewrite Hd. simpl. apply toLowerCase_idem.
Qed.

Lemma preserves_get_public_id v : preserves emails_lowercase (get_public_id v).
Proof. destruct v; [apply preserves_throw | apply preserves_ret ..]. Qed.

(** The invariant holds of the empty collection, and the two handlers that
    write an e-mail address keep it. *)
Lemma emails_lowercase_empty cs ls ms :
  emails_lowercase {| users := []; courses := cs; lecture_docs := ls; media := ms |}.
Proof. constructor. Qed.

Lemma createUserAccount_emails_lowercase env req :
  preserves emails_lowercase (createUserAccount env req).
Proof.
  unfold createUserAccount.
  destruct (b_email (Req.body req)) as [email|]; [|apply preserves_throw].
  apply preserves_bind; [apply preserves_User_findOne_email|].
  intros [u|]; [apply preserves_throw|].
  apply preserves_bind; [apply preserves_User_create, toLowerCase_idem|].
  intros newUser.
  apply preserves_bind; [apply preserves_updateLastActive|].
  intros _. apply preserves_ret.
Qed.

Lemma updateUserProfile_emails_lowercase env req :
  preserves emails_lowercase (updateUserProfile env req).
Proof.
  unfold updateUserProfile.
  destruct (b_email (Req.body req)) as [email|]; [|apply preserves_throw].
  apply (preserves_bind_post _ (fun d => up_email d = Some (JS.toLowerCase email))).
  - destruct (Req.file req) as [path|]; [|apply preserves_ret].
    apply preserves_bind; [apply preserves_uploadMedia|]. intros avatarResult.
    apply preserves_bind; [apply preserves_User_findById|].
    intros [u|]; [|apply preserves_throw].
    apply preserves_bind; [|intros _; apply preserves_ret].
    destruct (_ && _); [|apply preserves_ret].
    destruct (Req.user req) as [ru|]; [|apply preserves_throw].
    apply preserves_bind; [apply preserves_get_public_id|].
    intros ref. apply preserves_deleteMedia.
  - destruct (Req.file req) as [path|]; [|now apply returns_only_ret].
    apply returns_only_bind. intros avatarResult.
    apply returns_only_bind. intros [u|]; [|apply returns_only_throw].
    apply returns_only_bind. intros _. now apply returns_only_ret.
  - intros d Hd.
    apply preserves_bind.
    + eapply preserves_User_findByIdAndUpdate, Hd.
    + intros [u|]; [apply preserves_ret | apply preserves_throw].
Qed.

(** C3. Signup with an e-mail address that, compared without regard to
    case, is the address of a stored user: the request fails with 409 and
    the store, the user collection included, is what it was. *)
Theorem signup_conflict (env : Env) (req : Req.t) (st : Store)
    (email : string) (u : User.doc) :
  emails_lowercase st ->
  b_email (Req.body req) = Some email ->
  u ∈ users st ->
  same_email email (User.email u) ->
  createUserAccount env req st = (Throw (AppError "User already exists" 409), st).
Proof.
  intros Hinv Hmail Hu Hsame.
  unfold createUserAccount, bind, User_findOne_email. rewrite Hmail.
  destruct (find_is_Some (fun x => bool_decide (User.email x = JS.toLowerCase email))
              (users st) u Hu) as [y Hy].
  - apply bool_decide_eq_true. unfold same_email in Hsame. rewrite Hsame.
    unfold emails_lowercase in Hinv. rewrite Forall_forall in Hinv.
    symmetry. apply Hinv. exact Hu.
  - rewrite Hy. reflexivity.
Qed.

Lemma signup_conflict_witness :
  createUserAccount Sample.env
    (Sample.request "" "" {| b_name := Some "Ann"; b_email := Some "Ann@X.org";
                             b_password := Some "pw"; b_role := None;
                             b_bio := None; b_title := None; b_subtitle := None;
                             b_description := None; b_category := None;
                             b_level := None; b_price := None;
                             b_isPreview := None |} Sample.no_query None)
    Sample.store
  = (Throw (AppError "User already exists" 409), Sample.store).
Proof.
  apply (signup_conflict Sample.env _ Sample.store "Ann@X.org" Sample.ann).
  - repeat constructor.
  - reflexivity.
  - apply list_elem_of_In. simpl. auto.
  - reflexivity.
Defined.

(** ** Public queries *)

Section DriverFacts.

Variable regex_test : string -> string -> option (string -> bool).
Variable range_cast : option string -> option string -> option (Z -> bool).


(** A filter that has [isPublished: true] among its keys only lets
    published courses through. *)
Lemma criteria_pred_published crit p c :
  crit !! "isPublished" = Some (Field (EqBool true)) ->
  criteria_pred regex_test range_cast crit = Some p ->
  p c = true -> Course.isPublished c = true.
Proof.
  intros Hkey Hp Hc. unfold criteria_pred in Hp.
  destruct (mapM _ (map_to_list crit)) as [fs|] eqn:Hfs; [|discriminate].
  injection Hp as <-.
  apply mapM_Some_1 in Hfs.
  apply elem_of_map_to_list, list_elem_of_lookup in Hkey as [i Hi].
  destruct (Forall2_lookup_l _ _ _ _ _ Hfs Hi) as (f & Hf & Hcl).
  rewrite forallb_forall in Hc.
  assert (Hin : In f fs) by (apply list_elem_of_In, list_elem_of_lookup; eauto).
  specialize (Hc f Hin). injection Hcl as <-.
  simpl in Hc. apply bool_decide_eq_true in Hc. congruence.
Qed.

Lemma searchCriteria_isPublished q :
  searchCriteria q !! "isPublished" = Some (Field (EqBool true)).
Proof.
  unfold searchCriteria.
  destruct (q_priceRange q) as [r|]; [destruct (JS.truthy r)|];
    destruct (q_level q) as [l|]; try destruct (JS.truthy l);
    destruct (0 <? _)%nat;
    repeat (rewrite lookup_insert_ne by discriminate);
    apply lookup_insert_eq.
Qed.

Lemma published_isPublished :
  published !! "isPublished" = Some (Field (EqBool true)).
Proof. apply lookup_insert_eq. Qed.

(** The filter of the listing is exactly the publication flag. *)
Lemma criteria_pred_listing :
  exists p, criteria_pred regex_test range_cast published = Some p /\ forall c, p c = Course.isPublished c.
Proof.
  unfold criteria_pred, published.
  rewrite insert_empty, map_to_list_singleton. simpl.
  eexists. split; [reflexivity|].
  intros c. simpl. destruct (Course.isPublished c); reflexivity.
Qed.

(** What [find] returns was in the collection and passed the filter. *)
Lemma Course_find_sound crit spec sk lm st l st' :
  Course_find regex_test range_cast crit spec sk lm st = (Ok l, st') ->
  st' = st /\
  exists p, criteria_pred regex_test range_cast crit = Some p /\
    Forall (fun c => c ∈ courses st /\ p c = true) l.
Proof.
  unfold Course_find.
  destruct (criteria_pred regex_test range_cast crit) as [p|]; [|discriminate].
  unfold apply_skip, apply_limit.
  destruct (_ <? 0); [discriminate|].
  intros [= <- <-]. split; [reflexivity|]. exists p. split; [reflexivity|].
  apply Forall_forall. intros c Hc.
  assert (Hs : c ∈ drop (Z.to_nat (default 0 sk))
                 (sort_docs spec (List.filter p (courses st)))).
  { destruct (_ =? 0); [exact Hc|]. eapply subseteq_take, Hc. }
  apply subseteq_drop in Hs. unfold sort_docs in Hs.
  rewrite merge_sort_Permutation in Hs.
  apply list_elem_of_In, filter_In in Hs as [Hin Hp].
  split; [apply list_elem_of_In, Hin | exact Hp].
Qed.

Lemma populate_instructor_base l st :
  exists data, populate_instructor l st = (Ok data, st) /\
    List.map Course.base data = l.
Proof.
  eexists. split; [reflexivity|].
  rewrite List.map_map. simpl. apply List.map_id.
Qed.

(** C6. Public search and the public listing only match published courses:
    the search filter always carries [isPublished: true], whatever the text
    query, categories, level, price range and sort key are; a course that
    the filter lets through is published; and every course in the answer of
    [searchCourses] and of [getPublishedCourses] is published. *)
Theorem public_queries_published_only (req : Req.t) (st : Store) :
  searchCriteria (Req.query req) !! "isPublished" = Some (Field (EqBool true)) /\
  (forall p c, criteria_pred regex_test range_cast (searchCriteria (Req.query req)) = Some p ->
     p c = true -> Course.isPublished c = true) /\
  (forall resp st', searchCourses regex_test range_cast req st = (Ok resp, st') ->
     exists data n, payload resp = CourseList data n /\
       Forall (fun c => Course.isPublished (Course.base c) = true) data) /\
  (forall resp st', getPublishedCourses regex_test range_cast req st = (Ok resp, st') ->
     exists data pg, payload resp = CoursePage data pg /\
       Forall (fun c => Course.isPublished (Course.base c) = true) data).
Proof.
  split; [apply searchCriteria_isPublished|].
  split; [intros p c; apply criteria_pred_published, searchCriteria_isPublished|].
  assert (Hgen : forall crit spec sk lm l st1 data st2,
    crit !! "isPublished" = Some (Field (EqBool true)) ->
    Course_find regex_test range_cast crit spec sk lm st = (Ok l, st1) ->
    populate_instructor l st1 = (Ok data, st2) ->
    Forall (fun c => Course.isPublished (Course.base c) = true) data).
  { intros crit spec sk lm l st1 data st2 Hkey Hfind Hpop.
    apply Course_find_sound in Hfind as (-> & p & Hp & Hall).
    destruct (populate_instructor_base l st) as (data' & Hd & Hbase).
    rewrite Hpop in Hd. injection Hd as <- _.
    rewrite Forall_forall in Hall. apply Forall_forall. intros c Hc.
    eapply criteria_pred_published; [exact Hkey | exact Hp|].
    apply Hall. rewrite <- Hbase. apply list_elem_of_In, in_map, list_elem_of_In, Hc. }
  split.
  - intros resp st'. unfold searchCourses, bind.
    destruct (Course_find regex_test range_cast _ _ _ _ st) as [[l|e] st1] eqn:Hfind; [|discriminate].
    destruct (populate_instructor l st1) as [[data|e] st2] eqn:Hpop; [|discriminate].
    intros [= <- _]. do 2 eexists. split; [reflexivity|].
    eapply Hgen; [apply searchCriteria_isPublished | exact Hfind | exact Hpop].
  - intros resp st'. unfold getPublishedCourses, bind.
    destruct (Course_find regex_test range_cast _ _ _ _ st) as [[l|e] st1] eqn:Hfind; [|discriminate].
    destruct (populate_instructor l st1) as [[data|e] st2] eqn:Hpop; [|discriminate].
    destruct (Course_countDocuments _ _ _ st2) as [[n|e] st3]; [|discriminate].
    intros [= <- _]. do 2 eexists. split; [reflexivity|].
    eapply Hgen; [apply published_isPublished | exact Hfind | exact Hpop].
Qed.

(** ** Pagination *)


Lemma filter_published_ext p l :
  (forall c, p c = Course.isPublished c) ->
  List.filter p l = List.filter Course.isPublished l.
Proof. intros H. apply filter_ext. exact H. Qed.


End DriverFacts.



(** A negative page makes a negative [skip], which the database refuses. *)
Lemma pagination_negative_page :
  skip_of (Sample.paged (Some "-1") (Some "10")) = -20 /\
  getPublishedCourses Sample.regex_test Sample.range_cast
    (Sample.request "u2" "" Sample.no_body (Sample.paged (Some "-1") (Some "10")) None)
    Sample.store
  = (Throw DriverError, Sample.store).
Proof. split; reflexivity. Qed.

(** ** Search query construction *)

(** The filter and the sort specification that reach the database are
    functions of the five parameters [query], [categories], [level],
    [priceRange] and [sortBy]. *)
Lemma search_spec_of_parameters (q1 q2 : Query) :
  q_query q1 = q_query q2 ->
  q_categories q1 = q_categories q2 ->
  q_level q1 = q_level q2 ->
  q_priceRange q1 = q_priceRange q2 ->
  q_sortBy q1 = q_sortBy q2 ->
  searchCriteria q1 = searchCriteria q2 /\ sortOptions q1 = sortOptions q2.
Proof.
  intros Hq Hc Hl Hp Hs. unfold searchCriteria, sortOptions.
  rewrite Hq, Hc, Hl, Hp, Hs. split; reflexivity.
Qed.

Lemma assign_clause_last (h : Heap) keys k v :
  assign_clause (List.length h) k v (h ++ [CriteriaObject keys])
  = h ++ [CriteriaObject (<[k := v]> keys)].
Proof.
  unfold assign_clause, Heap. rewrite list_lookup_middle by reflexivity.
  rewrite insert_app_r_alt by lia. rewrite Nat.sub_diag. reflexivity.
Qed.

Lemma assign_direction_last (h : Heap) keys k v :
  assign_direction (List.length h) k v (h ++ [SortObject keys])
  = h ++ [SortObject (<[k := v]> keys)].
Proof.
  unfold assign_direction, Heap. rewrite list_lookup_middle by reflexivity.
  rewrite insert_app_r_alt by lia. rewrite Nat.sub_diag. reflexivity.
Qed.

(** A function goes through the [switch] on [sortBy]. *)
Lemma sortBy_switch {A B} (f : A -> B) (s : string) (a1 a2 a3 a4 a5 a6 a7 : A) :
  f (match s with
     | "newest" => a1
     | "oldest" => a2
     | "price-high" => a3
     | "price-low" => a4
     | "highestRating" => a5
     | "lowestRating" => a6
     | _ => a7
     end)
  = match s with
    | "newest" => f a1
    | "oldest" => f a2
    | "price-high" => f a3
    | "price-low" => f a4
    | "highestRating" => f a5
    | "lowestRating" => f a6
    | _ => f a7
    end.
Proof.
  repeat (try reflexivity;
          match goal with
          | |- context [match ?x with _ => _ end] => is_var x; destruct x
          end).
Qed.

(** What one evaluation does to the heap: it leaves the objects that are
    there as they are and adds two, which hold the filter and the sort
    specification that are handed to the database. *)
Lemma build_criteria_spec (q : Query) (h : Heap) :
  build_criteria q h = (List.length h, h ++ [CriteriaObject (searchCriteria q)]).
Proof.
  unfold build_criteria, new_object, searchCriteria.
  cbv beta iota zeta. f_equal.
  destruct (0 <? _)%nat; rewrite ?assign_clause_last;
    (destruct (q_level q) as [l|]; [destruct (JS.truthy l)|]);
    rewrite ?assign_clause_last;
    (destruct (q_priceRange q) as [r|]; [destruct (JS.truthy r)|]);
    rewrite ?assign_clause_last; reflexivity.
Qed.

Lemma build_sort_spec (q : Query) (h : Heap) :
  build_sort q h = (List.length h, h ++ [SortObject (sortOptions q)]).
Proof.
  unfold build_sort, new_object, sortOptions.
  cbv beta iota zeta. f_equal.
  rewrite !assign_direction_last. symmetry.
  apply (sortBy_switch (fun m => h ++ [SortObject m])).
Qed.

Lemma build_search_spec (q : Query) (h : Heap) :
  build_search q h =
    ({| criteria_ref := List.length h; sort_ref := S (List.length h) |},
     h ++ [CriteriaObject (searchCriteria q); SortObject (sortOptions q)]).
Proof.
  unfold build_search. rewrite build_criteria_spec, build_sort_spec.
  rewrite length_app, Nat.add_1_r, <- app_assoc. reflexivity.
Qed.

(** C5. Two evaluations of the query construction of [searchCourses], one
    after the other in the heap that the requests share, for parameters
    [query], [categories], [level], [priceRange] and [sortBy] that are the
    same in both: whatever the heap held before, whatever was created
    between the two, and whatever else the two requests carry, each
    evaluation makes its own two objects, and when both have run the two
    filters are one and the same specification and so are the two sort
    specifications: those that the handler hands to the database. *)
Theorem search_spec_repeatable (q1 q2 : Query) (h between : Heap) :
  q_query q1 = q_query q2 ->
  q_categories q1 = q_categories q2 ->
  q_level q1 = q_level q2 ->
  q_priceRange q1 = q_priceRange q2 ->
  q_sortBy q1 = q_sortBy q2 ->
  let first := build_search q1 h in
  let second := build_search q2 (first.2 ++ between) in
  criteria_ref first.1 <> criteria_ref second.1 /\
  sort_ref first.1 <> sort_ref second.1 /\
  second.2 !! criteria_ref first.1 = Some (CriteriaObject (searchCriteria q1)) /\
  second.2 !! criteria_ref second.1 = Some (CriteriaObject (searchCriteria q1)) /\
  second.2 !! sort_ref first.1 = Some (SortObject (sortOptions q1)) /\
  second.2 !! sort_ref second.1 = Some (SortObject (sortOptions q1)).
Proof.
  intros Hq Hc Hl Hp Hs first second.
  destruct (search_spec_of_parameters q1 q2 Hq Hc Hl Hp Hs) as [Ecrit Esort].
  subst second first. rewrite !build_search_spec. unfold Heap in *.
  cbn [fst snd criteria_ref sort_ref]. rewrite <- Ecrit, <- Esort.
  set (c := CriteriaObject (searchCriteria q1)).
  set (s := SortObject (sortOptions q1)).
  rewrite !length_app. cbn [List.length].
  split; [lia|]. split; [lia|].
  split.
  { rewrite <- !app_assoc. apply list_lookup_middle. reflexivity. }
  split.
  { apply list_lookup_middle. rewrite !length_app. reflexivity. }
  split.
  { rewrite <- !app_assoc. cbn [app].
    change (h ++ c :: s :: between ++ [c; s])
      with (h ++ [c] ++ s :: between ++ [c; s]).
    rewrite app_assoc. apply list_lookup_middle.
    rewrite length_app. cbn [List.length]. lia. }
  { change ((h ++ [c; s]) ++ between) with ((h ++ [c; s]) ++ between).
    replace (((h ++ [c; s]) ++ between) ++ [c; s])
      with ((((h ++ [c; s]) ++ between) ++ [c]) ++ [s])
      by (rewrite <- (app_assoc _ [c] [s]); reflexivity).
    apply list_lookup_middle. rewrite !length_app. cbn [List.length]. lia. }
Qed.

Lemma search_spec_repeatable_witness :
  let q1 := {| q_query := Some "ro"; q_categories := Some ["cs"];
               q_level := Some "beginner"; q_priceRange := Some "10-50";
               q_sortBy := Some "price-low"; q_page := Some "3";
               q_limit := None |} in
  let q2 := {| q_query := Some "ro"; q_categories := Some ["cs"];
               q_level := Some "beginner"; q_priceRange := Some "10-50";
               q_sortBy := Some "price-low"; q_page := None;
               q_limit := Some "7" |} in
  let h := (build_search Sample.no_query []).2 in
  let first := build_search q1 h in
  let second := build_search q2 (first.2 ++ [SortObject ∅]) in
  criteria_ref first.1 <> criteria_ref second.1 /\
  sort_ref first.1 <> sort_ref second.1 /\
  second.2 !! criteria_ref first.1 = Some (CriteriaObject (searchCriteria q1)) /\
  second.2 !! criteria_ref second.1 = Some (CriteriaObject (searchCriteria q1)) /\
  second.2 !! sort_ref first.1 = Some (SortObject (sortOptions q1)) /\
  second.2 !! sort_ref second.1 = Some (SortObject (sortOptions q1)).
Proof.
  intros q1 q2 h.
  apply (search_spec_repeatable q1 q2 h [SortObject ∅]); reflexivity.
Defined.

(** The objects of the sample run: the second request's sort object is at
    another place than the first's, and holds the same single key. *)
Example build_search_twice :
  let q := {| q_query := None; q_categories := None; q_level := None;
              q_priceRange := None; q_sortBy := Some "oldest";
              q_page := None; q_limit := None |} in
  let first := build_search q [] in
  let second := build_search q first.2 in
  sort_ref first.1 = 1%nat /\ sort_ref second.1 = 3%nat /\
  second.2 !! 1%nat = Some (SortObject (<["createdAt" := 1]> ∅)) /\
  second.2 !! 3%nat = Some (SortObject (<["createdAt" := 1]> ∅)).
Proof. vm_compute. repeat split. Qed.

(** ** Writes to the course collection *)

Lemma find_update_first {A} (p : A -> bool) (f : A -> A) l x :
  List.find p l = Some x -> p (f x) = true ->
  List.find p (update_first p f l) = Some (f x).
Proof.
  intros Hfind Hp. induction l as [|y l IH]; simpl in *; [discriminate|].
  destruct (p y) eqn:Hy.
  - injection Hfind as ->. simpl. now rewrite Hp.
  - simpl. rewrite Hy. auto.
Qed.

Lemma find_update_first_other {A} (p q : A -> bool) (f : A -> A) l :
  (forall x, q (f x) = q x) -> (forall x, p x = true -> q x = false) ->
  List.find q (update_first p f l) = List.find q l.
Proof.
  intros Hf Hpq. induction l as [|y l IH]; simpl; [reflexivity|].
  destruct (p y) eqn:Hy; simpl.
  - rewrite Hf, (Hpq y Hy). reflexivity.
  - destruct (q y); [reflexivity | exact IH].
Qed.

Lemma course_at_id st i c : course_at st i = Some c -> Course._id c = i.
Proof.
  intros H. apply find_some in H as [_ H]. apply id_is_true in H. auto.
Qed.

(** C7. A successful [addLectureToCourse] on a course with [n] lectures:
    the created lecture has order [n + 1], and afterwards the stored course
    lists the former lectures followed by the new lecture's id, [n + 1]
    entries in all. *)
Theorem addLecture_order_and_append (env : Env) (req : Req.t) (st st' : Store)
    (resp : Response) :
  addLectureToCourse env req st = (Ok resp, st') ->
  exists before lecture after,
    course_at st (Req.courseId req) = Some before /\
    resp = {| status := 201;
              payload := LectureData "Lecture added successfully" lecture |} /\
    Lecture.order lecture = Z.of_nat (List.length (Course.lectures before)) + 1 /\
    lecture ∈ lecture_docs st' /\
    course_at st' (Req.courseId req) = Some after /\
    Course.lectures after = Course.lectures before ++ [Lecture._id lecture] /\
    List.length (Course.lectures after) = S (List.length (Course.lectures before)) /\
    List.last (Course.lectures after) "" = Lecture._id lecture.
Proof.
  unfold addLectureToCourse, bind, Course_findById, findById_result, guard.
  destruct (course_at st (Req.courseId req)) as [c|] eqn:Hc;
    [|destruct (ObjectId_isValid _); discriminate].
  destruct (id_is (Course.instructor c) (Req.id req)); [|discriminate].
  cbn [ret]. destruct (Req.file req) as [path|]; [|discriminate].
  unfold uploadMedia.
  destruct (cloudinary env path) as [result|]; [|discriminate].
  unfold Lecture_create, Course_save. cbn. intros [= <- <-].
  pose proof (course_at_id _ _ _ Hc) as Hid.
  exists c. eexists. exists (push_lecture (fresh_id env) c).
  split; [reflexivity|]. split; [reflexivity|]. split; [reflexivity|].
  split; [apply list_elem_of_In, in_or_app; right; left; reflexivity|].
  split.
  - unfold course_at. cbn [courses]. rewrite Hid.
    apply (find_update_first _ (fun _ => push_lecture (fresh_id env) c) _ c).
    + exact Hc.
    + apply id_is_true. symmetry. exact Hid.
  - cbn [push_lecture Course.lectures Lecture._id]. split; [reflexivity|].
    split; [rewrite length_app; simpl; lia | apply last_last].
Qed.

Lemma addLecture_order_and_append_witness :
  exists st' before lecture after,
    addLectureToCourse Sample.env
      (Sample.request "u1" "64b7f0c2a1d3e4f5a6b7c8c3" Sample.no_body Sample.no_query (Some "/tmp/v.mp4"))
      Sample.store =
      (Ok {| status := 201;
             payload := LectureData "Lecture added successfully" lecture |}, st') /\
    course_at Sample.store "64b7f0c2a1d3e4f5a6b7c8c3" = Some before /\
    Lecture.order lecture = 3 /\
    course_at st' "64b7f0c2a1d3e4f5a6b7c8c3" = Some after /\
    Course.lectures after = ["l1"; "l2"; "n1"].
Proof.
  destruct (addLecture_order_and_append Sample.env
              (Sample.request "u1" "64b7f0c2a1d3e4f5a6b7c8c3" Sample.no_body Sample.no_query (Some "/tmp/v.mp4"))
              Sample.store
              (addLectureToCourse Sample.env
                 (Sample.request "u1" "64b7f0c2a1d3e4f5a6b7c8c3" Sample.no_body Sample.no_query
                    (Some "/tmp/v.mp4")) Sample.store).2
              {| status := 201;
                 payload := LectureData "Lecture added successfully"
                   {| Lecture._id := "n1"; Lecture.title := None;
                      Lecture.description := None; Lecture.isPreview := false;
                      Lecture.order := 3; Lecture.videoUrl := "https://cdn//tmp/v.mp4";
                      Lecture.publicId := "pid//tmp/v.mp4";
                      Lecture.duration := 42 |} |})
    as (before & lecture & after & Hb & Hr & Ho & _ & Ha & Hl & _).
  - vm_compute. reflexivity.
  - injection Hr as <-.
    eexists _, before, _, after.
    split; [vm_compute; reflexivity|].
    split; [exact Hb|]. split; [reflexivity|]. split; [exact Ha|].
    rewrite Hl. cbn in Hb. injection Hb as <-. reflexivity.
Defined.

(** C8. A successful [updateCourseDetails] changes, on the stored course,
    only what the request supplies: each of [title], [subtitle],
    [description], [category], [level] and [price] keeps its value when the
    body does not supply it (and takes the supplied value otherwise);
    [thumbnail] keeps its value when no file is attached; the remaining
    fields are never touched; nor are the other courses, the users and the
    lectures. *)
Theorem update_only_supplied (env : Env) (req : Req.t) (st st' : Store)
    (resp : Response) :
  updateCourseDetails env req st = (Ok resp, st') ->
  exists old new,
    course_at st (Req.courseId req) = Some old /\
    course_at st' (Req.courseId req) = Some new /\
    resp = {| status := 200;
              payload := CourseData "Course updated successfully" (Some new) |} /\
    Course.title new = default (Course.title old) (b_title (Req.body req)) /\
    Course.subtitle new = default (Course.subtitle old) (b_subtitle (Req.body req)) /\
    Course.description new
      = default (Course.description old) (b_description (Req.body req)) /\
    Course.category new = default (Course.category old) (b_category (Req.body req)) /\
    Course.level new = default (Course.level old) (b_level (Req.body req)) /\
    Course.price new = default (Course.price old) (b_price (Req.body req)) /\
    (Req.file req = None -> Course.thumbnail new = Course.thumbnail old) /\
    (Course._id new = Course._id old /\
     Course.isPublished new = Course.isPublished old /\
     Course.instructor new = Course.instructor old /\
     Course.lectures new = Course.lectures old /\
     Course.enrolledStudents new = Course.enrolledStudents old /\
     Course.createdAt new = Course.createdAt old) /\
    (forall i, i <> Req.courseId req -> course_at st' i = course_at st i) /\
    users st' = users st /\ lecture_docs st' = lecture_docs st.
Proof.
  unfold updateCourseDetails, Course_findById, findById_result. unfold bind at 1.
  destruct (course_at st (Req.courseId req)) as [c|] eqn:Hc;
    [|destruct (ObjectId_isValid _); discriminate].
  unfold bind at 1, guard.
  destruct (id_is (Course.instructor c) (Req.id req)); [|discriminate].
  cbn [ret].
  set (t := match Req.file req with Some _ => _ | None => _ end).
  assert (Ht : exists th ms,
            t st = (Ok th, set_media (fun _ => ms) st) /\
            (Req.file req = None -> th = None)).
  { subst t. destruct (Req.file req) as [path|].
    - unfold bind, uploadMedia, deleteMediaFromCloudinary, ret.
      destruct (JS.truthy (Course.thumbnail c)); cbn;
        do 2 eexists; (split; [reflexivity | discriminate]).
    - exists None, (media st). split; [|reflexivity].
      destruct st; reflexivity. }
  destruct Ht as (th & ms & Hrun & Hth).
  unfold bind at 1. rewrite Hrun.
  unfold bind, Course_findByIdAndUpdate, ret.
  destruct (course_update_valid env _); [|discriminate].
  cbn [courses set_media].
  fold (course_at st (Req.courseId req)). rewrite Hc.
  cbn [fmap option_fmap option_map]. intros [= <- <-].
  pose proof (course_at_id _ _ _ Hc) as Hid.
  do 2 eexists. split; [reflexivity|]. split.
  { unfold course_at. cbn [courses set_courses set_media].
    apply find_update_first; [exact Hc|].
    apply id_is_true. symmetry. exact Hid. }
  split; [reflexivity|].
  cbn [apply_course_update Course.title Course.subtitle Course.description
       Course.category Course.level Course.price Course.thumbnail
       up_title up_subtitle up_description up_category up_level up_price
       up_thumbnail].
  repeat (split; [reflexivity|]).
  split; [intros Hf; rewrite (Hth Hf); reflexivity|].
  split; [repeat split|].
  split; [|split; reflexivity].
  intros i Hi. unfold course_at. cbn [courses set_courses set_media].
  apply find_update_first_other; [reflexivity|].
  intros x Hx. apply id_is_true in Hx. apply id_is_false. congruence.
Qed.

Lemma update_only_supplied_witness :
  exists st' new,
    updateCourseDetails Sample.env
      (Sample.request "u1" "64b7f0c2a1d3e4f5a6b7c8c1" Sample.title_body Sample.no_query None) Sample.store
    = (Ok {| status := 200;
             payload := CourseData "Course updated successfully" (Some new) |}, st') /\
    course_at st' "64b7f0c2a1d3e4f5a6b7c8c1" = Some new /\
    Course.title new = "Rocq 2" /\
    Course.subtitle new = "proofs" /\
    Course.thumbnail new = "thumb.png".
Proof.
  destruct (update_only_supplied Sample.env
              (Sample.request "u1" "64b7f0c2a1d3e4f5a6b7c8c1" Sample.title_body Sample.no_query None)
              Sample.store
              (updateCourseDetails Sample.env
                 (Sample.request "u1" "64b7f0c2a1d3e4f5a6b7c8c1" Sample.title_body Sample.no_query None)
                 Sample.store).2
              {| status := 200;
                 payload := CourseData "Course updated successfully"
                   (Some (apply_course_update
                            {| up_title := Some "Rocq 2"; up_subtitle := None;
                               up_description := None; up_category := None;
                               up_level := None; up_price := None;
                               up_thumbnail := None |}
                            (Sample.mk_course "64b7f0c2a1d3e4f5a6b7c8c1" true 1))) |})
    as (old & new & Ho & Hn & Hr & Ht & Hs & _ & _ & _ & _ & Hth & _).
  - vm_compute. reflexivity.
  - cbn in Ho. injection Ho as <-. injection Hr as Hnew.
    exists (updateCourseDetails Sample.env
              (Sample.request "u1" "64b7f0c2a1d3e4f5a6b7c8c1" Sample.title_body Sample.no_query None)
              Sample.store).2, new.
    split; [rewrite <- Hnew; vm_compute; reflexivity|].
    split; [exact Hn|]. split; [exact Ht|]. split; [exact Hs|].
    apply Hth. reflexivity.
Defined.

(** ** Profile update *)

(** C9 does not hold of the code.  [ann]'s stored avatar is the string
    ["old-avatar.png"], not the placeholder, and she sends a new avatar.
    With [req.user] undefined the handler uploads the file and then faults
    on [req.user.avatar]: nothing is deleted from the media store and the
    stored avatar is not replaced.  With [req.user] set to her stored
    document the handler reads [public_id] off a string and asks the media
    store to delete [undefined]; the previous avatar is still not deleted. *)
Theorem updateUserProfile_previous_avatar_not_deleted :
  user_at Sample.store "u1" = Some Sample.ann /\
  User.avatar Sample.ann = Str "old-avatar.png" /\
  updateUserProfile Sample.env Sample.avatar_request Sample.store
    = (Throw TypeError, set_media (fun _ => [Uploaded "/tmp/a.png"]) Sample.store) /\
  media (updateUserProfile Sample.env Sample.avatar_request_with_user Sample.store).2
    = [Uploaded "/tmp/a.png"; Destroyed Undefined].
Proof. repeat split. Qed.

(** The deletion only reaches the previous avatar when the stored avatar is
    an upload result and [req.user] is the stored document. *)
Lemma updateUserProfile_object_avatar_deleted :
  exists new,
    updateUserProfile Sample.env Sample.avatar_request_media Sample.store_media
    = (Ok {| status := 200;
             payload := UserData "User profile updated successfully" new |},
       {| users := [new; Sample.bob]; courses := []; lecture_docs := [];
          media := [Uploaded "/tmp/a.png"; Destroyed (Str "pid/old.png")] |}) /\
    User.avatar new = from_option Obj Undefined (cloudinary Sample.env "/tmp/a.png").
Proof. eexists. split; vm_compute; reflexivity. Qed.

(** The sibling handler [deleteUserAccount] does pass the stored avatar to
    the media store. *)
Lemma deleteUserAccount_deletes_avatar :
  media (deleteUserAccount Sample.env
           (Sample.request "u1" "" Sample.no_body Sample.no_query None)
           Sample.store).2
  = [Destroyed (Str "old-avatar.png")].
Proof. reflexivity. Qed.

(** The placeholder is never deleted: a user whose stored avatar is
    ["default-avatar.png"] gets the upload and no deletion. *)
Lemma updateUserProfile_placeholder_kept env req st u email path :
  b_email (Req.body req) = Some email ->
  Req.file req = Some path ->
  user_at st (Req.id req) = Some u ->
  User.avatar u = Str "default-avatar.png" ->
  media (updateUserProfile env req st).2 = media st ++ [Uploaded path].
Proof.
  intros He Hf Hu Ha. unfold updateUserProfile. rewrite He, Hf.
  unfold bind, uploadMedia, User_findById, User_findByIdAndUpdate.
  change (user_at (set_media _ st) (Req.id req)) with (user_at st (Req.id req)).
  rewrite Hu, Ha. cbn -[List.find].
  rewrite (bool_decide_eq_true_2 _ eq_refl). cbn -[List.find].
  destruct (user_update_valid env _ _ _); [|reflexivity].
  destruct (List.find _ (users st)); reflexivity.
Qed.

(** ** Page and limit parameters *)

Lemma digit_value_char d :
  (d < 10)%nat -> JS.digit_value (digit_char d) = Some (Z.of_nat d).
Proof.
  intros H. do 10 (destruct d as [|d]; [reflexivity|]). lia.
Qed.

Lemma digit_char_plain d :
  (d < 10)%nat ->
  JS.is_white (digit_char d) = false /\
  digit_char d <> "-"%char /\ digit_char d <> "+"%char /\
  digit_char d <> "x"%char /\ digit_char d <> "X"%char /\
  (digit_char d = "0"%char -> d = O).
Proof.
  intros H.
  do 10 (destruct d as [|d];
         [repeat split; try discriminate; try reflexivity|]).
  lia.
Qed.

Lemma append_head c s t : String c s +:+ t = String c (s +:+ t).
Proof. reflexivity. Qed.

Lemma append_empty_l s : "" +:+ s = s.
Proof. reflexivity. Qed.

(** The digits of a numeral are read to its end, where the rest does not go
    on with a digit. *)
Lemma digits_prefix_numeral ds rest acc :
  Forall (fun d => (d < 10)%nat) ds ->
  ends_numeral rest = true ->
  JS.digits_prefix 10 (numeral_string ds +:+ rest) (Some acc)
  = Some (fold_left (fun a d => a * 10 + Z.of_nat d) ds acc).
Proof.
  intros H Hrest. revert acc.
  induction H as [|d ds Hd _ IH]; intros acc;
    cbn [numeral_string fold_left].
  - rewrite append_empty_l. destruct rest as [|c r]; [reflexivity|].
    cbn [JS.digits_prefix]. unfold ends_numeral, decimal_digit in Hrest.
    destruct (JS.digit_value c) as [d|]; [|reflexivity].
    destruct (d <? 10); [discriminate | reflexivity].
  - rewrite append_head. cbn [JS.digits_prefix].
    rewrite (digit_value_char d Hd).
    destruct (Z.of_nat d <? 10) eqn:Hlt; [apply IH|].
    apply Z.ltb_ge in Hlt. lia.
Qed.

Lemma trim_start_white ws s :
  all_white ws = true -> JS.trim_start (ws +:+ s) = JS.trim_start s.
Proof.
  induction ws as [|c ws IH]; intros H; [reflexivity|].
  cbn [all_white] in H. apply andb_true_iff in H as [Hc Hws].
  rewrite append_head. cbn [JS.trim_start]. rewrite Hc. auto.
Qed.

(** The two inspections of [parseInt] on a string that starts with neither
    a sign nor a hexadecimal prefix. *)
Lemma no_sign_read (c : ascii) (r : string) :
  c <> "-"%char -> c <> "+"%char ->
  match String c r with
  | String "-" r' => (-1, r')
  | String "+" r' => (1, r')
  | _ => (1, String c r)
  end = (1, String c r).
Proof.
  intros Hm Hp.
  destruct c as [[] [] [] [] [] [] [] []]; try reflexivity; congruence.
Qed.

Lemma no_hex_read (c : ascii) (r : string) :
  (c = "0"%char ->
   match r with
   | String c' _ => c' <> "x"%char /\ c' <> "X"%char
   | EmptyString => True
   end) ->
  match String c r with
  | String "0" (String "x" r') => (16, r')
  | String "0" (String "X" r') => (16, r')
  | _ => (10, String c r)
  end = (10, String c r).
Proof.
  intros H.
  destruct c as [[] [] [] [] [] [] [] []]; try reflexivity.
  specialize (H eq_refl). destruct r as [|c' r]; [reflexivity|].
  destruct H as [Hx HX].
  destruct c' as [[] [] [] [] [] [] [] []]; try reflexivity; congruence.
Qed.

(** Up to 2^53 the rounding of [parseInt] changes nothing. *)
Lemma round_double_exact a : a <= 2 ^ 53 -> JS.round_double a = a.
Proof.
  intros H. unfold JS.round_double.
  destruct (a <=? 2 ^ 53) eqn:E; [reflexivity|].
  apply Z.leb_gt in E. lia.
Qed.

Lemma parseInt_unsigned (s : string) (c : ascii) (r : string) :
  s = String c r ->
  JS.is_white c = false -> c <> "-"%char -> c <> "+"%char ->
  JS.parseInt s =
    let '(R, s3) :=
      match s with
      | String "0" (String "x" r') => (16, r')
      | String "0" (String "X" r') => (16, r')
      | _ => (10, s)
      end in
    (fun n => 1 * JS.round_double n) <$> JS.digits_prefix R s3 None.
Proof.
  intros -> Hw Hm Hp. unfold JS.parseInt. cbn [JS.trim_start]. rewrite Hw.
  rewrite (no_sign_read c r Hm Hp). reflexivity.
Qed.

Lemma parseInt_white ws s :
  all_white ws = true -> JS.parseInt (ws +:+ s) = JS.parseInt s.
Proof.
  intros H. unfold JS.parseInt. rewrite (trim_start_white ws s H). reflexivity.
Qed.

Lemma parseInt_minus (s : string) :
  JS.parseInt (String "-" s) =
    let '(R, s3) :=
      match s with
      | String "0" (String "x" r') => (16, r')
      | String "0" (String "X" r') => (16, r')
      | _ => (10, s)
      end in
    (fun n => -1 * JS.round_double n) <$> JS.digits_prefix R s3 None.
Proof. reflexivity. Qed.

Lemma parseInt_plus (s : string) :
  JS.parseInt (String "+" s) =
    let '(R, s3) :=
      match s with
      | String "0" (String "x" r') => (16, r')
      | String "0" (String "X" r') => (16, r')
      | _ => (10, s)
      end in
    (fun n => 1 * JS.round_double n) <$> JS.digits_prefix R s3 None.
Proof. reflexivity. Qed.

(** [parseInt] on white space, a sign and a decimal numeral which ends
    there or goes on with something else than a digit: the value of the
    numeral, rounded, with the sign. *)
Lemma parseInt_numeral ws sg ds rest :
  all_white ws = true -> ds <> [] ->
  Forall (fun d => (d < 10)%nat) ds ->
  ends_numeral rest = true -> hex_prefix ds rest = false ->
  JS.parseInt (ws +:+ sign_string sg +:+ numeral_string ds +:+ rest)
  = Some (sign_factor sg * JS.round_double (numeral_value ds)).
Proof.
  intros Hws Hne Hds Hrest Hhex.
  destruct ds as [|d ds]; [congruence|].
  inversion Hds as [|? ? Hd Hds']; subst.
  destruct (digit_char_plain d Hd) as (Hw & Hm & Hp & Hx & HX & H0).
  assert (Hdigits :
    JS.digits_prefix 10 (numeral_string (d :: ds) +:+ rest) None
    = Some (numeral_value (d :: ds))).
  { cbn [numeral_string]. rewrite append_head. cbn [JS.digits_prefix].
    rewrite (digit_value_char d Hd).
    destruct (Z.of_nat d <? 10) eqn:Hlt; [|apply Z.ltb_ge in Hlt; lia].
    apply digits_prefix_numeral; assumption. }
  assert (Hradix :
    match numeral_string (d :: ds) +:+ rest with
    | String "0" (String "x" r') => (16, r')
    | String "0" (String "X" r') => (16, r')
    | _ => (10, numeral_string (d :: ds) +:+ rest)
    end = (10, numeral_string (d :: ds) +:+ rest)).
  { cbn [numeral_string]. rewrite append_head. apply no_hex_read.
    intros Hzero. apply H0 in Hzero. subst d.
    destruct ds as [|e ds]; cbn [numeral_string].
    - rewrite append_empty_l. destruct rest as [|c' r]; [exact I|].
      cbn [hex_prefix] in Hhex. apply orb_false_iff in Hhex as [Ex EX].
      apply Ascii.eqb_neq in Ex, EX. split; assumption.
    - rewrite append_head. inversion Hds' as [|? ? He _]; subst.
      destruct (digit_char_plain e He) as (_ & _ & _ & Ex & EX & _).
      split; assumption. }
  rewrite (parseInt_white ws _ Hws).
  destruct sg; cbn [sign_string sign_factor].
  - rewrite append_empty_l.
    rewrite (parseInt_unsigned (numeral_string (d :: ds) +:+ rest)
               (digit_char d) (numeral_string ds +:+ rest) eq_refl Hw Hm Hp).
    rewrite Hradix. cbv beta iota. rewrite Hdigits. reflexivity.
  - rewrite append_head, append_empty_l, parseInt_plus.
    rewrite Hradix. cbv beta iota. rewrite Hdigits. reflexivity.
  - rewrite append_head, append_empty_l, parseInt_minus.
    rewrite Hradix. cbv beta iota. rewrite Hdigits. reflexivity.
Qed.

(** [parseInt] on white space and a sign after which no number starts:
    [NaN]. *)
Lemma parseInt_no_number ws sg rest :
  all_white ws = true -> no_number sg rest = true ->
  JS.parseInt (ws +:+ sign_string sg +:+ rest) = None.
Proof.
  intros Hws Hno. rewrite (parseInt_white ws _ Hws).
  destruct rest as [|c r].
  { destruct sg; reflexivity. }
  cbn [no_number] in Hno. apply andb_true_iff in Hno as [Hdig Hsg].
  apply negb_true_iff in Hdig.
  assert (Hzero : c <> "0"%char) by (intros ->; discriminate).
  assert (Hread : forall f : Z -> Z,
    (let '(R, s3) :=
       match String c r with
       | String "0" (String "x" r') => (16, r')
       | String "0" (String "X" r') => (16, r')
       | _ => (10, String c r)
       end in f <$> JS.digits_prefix R s3 None) = None).
  { intros f. rewrite no_hex_read by (intros ->; congruence).
    cbn [JS.digits_prefix]. unfold decimal_digit in Hdig.
    destruct (JS.digit_value c) as [d|]; [|reflexivity].
    rewrite Hdig. reflexivity. }
  destruct sg; cbn [sign_string].
  - rewrite append_empty_l.
    apply andb_true_iff in Hsg as [Hsg Hminus].
    apply andb_true_iff in Hsg as [Hwhite Hplus].
    apply negb_true_iff in Hwhite, Hplus, Hminus.
    apply Ascii.eqb_neq in Hplus, Hminus.
    rewrite (parseInt_unsigned (String c r) c r eq_refl Hwhite Hminus Hplus).
    apply Hread.
  - rewrite append_head, append_empty_l, parseInt_plus. apply Hread.
  - rewrite append_head, append_empty_l, parseInt_minus. apply Hread.
Qed.

Lemma num_or_signed sg v d :
  JS.num_or (Some (sign_factor sg * v)) d
  = if v =? 0 then d else sign_factor sg * v.
Proof.
  unfold JS.num_or.
  destruct (Z.eqb_spec v 0) as [->|Hv].
  - rewrite Z.mul_0_r. reflexivity.
  - destruct (Z.eqb_spec (sign_factor sg * v) 0) as [E|]; [|reflexivity].
    destruct sg; cbn [sign_factor] in E; lia.
Qed.

(** C10. The [page] and [limit] parameters of [getPublishedCourses], by the
    shape of the string that is sent.  An absent parameter counts as the
    default, [1] for the page and [10] for the limit.  So does a string in
    which, after leading white space and a sign, no number starts (it ends
    there or goes on with something that is no digit), and so does a
    numeral of value zero.  Any other decimal numeral, preceded by white
    space and a sign and followed by anything that is no digit, is taken
    with its value and its sign, a negative one included, as long as the
    value does not exceed 2^53; and as long as the page, the limit and
    their product stay within 2^53 the number of courses to skip is
    [(page - 1) * limit], whatever their signs. *)
Theorem page_limit_defaults (q : Query) :
  (q_page q = None -> page_of q = 1) /\
  (q_limit q = None -> limit_of q = 10) /\
  (forall ws sg rest,
     all_white ws = true -> no_number sg rest = true ->
     (q_page q = Some (ws +:+ sign_string sg +:+ rest) -> page_of q = 1) /\
     (q_limit q = Some (ws +:+ sign_string sg +:+ rest) -> limit_of q = 10)) /\
  (forall ws sg ds rest,
     all_white ws = true -> ds <> [] ->
     Forall (fun d => (d < 10)%nat) ds ->
     ends_numeral rest = true -> hex_prefix ds rest = false ->
     numeral_value ds <= 2 ^ 53 ->
     (q_page q = Some (ws +:+ sign_string sg +:+ numeral_string ds +:+ rest) ->
      page_of q = if numeral_value ds =? 0 then 1
                  else sign_factor sg * numeral_value ds) /\
     (q_limit q = Some (ws +:+ sign_string sg +:+ numeral_string ds +:+ rest) ->
      limit_of q = if numeral_value ds =? 0 then 10
                   else sign_factor sg * numeral_value ds)) /\
  (Z.abs (page_of q) <= 2 ^ 53 -> Z.abs (limit_of q) <= 2 ^ 53 ->
   Z.abs ((page_of q - 1) * limit_of q) <= 2 ^ 53 ->
   skip_of q = (page_of q - 1) * limit_of q).
Proof.
  unfold page_of, limit_of, skip_of.
  split; [intros ->; reflexivity|].
  split; [intros ->; reflexivity|].
  split.
  { intros ws sg rest Hws Hno.
    split; intros ->; cbn [JS.ToString default from_option id];
      rewrite (parseInt_no_number ws sg rest Hws Hno); reflexivity. }
  split; [|reflexivity].
  intros ws sg ds rest Hws Hne Hds Hrest Hhex Hbound.
  split; intros ->; cbn [JS.ToString default from_option id];
    rewrite (parseInt_numeral ws sg ds rest Hws Hne Hds Hrest Hhex),
      (round_double_exact _ Hbound); apply num_or_signed.
Qed.

Lemma page_limit_defaults_witness :
  page_of (Sample.paged None None) = 1 /\
  limit_of (Sample.paged None None) = 10 /\
  page_of (Sample.paged (Some "abc") None) = 1 /\
  page_of (Sample.paged (Some " -") None) = 1 /\
  limit_of (Sample.paged None (Some "ten")) = 10 /\
  page_of (Sample.paged (Some "0") None) = 1 /\
  limit_of (Sample.paged None (Some "-00")) = 10 /\
  page_of (Sample.paged (Some " -5") None) = -5 /\
  page_of (Sample.paged (Some "+12px") None) = 12 /\
  page_of (Sample.paged (Some "-3") (Some "-25")) = -3 /\
  limit_of (Sample.paged (Some "-3") (Some "-25")) = -25 /\
  skip_of (Sample.paged (Some "-3") (Some "-25")) = 100.
Proof.
  assert (Hd : forall ds : list nat,
            forallb (fun d => Nat.ltb d 10) ds = true ->
            Forall (fun d => (d < 10)%nat) ds).
  { intros ds H. apply Forall_forall. intros d Hin.
    rewrite forallb_forall in H. apply Nat.ltb_lt, H, list_elem_of_In, Hin. }
  pose proof (page_limit_defaults (Sample.paged None None)) as (H1 & H2 & _).
  pose proof (page_limit_defaults (Sample.paged (Some "abc") None))
    as (_ & _ & H3 & _).
  pose proof (page_limit_defaults (Sample.paged (Some " -") None))
    as (_ & _ & H4 & _).
  pose proof (page_limit_defaults (Sample.paged None (Some "ten")))
    as (_ & _ & H5 & _).
  pose proof (page_limit_defaults (Sample.paged (Some "0") None))
    as (_ & _ & _ & H6 & _).
  pose proof (page_limit_defaults (Sample.paged None (Some "-00")))
    as (_ & _ & _ & H7 & _).
  pose proof (page_limit_defaults (Sample.paged (Some " -5") None))
    as (_ & _ & _ & H8 & _).
  pose proof (page_limit_defaults (Sample.paged (Some "+12px") None))
    as (_ & _ & _ & H9 & _).
  pose proof (page_limit_defaults (Sample.paged (Some "-3") (Some "-25")))
    as (_ & _ & _ & H10 & H11).
  split; [apply H1; reflexivity|].
  split; [apply H2; reflexivity|].
  split; [apply (proj1 (H3 "" NoSign "abc" eq_refl eq_refl)); reflexivity|].
  split; [apply (proj1 (H4 " " MinusSign "" eq_refl eq_refl)); reflexivity|].
  split; [apply (proj2 (H5 "" NoSign "ten" eq_refl eq_refl)); reflexivity|].
  split.
  { apply (proj1 (H6 "" NoSign [0%nat] "" eq_refl ltac:(discriminate)
                     (Hd [0%nat] eq_refl) eq_refl eq_refl ltac:(vm_compute; discriminate))).
    reflexivity. }
  split.
  { apply (proj2 (H7 "" MinusSign [0%nat; 0%nat] "" eq_refl ltac:(discriminate)
                     (Hd [0%nat; 0%nat] eq_refl) eq_refl eq_refl ltac:(vm_compute; discriminate))).
    reflexivity. }
  split.
  { apply (proj1 (H8 " " MinusSign [5%nat] "" eq_refl ltac:(discriminate)
                     (Hd [5%nat] eq_refl) eq_refl eq_refl ltac:(vm_compute; discriminate))).
    reflexivity. }
  split.
  { apply (proj1 (H9 "" PlusSign [1%nat; 2%nat] "px" eq_refl ltac:(discriminate)
                     (Hd [1%nat; 2%nat] eq_refl) eq_refl eq_refl ltac:(vm_compute; discriminate))).
    reflexivity. }
  assert (Hp : page_of (Sample.paged (Some "-3") (Some "-25")) = -3).
  { apply (proj1 (H10 "" MinusSign [3%nat] "" eq_refl ltac:(discriminate)
                      (Hd [3%nat] eq_refl) eq_refl eq_refl ltac:(vm_compute; discriminate))).
    reflexivity. }
  assert (Hl : limit_of (Sample.paged (Some "-3") (Some "-25")) = -25).
  { apply (proj2 (H10 "" MinusSign [2%nat; 5%nat] "" eq_refl ltac:(discriminate)
                      (Hd [2%nat; 5%nat] eq_refl) eq_refl eq_refl ltac:(vm_compute; discriminate))).
    reflexivity. }
  split; [exact Hp|]. split; [exact Hl|].
  rewrite H11; rewrite ?Hp, ?Hl; [reflexivity | | | ];
    vm_compute; discriminate.
Defined.

Lemma public_queries_published_only_witness :
  exists resp st' data n,
    searchCourses Sample.regex_test Sample.range_cast
      (Sample.request "u2" "" Sample.no_body Sample.no_query None) Sample.store
    = (Ok resp, st') /\
    payload resp = CourseList data n /\
    Forall (fun c => Course.isPublished (Course.base c) = true) data.
Proof.
  destruct (searchCourses Sample.regex_test Sample.range_cast
              (Sample.request "u2" "" Sample.no_body Sample.no_query None)
              Sample.store) as [[resp|e] st'] eqn:Hrun.
  - destruct (proj1 (proj2 (proj2 (public_queries_published_only
                Sample.regex_test Sample.range_cast
                (Sample.request "u2" "" Sample.no_body Sample.no_query None)
                Sample.store))) resp st' Hrun) as (data & n & Hpay & Hall).
    exists resp, st', data, n. split; [reflexivity|]. split; assumption.
  - vm_compute in Hrun. discriminate.
Defined.

(** * Further properties of the handlers *)

(** ** Sorting *)

Lemma sort_cmp_antisym spec a b :
  sort_cmp spec b a = CompOpp (sort_cmp spec a b).
Proof.
  induction spec as [|[k d] spec IH]; simpl; [reflexivity|].
  rewrite (Z.compare_antisym (d * sort_value k a) (d * sort_value k b)).
  destruct (d * sort_value k a ?= d * sort_value k b); simpl; auto.
Qed.

Lemma sort_cmp_trans spec a b c :
  sort_cmp spec a b <> Gt -> sort_cmp spec b c <> Gt -> sort_cmp spec a c <> Gt.
Proof.
  induction spec as [|[k d] spec IH]; simpl; [intros _ _; discriminate|].
  destruct (Z.compare_spec (d * sort_value k a) (d * sort_value k b));
    destruct (Z.compare_spec (d * sort_value k b) (d * sort_value k c));
    destruct (Z.compare_spec (d * sort_value k a) (d * sort_value k c));
    try lia; try congruence; auto.
Qed.

Lemma sort_le_total spec : Total (sort_le spec).
Proof.
  intros a b. unfold sort_le.
  destruct (sort_cmp (map_to_list spec) a b) eqn:Hab; [left; discriminate .. |].
  right. rewrite sort_cmp_antisym, Hab. discriminate.
Qed.

Lemma sort_le_trans spec : Transitive (sort_le spec).
Proof. intros a b c. apply sort_cmp_trans. Qed.

Lemma sort_docs_sorted spec l : StronglySorted (sort_le spec) (sort_docs spec l).
Proof.
  unfold sort_docs.
  apply (@StronglySorted_merge_sort _ (sort_le spec) (sort_le_dec spec)
           (sort_le_trans spec) (sort_le_total spec)).
Qed.

Lemma sort_docs_elem spec l c : c ∈ sort_docs spec l <-> c ∈ l.
Proof. unfold sort_docs. now rewrite merge_sort_Permutation. Qed.

(** A one-key sort specification compares the field, in the direction
    given. *)
Lemma sort_le_one_key k d a b :
  sort_le (<[k := d]> ∅) a b <-> d * sort_value k a <= d * sort_value k b.
Proof.
  unfold sort_le. rewrite insert_empty, map_to_list_singleton. simpl.
  destruct (Z.compare_spec (d * sort_value k a) (d * sort_value k b));
    split; intros; try lia; try discriminate; congruence.
Qed.

Lemma StronglySorted_impl {A} (R R' : A -> A -> Prop) l :
  (forall a b, R a b -> R' a b) -> StronglySorted R l -> StronglySorted R' l.
Proof.
  intros HR. induction 1 as [|x l Hl IH Hx]; constructor; [exact IH|].
  eapply Forall_impl; [exact Hx | intros b; apply HR].
Qed.

Lemma StronglySorted_sublist {A} (R : A -> A -> Prop) l1 l2 :
  sublist l1 l2 -> StronglySorted R l2 -> StronglySorted R l1.
Proof.
  induction 1 as [|x l1 l2 Hsub IH|x l1 l2 Hsub IH]; intros Hs.
  - constructor.
  - apply StronglySorted_inv in Hs as [Hs Hx]. constructor; [auto|].
    apply Forall_forall. intros y Hy. rewrite Forall_forall in Hx.
    apply Hx. eapply sublist_subseteq; eauto.
  - apply StronglySorted_inv in Hs as [Hs _]. auto.
Qed.


Lemma StronglySorted_map_base (R : Course.doc -> Course.doc -> Prop) data :
  StronglySorted R (List.map Course.base data) ->
  StronglySorted (fun a b => R (Course.base a) (Course.base b)) data.
Proof.
  induction data as [|x data IH]; simpl; intros Hs; [constructor|].
  apply StronglySorted_inv in Hs as [Hs Hx]. constructor; [auto|].
  apply Forall_forall. intros y Hy. rewrite Forall_forall in Hx.
  apply Hx. apply list_elem_of_In, in_map, list_elem_of_In, Hy.
Qed.

Section Ordering.

Variable regex_test : string -> string -> option (string -> bool).
Variable range_cast : option string -> option string -> option (Z -> bool).

(** What [find] returns is a part of the sorted matches, in their order. *)
Lemma Course_find_sorted crit spec sk lm st l st' :
  Course_find regex_test range_cast crit spec sk lm st = (Ok l, st') ->
  StronglySorted (sort_le spec) l.
Proof.
  unfold Course_find.
  destruct (criteria_pred regex_test range_cast crit) as [p|]; [|discriminate].
  unfold apply_skip, apply_limit.
  destruct (_ <? 0); [discriminate|]. intros [= <- _].
  pose proof (sort_docs_sorted spec (List.filter p (courses st))) as Hs.
  assert (Hd : StronglySorted (sort_le spec)
                 (drop (Z.to_nat (default 0 sk))
                    (sort_docs spec (List.filter p (courses st))))).
  { eapply StronglySorted_sublist; [apply sublist_drop | exact Hs]. }
  destruct (_ =? 0); [exact Hd|].
  eapply StronglySorted_sublist; [apply sublist_take | exact Hd].
Qed.

(** X1. The courses on a page of the public listing come newest first. *)
Theorem listing_page_newest_first (req : Req.t) (st st' : Store) (resp : Response) :
  getPublishedCourses regex_test range_cast req st = (Ok resp, st') ->
  exists data pg,
    payload resp = CoursePage data pg /\
    StronglySorted (fun a b => newest_first (Course.base a) (Course.base b)) data.
Proof.
  unfold getPublishedCourses, bind.
  destruct (Course_find _ _ _ _ _ _ st) as [[l|e] st1] eqn:Hfind; [|discriminate].
  destruct (populate_instructor_base l st1) as (data & Hpop & Hbase).
  rewrite Hpop.
  destruct (Course_countDocuments _ _ _ st1) as [[n|e] st3]; [|discriminate].
  intros [= <- _]. do 2 eexists. split; [reflexivity|].
  apply StronglySorted_map_base. rewrite Hbase.
  apply Course_find_sorted in Hfind.
  eapply StronglySorted_impl; [|exact Hfind].
  intros a b Hab.
  pose proof (proj1 (sort_le_one_key "createdAt" (-1) a b) Hab) as Hle.
  unfold newest_first. unfold sort_value in Hle.
  cbn [course_field] in Hle. lia.
Qed.

End Ordering.

Lemma listing_page_newest_first_witness :
  exists resp st' data pg,
    getPublishedCourses Sample.regex_test Sample.range_cast
      (Sample.request "u2" "" Sample.no_body Sample.no_query None) Sample.store
    = (Ok resp, st') /\
    payload resp = CoursePage data pg /\
    StronglySorted (fun a b => newest_first (Course.base a) (Course.base b)) data.
Proof.
  destruct (getPublishedCourses Sample.regex_test Sample.range_cast
              (Sample.request "u2" "" Sample.no_body Sample.no_query None)
              Sample.store) as [[resp|e] st'] eqn:Hrun.
  - destruct (listing_page_newest_first Sample.regex_test Sample.range_cast
                _ _ _ _ Hrun) as (data & pg & Hpay & Hs).
    exists resp, st', data, pg. split; [reflexivity|]. split; assumption.
  - vm_compute in Hrun. discriminate.
Defined.

(** ** Search *)


Lemma searchCriteria_lookup q k cl :
  searchCriteria q !! k = Some cl <->
  (k = "isPublished" /\ cl = Field (EqBool true)) \/
  (k = "$or" /\
   cl = AnyOf [("title", regex_i (default "" (q_query q)));
               ("subtitle", regex_i (default "" (q_query q)));
               ("description", regex_i (default "" (q_query q)))]) \/
  (k = "category" /\ (0 <? List.length (default [] (q_categories q)))%nat = true /\
   cl = Field (In_ (default [] (q_categories q)))) \/
  (k = "level" /\ exists l, q_level q = Some l /\ JS.truthy l = true /\
   cl = Field (EqStr l)) \/
  (k = "price" /\ exists r, q_priceRange q = Some r /\ JS.truthy r = true /\
   cl = Field (Range (JS.split "-" r !! 0%nat) (JS.split "-" r !! 1%nat))).
Proof.
  unfold searchCriteria.
  destruct (q_priceRange q) as [r|]; [destruct (JS.truthy r) eqn:Hr|];
    (destruct (q_level q) as [l|]; [destruct (JS.truthy l) eqn:Hl|]);
    destruct (0 <? _)%nat eqn:Hc;
    rewrite ?lookup_insert_Some, ?lookup_empty;
    (split; [intros H; decompose [and or] H; subst; try discriminate; eauto 12 | intros H; decompose [and or ex] H; subst; try discriminate; try congruence; intuition congruence]).
Qed.


Section SearchFacts.

Variable regex_test : string -> string -> option (string -> bool).
Variable range_cast : option string -> option string -> option (Z -> bool).

(** A document passes a filter exactly when it passes the clause of every
    key of the filter. *)
Lemma criteria_pred_true crit p c :
  criteria_pred regex_test range_cast crit = Some p ->
  p c = true <->
  forall k cl f, crit !! k = Some cl ->
    clause_pred regex_test range_cast (k, cl) = Some f -> f c = true.
Proof.
  unfold criteria_pred. intros Hp.
  destruct (mapM _ (map_to_list crit)) as [fs|] eqn:Hfs; [|discriminate].
  injection Hp as <-. apply mapM_Some_1 in Hfs.
  rewrite forallb_forall. split.
  - intros Hall k cl f Hk Hf.
    apply elem_of_map_to_list, list_elem_of_lookup in Hk as [i Hi].
    destruct (Forall2_lookup_l _ _ _ _ _ Hfs Hi) as (f' & Hf' & Hcl).
    assert (f' = f) as -> by congruence.
    apply Hall, list_elem_of_In, list_elem_of_lookup. eauto.
  - intros Hall f Hin.
    apply list_elem_of_In, list_elem_of_lookup in Hin as [i Hi].
    destruct (Forall2_lookup_r _ _ _ _ _ Hfs Hi) as ([k cl] & Hkc & Hcl).
    apply (Hall k cl f); [|exact Hcl].
    apply elem_of_map_to_list, list_elem_of_lookup. eauto.
Qed.

Lemma criteria_pred_is_Some crit :
  (forall k cl, crit !! k = Some cl ->
     is_Some (clause_pred regex_test range_cast (k, cl))) ->
  is_Some (criteria_pred regex_test range_cast crit).
Proof.
  intros H. unfold criteria_pred. apply fmap_is_Some, mapM_is_Some.
  apply Forall_forall. intros [k cl] Hin.
  apply H, elem_of_map_to_list, Hin.
Qed.

Lemma text_clause_pred (query : string) (text_ok : string -> bool) :
  regex_test query "i" = Some text_ok ->
  exists f,
    clause_pred regex_test range_cast
      ("$or", AnyOf [("title", regex_i query); ("subtitle", regex_i query);
                     ("description", regex_i query)]) = Some f /\
    forall c, f c = text_ok (Course.title c) || text_ok (Course.subtitle c)
                    || text_ok (Course.description c).
Proof.
  intros Hre. eexists. split.
  - unfold clause_pred, on_field, atom_pred, regex_i. cbn. rewrite Hre. cbn.
    reflexivity.
  - intros c. cbn. rewrite orb_false_r, orb_assoc. reflexivity.
Qed.

Lemma text_clause_refused (query : string) :
  regex_test query "i" = None ->
  clause_pred regex_test range_cast
    ("$or", AnyOf [("title", regex_i query); ("subtitle", regex_i query);
                   ("description", regex_i query)]) = None.
Proof.
  intros Hre. unfold clause_pred, on_field, atom_pred, regex_i. cbn.
  rewrite Hre. reflexivity.
Qed.

(** X2. [searchCourses] and its text query, which goes to the database as a
    regular expression.  When the database refuses it as ill-formed, the
    search fails with the database's error.  When the database accepts it,
    and accepts the operands of the price range when one is given, the
    search answers with exactly the stored courses that are published,
    match the text query in title, subtitle or description, have one of the
    categories when categories are given, have the level when a level is
    given, and pass the price test when a price range is given; [count] is
    the length of [data]. *)
Theorem search_exact (req : Req.t) (st : Store)
    (text_ok : string -> bool) (price_ok : Z -> bool) :
  (regex_test (default "" (q_query (Req.query req))) "i" = None ->
   searchCourses regex_test range_cast req st = (Throw DriverError, st)) /\
  (regex_test (default "" (q_query (Req.query req))) "i" = Some text_ok ->
   (forall r, q_priceRange (Req.query req) = Some r -> JS.truthy r = true ->
      range_cast (JS.split "-" r !! 0%nat) (JS.split "-" r !! 1%nat)
      = Some price_ok) ->
   exists data,
     searchCourses regex_test range_cast req st =
       (Ok {| status := 200;
              payload := CourseList data (Z.of_nat (List.length data)) |}, st) /\
     forall c, c ∈ List.map Course.base data <->
       c ∈ courses st /\
       Course.isPublished c = true /\
       text_ok (Course.title c) || text_ok (Course.subtitle c)
         || text_ok (Course.description c) = true /\
       (default [] (q_categories (Req.query req)) <> [] ->
          Course.category c ∈ default [] (q_categories (Req.query req))) /\
       (forall l, q_level (Req.query req) = Some l -> JS.truthy l = true ->
          Course.level c = l) /\
       (forall r, q_priceRange (Req.query req) = Some r -> JS.truthy r = true ->
          price_ok (Course.price c) = true)).
Proof.
  set (q := Req.query req) in *. split.
  { intros Hre. unfold searchCourses, bind, Course_find. fold q.
    destruct (criteria_pred regex_test range_cast (searchCriteria q))
      as [p|] eqn:Hp; [|reflexivity].
    exfalso. unfold criteria_pred in Hp.
    destruct (mapM _ (map_to_list (searchCriteria q))) as [fs|] eqn:Hfs;
      [|discriminate].
    apply mapM_Some_1 in Hfs.
    assert (Hk : ("$or", AnyOf [("title", regex_i (default "" (q_query q)));
                                ("subtitle", regex_i (default "" (q_query q)));
                                ("description", regex_i (default "" (q_query q)))])
                 ∈ map_to_list (searchCriteria q)).
    { apply elem_of_map_to_list, searchCriteria_lookup. right. left. auto. }
    apply list_elem_of_lookup in Hk as [i Hi].
    destruct (Forall2_lookup_l _ _ _ _ _ Hfs Hi) as (f' & _ & Hcl).
    rewrite (text_clause_refused _ Hre) in Hcl. discriminate. }
  intros Hre Hrange.
  destruct (text_clause_pred _ _ Hre) as (ftext & Hftext & Htext_spec).
  destruct (criteria_pred_is_Some (searchCriteria q)) as [p Hp].
  { intros k cl Hk. apply searchCriteria_lookup in Hk.
    destruct Hk as [[-> ->]|[[-> ->]|[(-> & _ & ->)|[(-> & l & _ & _ & ->)|
                    (-> & r & Hr & Ht & ->)]]]]; try (eexists; reflexivity).
    - eexists. exact Hftext.
    - unfold clause_pred, on_field, atom_pred. cbn [fst snd].
      rewrite (Hrange r Hr Ht). eexists. reflexivity. }
  unfold searchCourses, bind, Course_find. fold q. rewrite Hp.
  cbn [default from_option id]. unfold apply_skip, apply_limit.
  change (0 <? 0) with false. change (0 =? 0) with true.
  change (Z.to_nat 0) with 0%nat. rewrite drop_0. cbv beta iota.
  destruct (populate_instructor_base
              (sort_docs (sortOptions q) (List.filter p (courses st))) st)
    as (data & Hpop & Hbase).
  rewrite Hpop. exists data. split; [reflexivity|].
  intros c. rewrite Hbase, sort_docs_elem, list_elem_of_In, filter_In,
    <- list_elem_of_In.
  rewrite (criteria_pred_true _ _ c Hp).
  split.
  - intros [Hin Hall]. split; [exact Hin|].
    split.
    { pose proof (Hall "isPublished" _ _
        (proj2 (searchCriteria_lookup q _ _) (or_introl (conj eq_refl eq_refl)))
        eq_refl) as H. cbn in H. apply bool_decide_eq_true in H. congruence. }
    split.
    { pose proof (Hall "$or" _ _
        (proj2 (searchCriteria_lookup q _ _)
           (or_intror (or_introl (conj eq_refl eq_refl)))) Hftext) as H.
      rewrite <- Htext_spec. exact H. }
    split.
    { intros Hne.
      assert (Hlen : (0 <? List.length (default [] (q_categories q)))%nat = true).
      { destruct (default [] (q_categories q)); [congruence | reflexivity]. }
      pose proof (Hall "category" _ _
        (proj2 (searchCriteria_lookup q _ _)
           (or_intror (or_intror (or_introl (conj eq_refl (conj Hlen eq_refl))))))
        eq_refl) as H.
      cbn in H. apply bool_decide_eq_true in H. exact H. }
    split.
    { intros l Hl Ht.
      pose proof (Hall "level" (Field (EqStr l)) _
        (proj2 (searchCriteria_lookup q _ _)
           (or_intror (or_intror (or_intror (or_introl
              (conj eq_refl (ex_intro _ l (conj Hl (conj Ht eq_refl)))))))))
        eq_refl) as H.
      cbn in H. apply bool_decide_eq_true in H. congruence. }
    { intros r Hr Ht.
      assert (Hcl : clause_pred regex_test range_cast
                ("price", Field (Range (JS.split "-" r !! 0%nat)
                                       (JS.split "-" r !! 1%nat)))
              = Some (fun c => price_ok (Course.price c))).
      { unfold clause_pred, on_field, atom_pred. cbn [fst snd].
        rewrite (Hrange r Hr Ht). reflexivity. }
      exact (Hall "price" _ _
        (proj2 (searchCriteria_lookup q _ _)
           (or_intror (or_intror (or_intror (or_intror
              (conj eq_refl (ex_intro _ r (conj Hr (conj Ht eq_refl)))))))))
        Hcl). }
  - intros (Hin & Hpub & Htext & Hcat & Hlev & Hprice). split; [exact Hin|].
    intros k cl f Hk Hf. apply searchCriteria_lookup in Hk.
    destruct Hk as [[-> ->]|[[-> ->]|[(-> & Hlen & ->)|[(-> & l & Hl & Ht & ->)|
                    (-> & r & Hr & Ht & ->)]]]].
    + injection Hf as <-. cbn. rewrite Hpub. reflexivity.
    + assert (f = ftext) as -> by congruence.
      rewrite Htext_spec. exact Htext.
    + injection Hf as <-. cbn. apply bool_decide_eq_true, Hcat.
      destruct (default [] (q_categories q)); [discriminate | congruence].
    + injection Hf as <-. cbn. apply bool_decide_eq_true.
      symmetry. exact (Hlev l Hl Ht).
    + unfold clause_pred, on_field, atom_pred in Hf. cbn [fst snd] in Hf.
      rewrite (Hrange r Hr Ht) in Hf. injection Hf as <-.
      exact (Hprice r Hr Ht).
Qed.

End SearchFacts.

Section SearchOrder.

Variable regex_test : string -> string -> option (string -> bool).
Variable range_cast : option string -> option string -> option (Z -> bool).

(** X3. The answer of [searchCourses] is ordered by the sort key: newest
    first when no key is given or the key is ["newest"], oldest first for
    ["oldest"], by ascending price for ["price-low"] and by descending price
    for ["price-high"]. *)
Theorem search_order (req : Req.t) (st st' : Store) (resp : Response) :
  searchCourses regex_test range_cast req st = (Ok resp, st') ->
  exists data n,
    payload resp = CourseList data n /\
    (q_sortBy (Req.query req) = None \/ q_sortBy (Req.query req) = Some "newest" ->
       StronglySorted newest_first (List.map Course.base data)) /\
    (q_sortBy (Req.query req) = Some "oldest" ->
       StronglySorted oldest_first (List.map Course.base data)) /\
    (q_sortBy (Req.query req) = Some "price-low" ->
       StronglySorted cheapest_first (List.map Course.base data)) /\
    (q_sortBy (Req.query req) = Some "price-high" ->
       StronglySorted dearest_first (List.map Course.base data)).
Proof.
  unfold searchCourses, bind.
  destruct (Course_find _ _ _ _ _ _ st) as [[l|e] st1] eqn:Hfind; [|discriminate].
  destruct (populate_instructor_base l st1) as (data & Hpop & Hbase).
  rewrite Hpop. intros [= <- _]. do 2 eexists. split; [reflexivity|].
  rewrite Hbase. apply Course_find_sorted in Hfind.
  assert (Hkey : forall k d (R : Course.doc -> Course.doc -> Prop),
            sortOptions (Req.query req) = <[k := d]> ∅ ->
            (forall a b, d * sort_value k a <= d * sort_value k b -> R a b) ->
            StronglySorted R l).
  { intros k d R Hopt HR. rewrite Hopt in Hfind.
    eapply StronglySorted_impl; [|exact Hfind].
    intros a b Hab. apply HR, (sort_le_one_key k d a b), Hab. }
  repeat split.
  - intros Hs. apply (Hkey "createdAt" (-1)).
    + unfold sortOptions. destruct Hs as [-> | ->]; reflexivity.
    + intros a b. unfold sort_value, newest_first. cbn [course_field]. lia.
  - intros Hs. apply (Hkey "createdAt" 1).
    + unfold sortOptions. rewrite Hs. reflexivity.
    + intros a b. unfold sort_value, oldest_first. cbn [course_field]. lia.
  - intros Hs. apply (Hkey "price" 1).
    + unfold sortOptions. rewrite Hs. reflexivity.
    + intros a b. unfold sort_value, cheapest_first. cbn [course_field]. lia.
  - intros Hs. apply (Hkey "price" (-1)).
    + unfold sortOptions. rewrite Hs. reflexivity.
    + intros a b. unfold sort_value, dearest_first. cbn [course_field]. lia.
Qed.

End SearchOrder.

(** ** Lectures of a course *)

Lemma order_le_total : Total order_le.
Proof. intros a b. unfold order_le. lia. Qed.

Lemma order_le_trans : Transitive order_le.
Proof. intros a b c. unfold order_le. lia. Qed.

(** The lectures that [populate] attaches to a course, by ascending
    order. *)
Lemma populated_lectures_spec (c : Course.doc) (st : Store) :
  let ls := @merge_sort _ order_le order_le_dec
              (List.filter (fun l => bool_decide (Lecture._id l ∈ Course.lectures c))
                           (lecture_docs st)) in
  StronglySorted order_le ls /\
  forall l, l ∈ ls <-> l ∈ lecture_docs st /\ Lecture._id l ∈ Course.lectures c.
Proof.
  split.
  - apply (@StronglySorted_merge_sort _ order_le order_le_dec
             order_le_trans order_le_total).
  - intros l. rewrite merge_sort_Permutation, list_elem_of_In, filter_In,
      <- list_elem_of_In, bool_decide_eq_true. reflexivity.
Qed.

Lemma getCourseLectures_run (req : Req.t) (st : Store) (c : Course.doc) :
  course_at st (Req.courseId req) = Some c ->
  getCourseLectures req st =
    (Ok {| status := 200;
           payload :=
             LectureList
               (if negb (bool_decide (Req.id req ∈ Course.enrolledStudents c))
                   && negb (id_is (Course.instructor c) (Req.id req))
                then List.filter Lecture.isPreview
                       (@merge_sort _ order_le order_le_dec
                          (List.filter
                             (fun l => bool_decide (Lecture._id l ∈ Course.lectures c))
                             (lecture_docs st)))
                else @merge_sort _ order_le order_le_dec
                       (List.filter
                          (fun l => bool_decide (Lecture._id l ∈ Course.lectures c))
                          (lecture_docs st)))
               (bool_decide (Req.id req ∈ Course.enrolledStudents c))
               (id_is (Course.instructor c) (Req.id req)) |}, st).
Proof.
  intros Hc. unfold getCourseLectures, bind, Course_findById_with_lectures, findById_result.
  rewrite Hc. reflexivity.
Qed.


(** ** Adding lectures *)

(** The lecture that [addLectureToCourse] creates for a course from a
    request, the path of its file and the answer of the media store. *)
Lemma addLecture_run (env : Env) (req : Req.t) (st : Store) (c : Course.doc)
    (path : string) (result : UploadResult) :
  course_at st (Req.courseId req) = Some c ->
  Course.instructor c = Req.id req ->
  Req.file req = Some path ->
  cloudinary env path = Some result ->
  let lecture :=
    {| Lecture._id := fresh_id env;
       Lecture.title := b_title (Req.body req);
       Lecture.description := b_description (Req.body req);
       Lecture.isPreview := default false (b_isPreview (Req.body req));
       Lecture.order := Z.of_nat (List.length (Course.lectures c)) + 1;
       Lecture.videoUrl := JS.str_or (secure_url result) path;
       Lecture.publicId := JS.str_or (public_id result) path;
       Lecture.duration := JS.num_or (duration result) 0 |} in
  addLectureToCourse env req st =
    (Ok {| status := 201;
           payload := LectureData "Lecture added successfully" lecture |},
     {| users := users st;
        courses := update_first (fun x => id_is (Course._id c) (Course._id x))
                     (fun _ => push_lecture (fresh_id env) c) (courses st);
        lecture_docs := lecture_docs st ++ [lecture];
        media := media st ++ [Uploaded path] |}).
Proof.
  intros Hc Hi Hf Hu. unfold addLectureToCourse, bind, Course_findById, findById_result, guard.
  rewrite Hc. apply id_is_true in Hi. rewrite Hi. cbn [ret].
  rewrite Hf. unfold uploadMedia. rewrite Hu. reflexivity.
Qed.

Lemma addLecture_success_inv (env : Env) (req : Req.t) (st st' : Store)
    (resp : Response) :
  addLectureToCourse env req st = (Ok resp, st') ->
  exists c path result,
    course_at st (Req.courseId req) = Some c /\
    Course.instructor c = Req.id req /\
    Req.file req = Some path /\
    cloudinary env path = Some result.
Proof.
  unfold addLectureToCourse, bind, Course_findById, findById_result, guard.
  destruct (course_at st (Req.courseId req)) as [c|] eqn:Hc;
    [|destruct (ObjectId_isValid _); discriminate].
  destruct (id_is (Course.instructor c) (Req.id req)) eqn:Hi; [|discriminate].
  cbn [ret]. destruct (Req.file req) as [path|]; [|discriminate].
  unfold uploadMedia.
  destruct (cloudinary env path) as [result|] eqn:Hu; [|discriminate].
  intros _. exists c, path, result. apply id_is_true in Hi. auto.
Qed.

Lemma course_at_after_save st st' c f :
  course_at st (Course._id c) = Some c ->
  Course._id (f c) = Course._id c ->
  courses st' = update_first (fun x => id_is (Course._id c) (Course._id x))
                  (fun _ => f c) (courses st) ->
  course_at st' (Course._id c) = Some (f c).
Proof.
  intros Hc Hid Hst. unfold course_at. rewrite Hst.
  apply (find_update_first _ (fun _ => f c) _ c); [exact Hc|].
  apply id_is_true. symmetry. exact Hid.
Qed.

Lemma find_update_first_disjoint {A} (p q : A -> bool) (f : A -> A) l :
  (forall x, p x = true -> q x = false) ->
  (forall x, p x = true -> q (f x) = false) ->
  List.find q (update_first p f l) = List.find q l.
Proof.
  intros Hq Hf. induction l as [|y l IH]; simpl; [reflexivity|].
  destruct (p y) eqn:Hy; simpl.
  - rewrite (Hf y Hy), (Hq y Hy). reflexivity.
  - destruct (q y); [reflexivity | exact IH].
Qed.

Lemma course_at_other_after_save st st' c c' i :
  i <> Course._id c -> Course._id c' = Course._id c ->
  courses st' = update_first (fun x => id_is (Course._id c) (Course._id x))
                  (fun _ => c') (courses st) ->
  course_at st' i = course_at st i.
Proof.
  intros Hi Hid Hst. unfold course_at. rewrite Hst.
  apply find_update_first_disjoint.
  - intros x Hx. apply id_is_true in Hx. apply id_is_false. congruence.
  - intros x Hx. apply id_is_false. congruence.
Qed.

(** X5. [addLectureToCourse] by the course's instructor: without a file it
    fails with 400 and writes nothing; when the media store gives no result
    it fails with 500, with the upload attempted and nothing else written:
    no lecture is created and the course keeps its lecture list. *)
Theorem addLecture_failures (env : Env) (req : Req.t) (st : Store) (c : Course.doc) :
  course_at st (Req.courseId req) = Some c ->
  Course.instructor c = Req.id req ->
  (Req.file req = None -> fails_with 400 (addLectureToCourse env req) st) /\
  (forall path, Req.file req = Some path -> cloudinary env path = None ->
     addLectureToCourse env req st =
       (Throw (AppError "Error uploading video" 500),
        {| users := users st; courses := courses st;
           lecture_docs := lecture_docs st;
           media := media st ++ [Uploaded path] |})).
Proof.
  intros Hc Hi. apply id_is_true in Hi.
  unfold fails_with, addLectureToCourse, bind, Course_findById, findById_result, guard.
  rewrite Hc, Hi. cbn [ret]. split.
  - intros ->. eexists. reflexivity.
  - intros path -> Hu. unfold uploadMedia. rewrite Hu. reflexivity.
Qed.

(** X6. A successful [addLectureToCourse] writes three things and nothing
    else: the new lecture document, appended to the lecture collection; the
    course's lecture list; one upload in the media log.  The users, the
    other courses and every other field of the course are as before, and the
    lecture carries the title, the description and the preview flag of the
    request, the flag being [false] when the request gives none. *)
Theorem addLecture_frame (env : Env) (req : Req.t) (st st' : Store)
    (resp : Response) :
  addLectureToCourse env req st = (Ok resp, st') ->
  exists before after lecture path,
    course_at st (Req.courseId req) = Some before /\
    course_at st' (Req.courseId req) = Some after /\
    resp = {| status := 201;
              payload := LectureData "Lecture added successfully" lecture |} /\
    Req.file req = Some path /\
    users st' = users st /\
    lecture_docs st' = lecture_docs st ++ [lecture] /\
    media st' = media st ++ [Uploaded path] /\
    (forall i, i <> Req.courseId req -> course_at st' i = course_at st i) /\
    after = push_lecture (Lecture._id lecture) before /\
    Lecture._id lecture = fresh_id env /\
    Lecture.title lecture = b_title (Req.body req) /\
    Lecture.description lecture = b_description (Req.body req) /\
    Lecture.isPreview lecture = default false (b_isPreview (Req.body req)).
Proof.
  intros Hrun.
  destruct (addLecture_success_inv _ _ _ _ _ Hrun) as (c & path & result & Hc & Hi & Hf & Hu).
  rewrite (addLecture_run env req st c path result Hc Hi Hf Hu) in Hrun.
  cbv zeta in Hrun. injection Hrun as <- <-.
  pose proof (course_at_id _ _ _ Hc) as Hid.
  exists c. do 3 eexists. split; [exact Hc|].
  split.
  { rewrite <- Hid.
    apply (course_at_after_save st _ c (push_lecture (fresh_id env)));
      [rewrite Hid; exact Hc | reflexivity | reflexivity]. }
  split; [reflexivity|]. split; [exact Hf|].
  split; [reflexivity|]. split; [reflexivity|]. split; [reflexivity|].
  split.
  { intros i Hne.
    apply (course_at_other_after_save st _ c (push_lecture (fresh_id env) c));
      [congruence | reflexivity | reflexivity]. }
  repeat split.
Qed.

(** X7. Two successful [addLectureToCourse] requests in a row on the same
    course, which had [n] lectures: the first lecture gets order [n + 1],
    the second [n + 2], and the course then lists the former lectures
    followed by the two new ids, in that order. *)
Theorem addLecture_twice (env1 env2 : Env) (req1 req2 : Req.t)
    (st st1 st2 : Store) (resp1 resp2 : Response) :
  Req.courseId req2 = Req.courseId req1 ->
  addLectureToCourse env1 req1 st = (Ok resp1, st1) ->
  addLectureToCourse env2 req2 st1 = (Ok resp2, st2) ->
  exists before after l1 l2 m1 m2,
    course_at st (Req.courseId req1) = Some before /\
    course_at st2 (Req.courseId req1) = Some after /\
    payload resp1 = LectureData m1 l1 /\
    payload resp2 = LectureData m2 l2 /\
    Lecture.order l1 = Z.of_nat (List.length (Course.lectures before)) + 1 /\
    Lecture.order l2 = Z.of_nat (List.length (Course.lectures before)) + 2 /\
    Course.lectures after
      = Course.lectures before ++ [Lecture._id l1; Lecture._id l2].
Proof.
  intros Hsame Hrun1 Hrun2.
  destruct (addLecture_success_inv _ _ _ _ _ Hrun1)
    as (c & p1 & r1 & Hc & Hi1 & Hf1 & Hu1).
  rewrite (addLecture_run env1 req1 st c p1 r1 Hc Hi1 Hf1 Hu1) in Hrun1.
  cbv zeta in Hrun1. injection Hrun1 as <- Hst1.
  pose proof (course_at_id _ _ _ Hc) as Hid.
  assert (Hc1 : course_at st1 (Course._id c) = Some (push_lecture (fresh_id env1) c)).
  { apply (course_at_after_save st st1 c (push_lecture (fresh_id env1)));
      [rewrite Hid; exact Hc | reflexivity | rewrite <- Hst1; reflexivity]. }
  destruct (addLecture_success_inv _ _ _ _ _ Hrun2)
    as (c1 & p2 & r2 & Hc1' & Hi2 & Hf2 & Hu2).
  rewrite (addLecture_run env2 req2 st1 c1 p2 r2 Hc1' Hi2 Hf2 Hu2) in Hrun2.
  cbv zeta in Hrun2. injection Hrun2 as <- Hst2.
  rewrite Hsame, <- Hid, Hc1 in Hc1'. injection Hc1' as <-.
  exists c. do 5 eexists. split; [exact Hc|].
  split.
  { rewrite <- Hid.
    apply (course_at_after_save st1 st2 (push_lecture (fresh_id env1) c)
             (push_lecture (fresh_id env2)));
      [exact Hc1 | reflexivity | rewrite <- Hst2; reflexivity]. }
  split; [reflexivity|]. split; [reflexivity|].
  split; [reflexivity|].
  split.
  { cbn [Lecture.order push_lecture Course.lectures].
    rewrite length_app. cbn [List.length]. lia. }
  cbn [push_lecture Course.lectures Lecture._id].
  rewrite <- app_assoc. reflexivity.
Qed.

(** X8. After a successful [addLectureToCourse] the new lecture shows in
    [getCourseLectures] of that course for the instructor, and for a caller
    who is neither enrolled nor the instructor exactly when the request
    asked for a preview lecture. *)
Theorem added_lecture_visibility (env : Env) (req viewer : Req.t)
    (st st' : Store) (resp : Response) :
  addLectureToCourse env req st = (Ok resp, st') ->
  Req.courseId viewer = Req.courseId req ->
  exists before lecture m ls e i,
    course_at st (Req.courseId req) = Some before /\
    payload resp = LectureData m lecture /\
    getCourseLectures viewer st' =
      (Ok {| status := 200; payload := LectureList ls e i |}, st') /\
    (Req.id viewer = Req.id req -> lecture ∈ ls) /\
    (Req.id viewer ∉ Course.enrolledStudents before ->
     Req.id viewer <> Course.instructor before ->
     (lecture ∈ ls <-> b_isPreview (Req.body req) = Some true)).
Proof.
  intros Hrun Hsame.
  destruct (addLecture_success_inv _ _ _ _ _ Hrun)
    as (c & path & result & Hc & Hi & Hf & Hu).
  rewrite (addLecture_run env req st c path result Hc Hi Hf Hu) in Hrun.
  cbv zeta in Hrun. injection Hrun as <- <-.
  pose proof (course_at_id _ _ _ Hc) as Hid.
  match goal with
  | |- context [getCourseLectures viewer ?s] => set (st1 := s)
  end.
  assert (Hc1 : course_at st1 (Req.courseId viewer)
                = Some (push_lecture (fresh_id env) c)).
  { rewrite Hsame, <- Hid.
    apply (course_at_after_save st _ c (push_lecture (fresh_id env)));
      [rewrite Hid; exact Hc | reflexivity | reflexivity]. }
  rewrite (getCourseLectures_run viewer st1 _ Hc1).
  destruct (populated_lectures_spec (push_lecture (fresh_id env) c) st1)
    as [_ Hmem]. cbv zeta in Hmem.
  exists c. do 5 eexists. split; [exact Hc|]. split; [reflexivity|].
  split; [reflexivity|].
  match goal with
  | |- context [_ ∈ (if _ then List.filter _ ?l else _)] => set (all := l) in *
  end.
  set (lecture := {| Lecture._id := fresh_id env |}) in *.
  assert (Hin : lecture ∈ all).
  { apply Hmem. split.
    - subst st1. cbn [lecture_docs]. apply list_elem_of_In, in_or_app.
      right. left. reflexivity.
    - cbn [push_lecture Course.lectures]. apply list_elem_of_In, in_or_app.
      right. left. reflexivity. }
  cbn [push_lecture Course.enrolledStudents Course.instructor].
  split.
  - intros Hv. rewrite Hv, <- Hi.
    rewrite (proj2 (id_is_true _ _) eq_refl), andb_false_r. exact Hin.
  - intros Hne Hni.
    rewrite (bool_decide_eq_false_2 _ Hne).
    rewrite (proj2 (id_is_false (Course.instructor c) (Req.id viewer)))
      by congruence.
    cbn [negb andb].
    rewrite list_elem_of_In, filter_In, <- list_elem_of_In.
    subst lecture. cbn [Lecture.isPreview].
    destruct (b_isPreview (Req.body req)) as [[]|]; cbn [default from_option id];
      split; try tauto; try discriminate; intros [_ H]; discriminate.
Qed.

Lemma search_exact_witness :
  searchCourses Sample.regex_test Sample.range_cast
    (Sample.request "u2" "" Sample.no_body Demo.unbalanced_query None)
    Sample.store = (Throw DriverError, Sample.store) /\
  exists data,
    searchCourses Sample.regex_test Sample.range_cast
      (Sample.request "u2" "" Sample.no_body Demo.full_query None) Sample.store =
      (Ok {| status := 200;
             payload := CourseList data (Z.of_nat (List.length data)) |},
       Sample.store) /\
    Sample.mk_course "64b7f0c2a1d3e4f5a6b7c8c1" true 1 ∈ List.map Course.base data /\
    Sample.mk_course "64b7f0c2a1d3e4f5a6b7c8c2" false 2 ∉ List.map Course.base data.
Proof.
  split.
  { apply (proj1 (search_exact Sample.regex_test Sample.range_cast
             (Sample.request "u2" "" Sample.no_body Demo.unbalanced_query None)
             Sample.store Demo.text_ro Demo.price_10_50)).
    reflexivity. }
  destruct (proj2 (search_exact Sample.regex_test Sample.range_cast
              (Sample.request "u2" "" Sample.no_body Demo.full_query None)
              Sample.store Demo.text_ro Demo.price_10_50))
    as (data & Hrun & Hmem).
  - reflexivity.
  - intros r [= <-] _. reflexivity.
  - exists data. split; [exact Hrun|]. split.
    + apply Hmem. split; [apply list_elem_of_In; simpl; auto|].
      split; [reflexivity|]. split; [reflexivity|].
      split; [intros _; apply list_elem_of_In; simpl; auto|].
      split; [intros l [= <-] _; reflexivity|].
      intros r _ _. reflexivity.
    + intros Hin. apply Hmem in Hin as (_ & Hpub & _). discriminate.
Defined.

Lemma search_order_witness :
  exists resp st' data n,
    searchCourses Sample.regex_test Sample.range_cast
      (Sample.request "u2" "" Sample.no_body Sample.no_query None) Sample.store
    = (Ok resp, st') /\
    payload resp = CourseList data n /\
    StronglySorted newest_first (List.map Course.base data).
Proof.
  destruct (searchCourses Sample.regex_test Sample.range_cast
              (Sample.request "u2" "" Sample.no_body Sample.no_query None)
              Sample.store) as [[resp|e] st'] eqn:Hrun.
  - destruct (search_order Sample.regex_test Sample.range_cast _ _ _ _ Hrun)
      as (data & n & Hpay & Hnew & _).
    exists resp, st', data, n. split; [reflexivity|]. split; [exact Hpay|].
    apply Hnew. left. reflexivity.
  - vm_compute in Hrun. discriminate.
Defined.


Lemma addLecture_failures_witness :
  fails_with 400
    (addLectureToCourse Demo.env_down
       (Sample.request "u1" "64b7f0c2a1d3e4f5a6b7c8c3" Demo.preview_body Sample.no_query None))
    Sample.store /\
  addLectureToCourse Demo.env_down Demo.add_request Sample.store =
    (Throw (AppError "Error uploading video" 500),
     {| users := users Sample.store; courses := courses Sample.store;
        lecture_docs := lecture_docs Sample.store;
        media := [Uploaded "/tmp/v.mp4"] |}).
Proof.
  split.
  - apply (proj1 (addLecture_failures Demo.env_down
             (Sample.request "u1" "64b7f0c2a1d3e4f5a6b7c8c3" Demo.preview_body Sample.no_query None)
             Sample.store (Sample.mk_course "64b7f0c2a1d3e4f5a6b7c8c3" true 3) eq_refl eq_refl)).
    reflexivity.
  - apply (proj2 (addLecture_failures Demo.env_down Demo.add_request
             Sample.store (Sample.mk_course "64b7f0c2a1d3e4f5a6b7c8c3" true 3) eq_refl eq_refl)
             "/tmp/v.mp4"); reflexivity.
Defined.

Lemma addLecture_run1 :
  addLectureToCourse Sample.env Demo.add_request Sample.store
  = (Ok Demo.resp1, Demo.st1).
Proof. vm_compute. reflexivity. Qed.

Lemma addLecture_run2 :
  addLectureToCourse Demo.env2 Demo.add_request Demo.st1
  = (Ok Demo.resp2, Demo.st2).
Proof. vm_compute. reflexivity. Qed.

Lemma addLecture_frame_witness :
  exists before after lecture,
    course_at Sample.store "64b7f0c2a1d3e4f5a6b7c8c3" = Some before /\
    course_at Demo.st1 "64b7f0c2a1d3e4f5a6b7c8c3" = Some after /\
    users Demo.st1 = users Sample.store /\
    lecture_docs Demo.st1 = lecture_docs Sample.store ++ [lecture] /\
    course_at Demo.st1 "64b7f0c2a1d3e4f5a6b7c8c1" = course_at Sample.store "64b7f0c2a1d3e4f5a6b7c8c1" /\
    Lecture.isPreview lecture = true.
Proof.
  destruct (addLecture_frame _ _ _ _ _ addLecture_run1)
    as (before & after & lecture & path & Hb & Ha & _ & _ & Hu & Hl & _ & Ho
        & _ & _ & _ & _ & Hp).
  exists before, after, lecture.
  split; [exact Hb|]. split; [exact Ha|]. split; [exact Hu|]. split; [exact Hl|].
  split; [apply Ho; discriminate | exact Hp].
Defined.

Lemma addLecture_twice_witness :
  exists after l1 l2 m1 m2,
    course_at Demo.st2 "64b7f0c2a1d3e4f5a6b7c8c3" = Some after /\
    payload Demo.resp1 = LectureData m1 l1 /\
    payload Demo.resp2 = LectureData m2 l2 /\
    Lecture.order l1 = 3 /\ Lecture.order l2 = 4 /\
    Course.lectures after = ["l1"; "l2"] ++ [Lecture._id l1; Lecture._id l2].
Proof.
  destruct (addLecture_twice Sample.env Demo.env2 Demo.add_request Demo.add_request
              _ _ _ _ _ eq_refl addLecture_run1 addLecture_run2)
    as (before & after & l1 & l2 & m1 & m2 & Hb & Ha & H1 & H2 & Ho1 & Ho2 & Hl).
  cbn in Hb. injection Hb as <-.
  exists after, l1, l2, m1, m2. repeat split; assumption.
Defined.

Lemma added_lecture_visibility_witness :
  exists lecture m ls e i,
    payload Demo.resp1 = LectureData m lecture /\
    getCourseLectures (Sample.request "u2" "64b7f0c2a1d3e4f5a6b7c8c3" Sample.no_body Sample.no_query None)
      Demo.st1 =
      (Ok {| status := 200; payload := LectureList ls e i |}, Demo.st1) /\
    lecture ∈ ls.
Proof.
  destruct (added_lecture_visibility Sample.env Demo.add_request
              (Sample.request "u2" "64b7f0c2a1d3e4f5a6b7c8c3" Sample.no_body Sample.no_query None)
              _ _ _ addLecture_run1 eq_refl)
    as (before & lecture & m & ls & e & i & Hb & Hp & Hrun & _ & Hstranger).
  cbn in Hb. injection Hb as <-.
  exists lecture, m, ls, e, i. split; [exact Hp|]. split; [exact Hrun|].
  apply Hstranger; [|discriminate|reflexivity].
  intros Hin. apply list_elem_of_In in Hin. simpl in Hin.
  destruct Hin as [Hin|[]]. discriminate.
Defined.

(** ** Replacing a thumbnail *)

(** X9. [updateCourseDetails] by the instructor with a file attached.  The
    old thumbnail, when the course has one, is deleted from the media store
    and the file is uploaded before the update is sent to the database.
    When the schema accepts the update the request succeeds, and the
    course's thumbnail becomes the URL that the media store returns, or the
    local path of the file when it returns none, also when the upload gave
    no result at all.  When the schema refuses the update the request fails
    with the database's error, with the media store already changed and the
    course as it was. *)
Theorem update_thumbnail_replacement (env : Env) (req : Req.t) (st : Store)
    (c : Course.doc) (path : string) :
  course_at st (Req.courseId req) = Some c ->
  Course.instructor c = Req.id req ->
  Req.file req = Some path ->
  JS.truthy path = true ->
  let url := JS.str_or (cloudinary env path ≫= secure_url) path in
  let log := media st
             ++ (if JS.truthy (Course.thumbnail c)
                 then [Destroyed (Str (Course.thumbnail c))] else [])
             ++ [Uploaded path] in
  (course_update_valid env (course_update_of req (Some url)) = true ->
   exists new st',
     updateCourseDetails env req st =
       (Ok {| status := 200;
              payload := CourseData "Course updated successfully" (Some new) |}, st') /\
     course_at st' (Req.courseId req) = Some new /\
     media st' = log /\
     Course.thumbnail new = url /\
     (cloudinary env path = None -> Course.thumbnail new = path)) /\
  (course_update_valid env (course_update_of req (Some url)) = false ->
   updateCourseDetails env req st =
     (Throw DriverError,
      {| users := users st; courses := courses st;
         lecture_docs := lecture_docs st; media := log |})).
Proof.
  intros Hc Hi Hf Hp url log. apply id_is_true in Hi.
  pose proof (course_at_id _ _ _ Hc) as Hid.
  assert (Hurl : JS.truthy url = true).
  { subst url. unfold JS.str_or. destruct (cloudinary env path ≫= secure_url) as [u|];
      [destruct (JS.truthy u) eqn:Hu|]; assumption. }
  unfold course_update_of.
  split; intros Hvalid;
    unfold updateCourseDetails, bind, Course_findById, findById_result, guard;
    rewrite Hc, Hi; cbn [ret]; rewrite Hf;
    unfold deleteMediaFromCloudinary, uploadMedia, Course_findByIdAndUpdate, ret;
    fold url; subst log.
  - destruct (JS.truthy (Course.thumbnail c)) eqn:Ht; cbn -[List.find JS.str_or];
      fold url; rewrite Hurl, Hvalid;
      fold (course_at st (Req.courseId req)); rewrite Hc;
      cbn -[List.find JS.str_or];
      (do 2 eexists; split; [reflexivity|]; split;
       [ unfold course_at; cbn [courses set_courses set_media];
         apply find_update_first; [exact Hc | apply id_is_true; symmetry; exact Hid]
       | split; [cbn [media set_courses set_media app]; rewrite <- ?app_assoc; reflexivity|];
         split; [reflexivity|];
         intros Hnone; cbn [apply_course_update Course.thumbnail up_thumbnail];
         subst url; rewrite Hnone; cbn; unfold JS.str_or; reflexivity ]).
  - destruct (JS.truthy (Course.thumbnail c)) eqn:Ht; cbn -[List.find JS.str_or];
      fold url; rewrite Hurl, Hvalid; unfold set_media;
      cbn [users courses lecture_docs media app]; rewrite <- ?app_assoc;
      reflexivity.
Qed.

Lemma update_thumbnail_replacement_witness :
  (exists new st',
    updateCourseDetails Demo.env_down
      (Sample.request "u1" "64b7f0c2a1d3e4f5a6b7c8c1" Sample.no_body Sample.no_query (Some "/tmp/t.png"))
      Sample.store =
      (Ok {| status := 200;
             payload := CourseData "Course updated successfully" (Some new) |}, st') /\
    media st' = [Destroyed (Str "thumb.png"); Uploaded "/tmp/t.png"] /\
    Course.thumbnail new = "/tmp/t.png") /\
  updateCourseDetails Sample.env
    (Sample.request "u1" "64b7f0c2a1d3e4f5a6b7c8c1" Demo.negative_price_body Sample.no_query
       (Some "/tmp/t.png")) Sample.store =
    (Throw DriverError,
     {| users := users Sample.store; courses := courses Sample.store;
        lecture_docs := lecture_docs Sample.store;
        media := [Destroyed (Str "thumb.png"); Uploaded "/tmp/t.png"] |}).
Proof.
  split.
  - destruct (proj1 (update_thumbnail_replacement Demo.env_down
              (Sample.request "u1" "64b7f0c2a1d3e4f5a6b7c8c1" Sample.no_body Sample.no_query (Some "/tmp/t.png"))
              Sample.store (Sample.mk_course "64b7f0c2a1d3e4f5a6b7c8c1" true 1) "/tmp/t.png"
              eq_refl eq_refl eq_refl eq_refl) eq_refl)
      as (new & st' & Hrun & _ & Hm & _ & Hdown).
    exists new, st'. split; [exact Hrun|]. split; [exact Hm|].
    apply Hdown. reflexivity.
  - apply (proj2 (update_thumbnail_replacement Sample.env
              (Sample.request "u1" "64b7f0c2a1d3e4f5a6b7c8c1" Demo.negative_price_body Sample.no_query
                 (Some "/tmp/t.png"))
              Sample.store (Sample.mk_course "64b7f0c2a1d3e4f5a6b7c8c1" true 1) "/tmp/t.png"
              eq_refl eq_refl eq_refl eq_refl) eq_refl).
Defined.

(** ** Accounts *)

Lemma update_first_fresh {A} (p : A -> bool) (f : A -> A) l u :
  List.find p l = None ->
  update_first p f (l ++ [u]) = l ++ [if p u then f u else u].
Proof.
  induction l as [|x l IH]; simpl.
  - intros _. destruct (p u); reflexivity.
  - destruct (p x); [discriminate|]. intros H. now rewrite IH.
Qed.

Lemma find_none_iff {A} (p : A -> bool) l :
  List.find p l = None <-> forall x, x ∈ l -> p x = false.
Proof.
  split.
  - intros H x Hx. apply (find_none _ _ H), list_elem_of_In, Hx.
  - intros H. destruct (List.find p l) as [y|] eqn:Hf; [|reflexivity].
    apply find_some in Hf as [Hin Hp].
    rewrite (H y) in Hp by (apply list_elem_of_In, Hin). discriminate.
Qed.

(** X10. Signup with an e-mail address that no stored user has, in lower
    case: the request succeeds; one user is appended to the collection, with
    the address in lower case, the role of the request or ["student"], the
    placeholder avatar, the hashed password and the time of the request as
    last activity; nothing else is written. *)
Theorem signup_success (env : Env) (req : Req.t) (st : Store) (email : string) :
  b_email (Req.body req) = Some email ->
  (forall u, u ∈ users st -> User.email u <> JS.toLowerCase email) ->
  user_at st (fresh_id env) = None ->
  exists new,
    createUserAccount env req st =
      (Ok {| status := 200; payload := Token "User created successfully" new |},
       {| users := users st ++ [with_lastActive (now env) new];
          courses := courses st; lecture_docs := lecture_docs st;
          media := media st |}) /\
    User._id new = fresh_id env /\
    User.email new = JS.toLowerCase email /\
    User.role new = default "student" (b_role (Req.body req)) /\
    User.avatar new = Str "default-avatar.png" /\
    (forall p, b_password (Req.body req) = Some p -> User.password new = hash env p).
Proof.
  intros He Hfree Hfresh.
  unfold createUserAccount, bind, User_findOne_email. rewrite He.
  assert (Hnone : List.find (fun u => bool_decide (User.email u = JS.toLowerCase email))
                    (users st) = None).
  { apply find_none_iff. intros u Hu. apply bool_decide_eq_false, Hfree, Hu. }
  rewrite Hnone. unfold User_create, updateLastActive, generateToken, ret.
  unfold set_users. cbn [users courses lecture_docs media User._id].
  unfold user_at in Hfresh. rewrite (update_first_fresh _ _ _ _ Hfresh).
  rewrite (proj2 (id_is_true _ _) eq_refl).
  eexists. split; [reflexivity|]. repeat split.
  intros p ->. reflexivity.
Qed.

Lemma createUserAccount_success_inv env req st resp st' :
  createUserAccount env req st = (Ok resp, st') ->
  exists email,
    b_email (Req.body req) = Some email /\
    List.find (fun u => bool_decide (User.email u = JS.toLowerCase email)) (users st)
      = None /\
    List.map User.email (users st')
      = List.map User.email (users st) ++ [JS.toLowerCase email] /\
    List.map User.password (users st')
      = List.map User.password (users st)
        ++ [hash env (default "" (b_password (Req.body req)))] /\
    List.map User._id (users st')
      = List.map User._id (users st) ++ [fresh_id env].
Proof.
  unfold createUserAccount, bind, User_findOne_email.
  destruct (b_email (Req.body req)) as [email|]; [|discriminate].
  destruct (List.find _ (users st)) eqn:Hfind; [discriminate|].
  unfold User_create, updateLastActive, generateToken, ret.
  intros [= _ <-]. exists email. split; [reflexivity|]. split; [exact Hfind|].
  cbn [users set_users].
  assert (Hmap : forall (g : User.doc -> string) p t l,
            (forall u, g (with_lastActive t u) = g u) ->
            List.map g (update_first p (with_lastActive t) l) = List.map g l).
  { intros g p t l Hg. induction l as [|x l IH]; simpl; [reflexivity|].
    destruct (p x); simpl; [now rewrite Hg | now rewrite IH]. }
  rewrite !Hmap by reflexivity. rewrite !map_app. repeat split.
Qed.

(** X11. After a successful signup, a second signup with the same address,
    in whatever case, fails with 409 and leaves the store as the first
    signup left it. *)
Theorem signup_twice_conflict (env1 env2 : Env) (req1 req2 : Req.t)
    (st st1 : Store) (resp : Response) (e1 e2 : string) :
  createUserAccount env1 req1 st = (Ok resp, st1) ->
  b_email (Req.body req1) = Some e1 ->
  b_email (Req.body req2) = Some e2 ->
  same_email e1 e2 ->
  createUserAccount env2 req2 st1 = (Throw (AppError "User already exists" 409), st1).
Proof.
  intros Hrun H1 H2 Hsame.
  destruct (createUserAccount_success_inv _ _ _ _ _ Hrun)
    as (email & He & _ & Hmails & _).
  rewrite H1 in He. injection He as <-.
  assert (Hin : JS.toLowerCase e1 ∈ List.map User.email (users st1)).
  { rewrite Hmails. apply list_elem_of_In, in_or_app. right. left. reflexivity. }
  apply list_elem_of_In, in_map_iff in Hin as (u & Hu & Hin).
  destruct (find_is_Some (fun x => bool_decide (User.email x = JS.toLowerCase e2))
              (users st1) u) as [y Hy].
  - apply list_elem_of_In, Hin.
  - apply bool_decide_eq_true. unfold same_email in Hsame. congruence.
  - unfold createUserAccount, bind, User_findOne_email. rewrite H2, Hy. reflexivity.
Qed.

(** X12. A profile update without a file.  When the schema of the users or
    the uniqueness of their e-mail addresses refuses the update, the request
    fails with the database's error and nothing is written.  When the update
    is accepted and no user has the caller's id, it fails with 404 and
    writes nothing.  When it is accepted and the user exists, it succeeds:
    the stored user takes the name and the bio that the request supplies,
    and the e-mail address of the request in lower case; the avatar, the
    password, the role and the last activity stay, and so do the other
    users, the courses, the lectures and the media store. *)
Theorem profile_update_without_file (env : Env) (req : Req.t) (st : Store)
    (email : string) :
  b_email (Req.body req) = Some email ->
  Req.file req = None ->
  (user_update_valid env (users st) (Req.id req) (user_update_of req email None)
   = false ->
     updateUserProfile env req st = (Throw DriverError, st)) /\
  (user_update_valid env (users st) (Req.id req) (user_update_of req email None)
   = true ->
   (user_at st (Req.id req) = None ->
      fails_with 404 (updateUserProfile env req) st) /\
   (forall u, user_at st (Req.id req) = Some u ->
      exists new st',
        updateUserProfile env req st =
          (Ok {| status := 200;
                 payload := UserData "User profile updated successfully" new |}, st') /\
        user_at st' (Req.id req) = Some new /\
        User.name new = default (User.name u) (b_name (Req.body req)) /\
        User.email new = JS.toLowerCase email /\
        User.bio new = default (User.bio u) (b_bio (Req.body req)) /\
        (User.avatar new = User.avatar u /\ User.password new = User.password u /\
         User.role new = User.role u /\ User._id new = User._id u /\
         User.lastActive new = User.lastActive u) /\
        (forall i, i <> Req.id req -> user_at st' i = user_at st i) /\
        courses st' = courses st /\ lecture_docs st' = lecture_docs st /\
        media st' = media st)).
Proof.
  intros He Hf. unfold fails_with, updateUserProfile, user_update_of.
  rewrite He, Hf.
  unfold bind, ret, User_findByIdAndUpdate.
  fold (user_at st (Req.id req)).
  split; intros Hvalid; rewrite Hvalid; [reflexivity|].
  split.
  - intros Hu. rewrite Hu. cbn. eexists. f_equal.
    destruct st as [us cs ls ms]. unfold set_users. cbn [users courses lecture_docs media].
    f_equal. unfold user_at in Hu. cbn [users] in Hu. clear Hvalid.
    induction us as [|x us IH]; simpl in *; [reflexivity|].
    destruct (id_is (Req.id req) (User._id x)); [discriminate|].
    now rewrite IH.
  - intros u Hu. rewrite Hu. cbn [fmap option_fmap option_map].
    do 2 eexists. split; [reflexivity|].
    assert (Hid : User._id u = Req.id req).
    { apply find_some in Hu as [_ Hu]. apply id_is_true in Hu. auto. }
    split.
    { unfold user_at. cbn [users set_users].
      apply find_update_first; [exact Hu|].
      apply id_is_true. cbn. symmetry. exact Hid. }
    split; [reflexivity|]. split; [reflexivity|]. split; [reflexivity|].
    split; [repeat split|].
    split; [|repeat split].
    intros i Hi. unfold user_at. cbn [users set_users].
    apply find_update_first_disjoint.
    + intros x Hx. apply id_is_true in Hx. apply id_is_false. congruence.
    + intros x Hx. apply id_is_true in Hx. apply id_is_false. cbn. congruence.
Qed.

(** X13. A profile update with a file by a caller whose id no user has:
    the file is uploaded first, then the handler faults on the missing
    user, so the request ends in a 500, not in the 404 of the update
    without a file, and the upload stays in the media store. *)
Theorem profile_update_unknown_user_with_file (env : Env) (req : Req.t)
    (st : Store) (email path : string) :
  b_email (Req.body req) = Some email ->
  Req.file req = Some path ->
  user_at st (Req.id req) = None ->
  updateUserProfile env req st =
    (Throw TypeError,
     {| users := users st; courses := courses st;
        lecture_docs := lecture_docs st;
        media := media st ++ [Uploaded path] |}) /\
  status_of TypeError = 500.
Proof.
  intros He Hf Hu. split; [|reflexivity].
  unfold updateUserProfile. rewrite He, Hf.
  unfold bind, uploadMedia, User_findById.
  change (user_at (set_media _ st) (Req.id req)) with (user_at st (Req.id req)).
  rewrite Hu. reflexivity.
Qed.

(** A request without an e-mail address in its body makes signup and
    the profile update fault (500) before anything is read or written; in
    particular an attached avatar is not uploaded. *)
Theorem missing_email_faults (env : Env) (req : Req.t) (st : Store) :
  b_email (Req.body req) = None ->
  createUserAccount env req st = (Throw TypeError, st) /\
  updateUserProfile env req st = (Throw TypeError, st) /\
  status_of TypeError = 500.
Proof.
  intros He. unfold createUserAccount, updateUserProfile. rewrite He.
  repeat split.
Qed.

(** ** Deleting an account *)

Lemma find_remove_first_unique (i : string) (l : list User.doc) :
  NoDup (List.map User._id l) ->
  List.find (fun u => id_is i (User._id u))
    (remove_first (fun x => id_is i (User._id x)) l) = None.
Proof.
  induction l as [|x l IH]; simpl; [reflexivity|].
  intros Hnd. apply NoDup_cons in Hnd as [Hx Hnd].
  destruct (id_is i (User._id x)) eqn:Hi.
  - apply id_is_true in Hi. subst i.
    apply find_none_iff. intros y Hy. apply id_is_false. intros Heq.
    apply Hx. rewrite Heq. apply list_elem_of_In, in_map, list_elem_of_In, Hy.
  - simpl. rewrite Hi. auto.
Qed.

Lemma find_remove_first_other {A} (p q : A -> bool) l :
  (forall x, p x = true -> q x = false) ->
  List.find q (remove_first p l) = List.find q l.
Proof.
  intros Hpq. induction l as [|x l IH]; simpl; [reflexivity|].
  destruct (p x) eqn:Hp; simpl.
  - now rewrite (Hpq x Hp).
  - destruct (q x); [reflexivity | exact IH].
Qed.

(** X14. [deleteUserAccount].  When no user has the caller's id the
    handler faults (500) and writes nothing.  Otherwise the avatar is
    deleted from the media store first, unless it is the placeholder or
    empty, and then the document is asked to remove itself.  With a driver
    whose documents have [remove], the handler answers 200 and the user is
    removed: with unique ids no user has that id afterwards; every other
    user stays; and the courses and the lectures are not touched, those of
    the deleted user included.  With a driver whose documents do not have
    it, the handler faults (500) with the avatar already deleted and the
    user still stored. *)
Theorem delete_account (env : Env) (req : Req.t) (st : Store) :
  (user_at st (Req.id req) = None ->
     deleteUserAccount env req st = (Throw TypeError, st)) /\
  (forall u, user_at st (Req.id req) = Some u ->
     let log := media st
                ++ (if value_truthy (User.avatar u)
                       && differs_from (User.avatar u) "default-avatar.png"
                    then [Destroyed (User.avatar u)] else []) in
     (document_remove env = true ->
      exists st',
        deleteUserAccount env req st =
          (Ok {| status := 200;
                 payload := Message "User account deleted successfully" |}, st') /\
        (user_ids_unique st -> user_at st' (Req.id req) = None) /\
        (forall i, i <> Req.id req -> user_at st' i = user_at st i) /\
        List.length (users st') = pred (List.length (users st)) /\
        media st' = log /\
        courses st' = courses st /\ lecture_docs st' = lecture_docs st) /\
     (document_remove env = false ->
      deleteUserAccount env req st =
        (Throw TypeError,
         {| users := users st; courses := courses st;
            lecture_docs := lecture_docs st; media := log |}))).
Proof.
  unfold deleteUserAccount, bind, User_findById. split.
  - intros ->. reflexivity.
  - intros u Hu. rewrite Hu.
    assert (Hid : User._id u = Req.id req).
    { apply find_some in Hu as [_ Hu]. apply id_is_true in Hu. auto. }
    assert (Hlen : forall l : list User.doc,
              List.find (fun x => id_is (Req.id req) (User._id x)) l = Some u ->
              List.length (remove_first (fun x => id_is (User._id u) (User._id x)) l)
              = pred (List.length l)).
    { rewrite Hid. induction l as [|x l IH]; simpl; [discriminate|].
      destruct (id_is (Req.id req) (User._id x)); [reflexivity|].
      intros Hf. simpl. rewrite (IH Hf).
      destruct l; [discriminate | reflexivity]. }
    unfold deleteMediaFromCloudinary, User_remove, ret.
    split; intros Hrm; rewrite Hrm.
    + destruct (value_truthy (User.avatar u) && differs_from (User.avatar u) _);
        (eexists; split; [reflexivity|];
         unfold user_at; cbn [users courses lecture_docs media set_users set_media];
         rewrite Hid;
         split; [intros Hnd; apply find_remove_first_unique, Hnd|];
         split; [intros i Hi; apply find_remove_first_other;
                 intros x Hx; apply id_is_true in Hx; apply id_is_false; congruence|];
         split; [rewrite <- Hid; apply Hlen, Hu|];
         split; [rewrite ?app_nil_r; reflexivity|]; split; reflexivity).
    + destruct (value_truthy (User.avatar u) && differs_from (User.avatar u) _);
        unfold set_media; cbn [users courses lecture_docs media];
        rewrite ?app_nil_r; [reflexivity|].
      destruct st; reflexivity.
Qed.

(** ** Signing in and changing the password *)

Section CredentialFacts.

Variable comparePassword : User.doc -> option string -> Result bool.

Lemma authenticateUser_accepts (env : Env) (req : Req.t) (st : Store)
    (email : string) (u : User.doc) :
  b_email (Req.body req) = Some email ->
  List.find (fun x => bool_decide (User.email x = JS.toLowerCase email)) (users st)
    = Some u ->
  comparePassword u (b_password (Req.body req)) = Ok true ->
  authenticateUser comparePassword env req st =
    (Ok {| status := 200; payload := Token "User signed in successfully" u |},
     set_users (update_first (fun x => id_is (User._id u) (User._id x))
                             (with_lastActive (now env))) st).
Proof.
  intros He Hu Hok. unfold authenticateUser, bind, User_findOne_email, lift.
  rewrite He, Hu, Hok. reflexivity.
Qed.

(** X15. [authenticateUser] looks the user up by the e-mail address of the
    request in lower case.  Without such a user it fails with 404; when the
    password check answers [false] it fails with 401; in both cases nothing
    is written.  When the check answers [true] it answers with the token of
    that user and stamps the time of the request on the stored user of that
    id, leaving ids, addresses and passwords, the courses, the lectures and
    the media store as they were. *)
Theorem signin_outcomes (env : Env) (req : Req.t) (st : Store) (email : string) :
  b_email (Req.body req) = Some email ->
  ((forall u, u ∈ users st -> User.email u <> JS.toLowerCase email) ->
     fails_with 404 (authenticateUser comparePassword env req) st) /\
  (forall u,
     List.find (fun x => bool_decide (User.email x = JS.toLowerCase email)) (users st)
       = Some u ->
     (comparePassword u (b_password (Req.body req)) = Ok false ->
        fails_with 401 (authenticateUser comparePassword env req) st) /\
     (comparePassword u (b_password (Req.body req)) = Ok true ->
        exists st',
          authenticateUser comparePassword env req st =
            (Ok {| status := 200;
                   payload := Token "User signed in successfully" u |}, st') /\
          users st' = update_first (fun x => id_is (User._id u) (User._id x))
                        (with_lastActive (now env)) (users st) /\
          List.map User._id (users st') = List.map User._id (users st) /\
          List.map User.email (users st') = List.map User.email (users st) /\
          List.map User.password (users st') = List.map User.password (users st) /\
          courses st' = courses st /\ lecture_docs st' = lecture_docs st /\
          media st' = media st)).
Proof.
  intros He. unfold fails_with, authenticateUser, bind, User_findOne_email.
  rewrite He. split.
  - intros Hfree.
    rewrite (proj2 (find_none_iff _ _)); [eexists; reflexivity|].
    intros u Hu. apply bool_decide_eq_false, Hfree, Hu.
  - intros u Hu. rewrite Hu. unfold lift. split.
    + intros ->. eexists. reflexivity.
    + intros ->. unfold guard, ret, updateLastActive, generateToken, ret.
      eexists. split; [reflexivity|]. cbn [users set_users courses lecture_docs media].
      split; [reflexivity|].
      assert (Hmap : forall (B : Type) (g : User.doc -> B) p t l,
                (forall x, g (with_lastActive t x) = g x) ->
                List.map g (update_first p (with_lastActive t) l) = List.map g l).
      { intros B g p t l Hg. induction l as [|x l IH]; simpl; [reflexivity|].
        destruct (p x); simpl; [now rewrite Hg | now rewrite IH]. }
      rewrite !Hmap by reflexivity. repeat split.
Qed.

(** X16. Signup, then signin.  After a successful signup with a password,
    signing in with the same address, in whatever case, and the same
    password succeeds, provided the password check accepts a password
    against its own stored hash; the token is for the new user. *)
Theorem signup_then_signin (env1 env2 : Env) (req1 req2 : Req.t)
    (st st1 : Store) (resp : Response) (e1 e2 pw : string) :
  (forall u, User.password u = hash env1 pw ->
     comparePassword u (Some pw) = Ok true) ->
  createUserAccount env1 req1 st = (Ok resp, st1) ->
  b_email (Req.body req1) = Some e1 ->
  b_password (Req.body req1) = Some pw ->
  b_email (Req.body req2) = Some e2 ->
  b_password (Req.body req2) = Some pw ->
  same_email e1 e2 ->
  exists u st2,
    authenticateUser comparePassword env2 req2 st1 =
      (Ok {| status := 200; payload := Token "User signed in successfully" u |}, st2) /\
    User._id u = fresh_id env1 /\
    User.email u = JS.toLowerCase e1.
Proof.
  intros Hcmp Hrun H1 Hp1 H2 Hp2 Hsame.
  destruct (createUserAccount_success_inv _ _ _ _ _ Hrun)
    as (email & He & Hnone & Hmails & Hpws & Hids).
  rewrite H1 in He. injection He as <-. rewrite Hp1 in Hpws.
  cbn [default from_option id] in Hpws.
  (* the first user of the new collection with this address is the new one *)
  assert (Hfound : exists u,
            List.find (fun x => bool_decide (User.email x = JS.toLowerCase e2))
              (users st1) = Some u /\
            User._id u = fresh_id env1 /\ User.email u = JS.toLowerCase e1 /\
            User.password u = hash env1 pw).
  { unfold same_email in Hsame. rewrite <- Hsame.
    assert (Hlen : List.length (users st1) = S (List.length (users st))).
    { rewrite <- (length_map User.email (users st1)), Hmails, length_app,
        length_map. simpl. lia. }
    revert Hnone Hmails Hpws Hids Hlen. generalize (users st1) as l1.
    induction (users st) as [|x l IH]; intros l1 Hnone Hmails Hpws Hids Hlen.
    - destruct l1 as [|y [|? ?]]; try discriminate.
      simpl in *. injection Hmails as Hm. injection Hpws as Hp.
      injection Hids as Hi. exists y.
      rewrite (bool_decide_eq_true_2 _ Hm). auto.
    - destruct l1 as [|y l1]; [discriminate|].
      simpl in Hnone, Hmails, Hpws, Hids, Hlen.
      injection Hmails as Hm Hmails. injection Hpws as _ Hpws.
      injection Hids as _ Hids.
      destruct (bool_decide (User.email x = JS.toLowerCase e1)) eqn:Hx;
        [discriminate|].
      simpl. rewrite Hm, Hx. apply IH; auto. }
  destruct Hfound as (u & Hfind & Hid & Hmail & Hpw).
  do 2 eexists. split; [|split; [exact Hid | exact Hmail]].
  apply (authenticateUser_accepts env2 req2 st1 e2 u H2 Hfind).
  rewrite Hp2. apply Hcmp, Hpw.
Qed.

Lemma find_update_first_same {A} (p q : A -> bool) (f : A -> A) l u :
  List.find p l = Some u -> List.find q l = Some u -> q (f u) = true ->
  List.find q (update_first p f l) = Some (f u).
Proof.
  intros Hp Hq Hf. induction l as [|x l IH]; simpl in *; [discriminate|].
  destruct (p x) eqn:Hpx.
  - injection Hp as ->. simpl. now rewrite Hf.
  - destruct (q x) eqn:Hqx.
    + injection Hq as ->. apply find_some in Hp as [_ Hp]. congruence.
    + simpl. rewrite Hqx. auto.
Qed.

Lemma changeUserPassword_accepts (env : Env) (req : Req.t) (st : Store)
    (cur : option string) (new : string) (u : User.doc) :
  user_at st (Req.id req) = Some u ->
  comparePassword u cur = Ok true ->
  changeUserPassword comparePassword env req cur new st =
    (Ok {| status := 200; payload := Message "Password changed successfully" |},
     set_users (update_first (fun x => id_is (User._id u) (User._id x))
                             (with_password (hash env new))) st).
Proof.
  intros Hu Hok. unfold changeUserPassword, bind, User_findById, lift.
  rewrite Hu, Hok. reflexivity.
Qed.

(** X17. [changeUserPassword].  Without a user of the caller's id it fails
    with 404, and with a current password that the check rejects it fails
    with 401, writing nothing.  When the check accepts, the stored user gets
    the hash of the new password and keeps everything else; the other
    users, the courses, the lectures and the media store are as before. *)
Theorem change_password_outcomes (env : Env) (req : Req.t) (st : Store)
    (cur : option string) (new : string) :
  (user_at st (Req.id req) = None ->
     fails_with 404 (changeUserPassword comparePassword env req cur new) st) /\
  (forall u, user_at st (Req.id req) = Some u ->
     (comparePassword u cur = Ok false ->
        fails_with 401 (changeUserPassword comparePassword env req cur new) st) /\
     (comparePassword u cur = Ok true ->
        exists st',
          changeUserPassword comparePassword env req cur new st =
            (Ok {| status := 200;
                   payload := Message "Password changed successfully" |}, st') /\
          user_at st' (Req.id req) = Some (with_password (hash env new) u) /\
          (forall i, i <> Req.id req -> user_at st' i = user_at st i) /\
          courses st' = courses st /\ lecture_docs st' = lecture_docs st /\
          media st' = media st)).
Proof.
  split.
  - intros Hu. eexists. unfold changeUserPassword, bind, User_findById.
    rewrite Hu. reflexivity.
  - intros u Hu. split.
    + intros Hno. eexists. unfold changeUserPassword, bind, User_findById, lift.
      rewrite Hu, Hno. reflexivity.
    + intros Hok. rewrite (changeUserPassword_accepts env req st cur new u Hu Hok).
      assert (Hid : User._id u = Req.id req).
      { apply find_some in Hu as [_ Hu]. apply id_is_true in Hu. auto. }
      eexists. split; [reflexivity|]. unfold user_at. cbn [users set_users].
      rewrite Hid. split.
      { apply find_update_first; [exact Hu|]. apply id_is_true. cbn. auto. }
      split; [|repeat split].
      intros i Hi. apply find_update_first_disjoint.
      * intros x Hx. apply id_is_true in Hx. apply id_is_false. congruence.
      * intros x Hx. apply id_is_true in Hx. apply id_is_false. cbn. congruence.
Qed.

(** X18. Changing the password, then signing in.  When the caller is the
    user that the database finds for the caller's e-mail address, and the
    password check accepts a password against its own stored hash, then
    after a successful password change signing in with that address and the
    new password succeeds, with the token of the caller. *)
Theorem change_password_then_signin (env env2 : Env) (req req2 : Req.t)
    (st st' : Store) (resp : Response) (cur : option string) (new e2 : string)
    (u : User.doc) :
  (forall v, User.password v = hash env new ->
     comparePassword v (Some new) = Ok true) ->
  user_at st (Req.id req) = Some u ->
  List.find (fun x => bool_decide (User.email x = User.email u)) (users st) = Some u ->
  changeUserPassword comparePassword env req cur new st = (Ok resp, st') ->
  b_email (Req.body req2) = Some e2 ->
  JS.toLowerCase e2 = User.email u ->
  b_password (Req.body req2) = Some new ->
  exists v st2,
    authenticateUser comparePassword env2 req2 st' =
      (Ok {| status := 200; payload := Token "User signed in successfully" v |}, st2) /\
    User._id v = Req.id req /\ User.password v = hash env new.
Proof.
  intros Hcmp Hu Hmail Hrun He2 Hlow Hp2.
  assert (Hid : User._id u = Req.id req).
  { apply find_some in Hu as [_ Hu']. apply id_is_true in Hu'. auto. }
  assert (Hok : comparePassword u cur = Ok true).
  { unfold changeUserPassword, bind, User_findById, lift in Hrun.
    rewrite Hu in Hrun.
    destruct (comparePassword u cur) as [[]|]; [reflexivity | discriminate ..]. }
  rewrite (changeUserPassword_accepts env req st cur new u Hu Hok) in Hrun.
  injection Hrun as _ <-.
  exists (with_password (hash env new) u). eexists.
  split; [|split; [exact Hid | reflexivity]].
  apply (authenticateUser_accepts env2 req2 _ e2 _ He2).
  - rewrite Hlow. cbn [users set_users]. rewrite Hid.
    apply find_update_first_same; [exact Hu | exact Hmail|].
    apply bool_decide_eq_true. reflexivity.
  - rewrite Hp2. apply Hcmp. reflexivity.
Qed.

End CredentialFacts.

(** ** The account properties on the sample data *)

Lemma signup_run :
  createUserAccount Sample.env (Demo.signup_request "Cy@X.org") Sample.store
  = (Ok Demo.signup_resp, Demo.signup_st).
Proof. vm_compute. reflexivity. Qed.

Lemma sample_demo_compare (u : User.doc) (pw : string) :
  User.password u = hash Sample.env pw ->
  Demo.comparePassword u (Some pw) = Ok true.
Proof.
  intros H. unfold Demo.comparePassword. f_equal.
  apply bool_decide_eq_true. exact H.
Qed.

Lemma signup_success_witness :
  exists new,
    createUserAccount Sample.env (Demo.signup_request "Cy@X.org") Sample.store =
      (Ok {| status := 200; payload := Token "User created successfully" new |},
       {| users := users Sample.store ++ [with_lastActive 1700 new];
          courses := courses Sample.store;
          lecture_docs := lecture_docs Sample.store;
          media := media Sample.store |}) /\
    User.email new = "cy@x.org" /\ User.role new = "student".
Proof.
  destruct (signup_success Sample.env (Demo.signup_request "Cy@X.org")
              Sample.store "Cy@X.org") as (new & Hrun & _ & Hm & Hr & _).
  - reflexivity.
  - intros u Hu. apply list_elem_of_In in Hu. simpl in Hu.
    destruct Hu as [<-|[<-|[]]]; discriminate.
  - reflexivity.
  - exists new. split; [exact Hrun|]. split; [exact Hm | exact Hr].
Defined.

Lemma signup_twice_conflict_witness :
  createUserAccount Demo.env2 (Demo.signup_request "CY@x.ORG") Demo.signup_st
  = (Throw (AppError "User already exists" 409), Demo.signup_st).
Proof.
  apply (signup_twice_conflict Sample.env Demo.env2
           (Demo.signup_request "Cy@X.org") (Demo.signup_request "CY@x.ORG")
           Sample.store Demo.signup_st Demo.signup_resp "Cy@X.org" "CY@x.ORG"
           signup_run); reflexivity.
Defined.

Lemma profile_update_without_file_witness :
  updateUserProfile Sample.env
    (Sample.request "u2" "" Sample.profile_body Sample.no_query None) Sample.store
  = (Throw DriverError, Sample.store) /\
  fails_with 404
    (updateUserProfile Demo.env2
       (Sample.request "zz" "" Sample.profile_body Sample.no_query None))
    Sample.store /\
  exists new st',
    updateUserProfile Sample.env
      (Sample.request "u1" "" Sample.profile_body Sample.no_query None) Sample.store =
      (Ok {| status := 200;
             payload := UserData "User profile updated successfully" new |}, st') /\
    User.bio new = "hello" /\ User.avatar new = Str "old-avatar.png" /\
    media st' = [].
Proof.
  split; [|split].
  - apply (proj1 (profile_update_without_file Sample.env
             (Sample.request "u2" "" Sample.profile_body Sample.no_query None)
             Sample.store "ann@x.org" eq_refl eq_refl)). reflexivity.
  - apply (proj1 (proj2 (profile_update_without_file Demo.env2
             (Sample.request "zz" "" Sample.profile_body Sample.no_query None)
             Sample.store "ann@x.org" eq_refl eq_refl) eq_refl)). reflexivity.
  - destruct (proj2 (proj2 (profile_update_without_file Sample.env
                (Sample.request "u1" "" Sample.profile_body Sample.no_query None)
                Sample.store "ann@x.org" eq_refl eq_refl) eq_refl)
                Sample.ann eq_refl)
      as (new & st' & Hrun & _ & _ & _ & Hbio & (Hav & _) & _ & _ & _ & Hm).
    exists new, st'. split; [exact Hrun|]. split; [exact Hbio|].
    split; [exact Hav | exact Hm].
Defined.

Lemma profile_update_unknown_user_with_file_witness :
  updateUserProfile Sample.env
    (Sample.request "zz" "" Sample.profile_body Sample.no_query (Some "/tmp/a.png"))
    Sample.store =
    (Throw TypeError,
     {| users := users Sample.store; courses := courses Sample.store;
        lecture_docs := lecture_docs Sample.store;
        media := [Uploaded "/tmp/a.png"] |}) /\
  status_of TypeError = 500.
Proof.
  apply (profile_update_unknown_user_with_file Sample.env
           (Sample.request "zz" "" Sample.profile_body Sample.no_query
              (Some "/tmp/a.png")) Sample.store "ann@x.org" "/tmp/a.png");
    reflexivity.
Defined.

Lemma missing_email_faults_witness :
  createUserAccount Sample.env
    (Sample.request "u1" "" Sample.no_body Sample.no_query (Some "/tmp/a.png"))
    Sample.store = (Throw TypeError, Sample.store) /\
  updateUserProfile Sample.env
    (Sample.request "u1" "" Sample.no_body Sample.no_query (Some "/tmp/a.png"))
    Sample.store = (Throw TypeError, Sample.store) /\
  status_of TypeError = 500.
Proof.
  apply (missing_email_faults Sample.env
           (Sample.request "u1" "" Sample.no_body Sample.no_query (Some "/tmp/a.png"))
           Sample.store). reflexivity.
Defined.

Lemma delete_account_witness :
  deleteUserAccount Sample.env
    (Sample.request "zz" "" Sample.no_body Sample.no_query None)
    Sample.store = (Throw TypeError, Sample.store) /\
  (exists st',
    deleteUserAccount Sample.env
      (Sample.request "u1" "" Sample.no_body Sample.no_query None)
      Sample.store =
      (Ok {| status := 200;
             payload := Message "User account deleted successfully" |}, st') /\
    user_at st' "u1" = None /\
    user_at st' "u2" = Some Sample.bob /\
    media st' = [Destroyed (Str "old-avatar.png")] /\
    course_at st' "64b7f0c2a1d3e4f5a6b7c8c1" = Some (Sample.mk_course "64b7f0c2a1d3e4f5a6b7c8c1" true 1)) /\
  deleteUserAccount Demo.env_no_remove
    (Sample.request "u1" "" Sample.no_body Sample.no_query None)
    Sample.store =
    (Throw TypeError,
     {| users := users Sample.store; courses := courses Sample.store;
        lecture_docs := lecture_docs Sample.store;
        media := [Destroyed (Str "old-avatar.png")] |}).
Proof.
  split; [|split].
  - apply (proj1 (delete_account Sample.env
             (Sample.request "zz" "" Sample.no_body Sample.no_query None)
             Sample.store)). reflexivity.
  - destruct (proj1 (proj2 (delete_account Sample.env
                (Sample.request "u1" "" Sample.no_body Sample.no_query None)
                Sample.store) Sample.ann eq_refl) eq_refl)
      as (st' & Hrun & Hgone & Hother & _ & Hm & Hc & _).
    exists st'. split; [exact Hrun|].
    split.
    { apply Hgone. unfold user_ids_unique. simpl.
      repeat constructor; simpl; intros H.
      - apply list_elem_of_In in H. simpl in H. destruct H as [H|[]]. discriminate.
      - apply list_elem_of_In in H. simpl in H. exact H. }
    split; [rewrite (Hother "u2") by discriminate; reflexivity|].
    split; [exact Hm|]. unfold course_at. rewrite Hc. reflexivity.
  - apply (proj2 (proj2 (delete_account Demo.env_no_remove
                (Sample.request "u1" "" Sample.no_body Sample.no_query None)
                Sample.store) Sample.ann eq_refl) eq_refl).
Defined.

Lemma signin_outcomes_witness :
  fails_with 404
    (authenticateUser Demo.comparePassword Sample.env (Demo.signup_request "cy@x.org"))
    Sample.store /\
  exists st',
    authenticateUser Demo.comparePassword Sample.env
      (Demo.signup_request "ANN@x.org") Sample.store =
      (Ok {| status := 200;
             payload := Token "User signed in successfully" Sample.ann |}, st') /\
    users st' = [with_lastActive 1700 Sample.ann; Sample.bob].
Proof.
  split.
  - apply (proj1 (signin_outcomes Demo.comparePassword Sample.env
             (Demo.signup_request "cy@x.org") Sample.store "cy@x.org" eq_refl)).
    intros u Hu. apply list_elem_of_In in Hu. simpl in Hu.
    destruct Hu as [<-|[<-|[]]]; discriminate.
  - destruct (proj2 (proj2 (signin_outcomes Demo.comparePassword Sample.env
                (Demo.signup_request "ANN@x.org") Sample.store "ANN@x.org" eq_refl)
                Sample.ann eq_refl) eq_refl)
      as (st' & Hrun & Hus & _).
    exists st'. split; [exact Hrun|]. rewrite Hus. reflexivity.
Defined.

Lemma signup_then_signin_witness :
  exists u st2,
    authenticateUser Demo.comparePassword Demo.env2
      (Demo.signup_request "CY@x.ORG") Demo.signup_st =
      (Ok {| status := 200; payload := Token "User signed in successfully" u |}, st2) /\
    User._id u = "n1" /\ User.email u = "cy@x.org".
Proof.
  apply (signup_then_signin Demo.comparePassword Sample.env Demo.env2
           (Demo.signup_request "Cy@X.org") (Demo.signup_request "CY@x.ORG")
           Sample.store Demo.signup_st Demo.signup_resp "Cy@X.org" "CY@x.ORG" "pw"
           (fun u => sample_demo_compare u "pw") signup_run);
    reflexivity.
Defined.

Lemma change_password_outcomes_witness :
  fails_with 401
    (changeUserPassword Demo.comparePassword Sample.env
       (Sample.request "u1" "" Sample.no_body Sample.no_query None)
       (Some "wrong") "pw2")
    Sample.store /\
  exists st',
    changeUserPassword Demo.comparePassword Sample.env
      (Sample.request "u1" "" Sample.no_body Sample.no_query None)
      (Some "pw") "pw2" Sample.store =
      (Ok {| status := 200; payload := Message "Password changed successfully" |}, st') /\
    user_at st' "u1" = Some (with_password "#pw2" Sample.ann) /\
    user_at st' "u2" = Some Sample.bob.
Proof.
  split.
  - apply (proj1 (proj2 (change_password_outcomes Demo.comparePassword Sample.env
             (Sample.request "u1" "" Sample.no_body Sample.no_query None)
             Sample.store (Some "wrong") "pw2") Sample.ann eq_refl)).
    reflexivity.
  - destruct (proj2 (proj2 (change_password_outcomes Demo.comparePassword Sample.env
                (Sample.request "u1" "" Sample.no_body Sample.no_query None)
                Sample.store (Some "pw") "pw2") Sample.ann eq_refl) eq_refl)
      as (st' & Hrun & Hu & Hother & _).
    exists st'. split; [exact Hrun|]. split; [exact Hu|].
    rewrite (Hother "u2") by discriminate. reflexivity.
Defined.

Lemma change_password_run :
  changeUserPassword Demo.comparePassword Sample.env
    (Sample.request "u1" "" Sample.no_body Sample.no_query None)
    (Some "pw") "pw2" Sample.store
  = (Ok {| status := 200; payload := Message "Password changed successfully" |},
     (changeUserPassword Demo.comparePassword Sample.env
        (Sample.request "u1" "" Sample.no_body Sample.no_query None)
        (Some "pw") "pw2" Sample.store).2).
Proof. reflexivity. Qed.

Lemma change_password_then_signin_witness :
  exists v st2,
    authenticateUser Demo.comparePassword Demo.env2
      {| Req.body :=
           {| b_name := None; b_email := Some "Ann@x.org"; b_password := Some "pw2";
              b_role := None; b_bio := None; b_title := None; b_subtitle := None;
              b_description := None; b_category := None; b_level := None;
              b_price := None; b_isPreview := None |};
         Req.query := Sample.no_query; Req.courseId := ""; Req.file := None;
         Req.id := ""; Req.user := None |}
      (changeUserPassword Demo.comparePassword Sample.env
         (Sample.request "u1" "" Sample.no_body Sample.no_query None)
         (Some "pw") "pw2" Sample.store).2 =
      (Ok {| status := 200; payload := Token "User signed in successfully" v |}, st2) /\
    User._id v = "u1" /\ User.password v = "#pw2".
Proof.
  apply (change_password_then_signin Demo.comparePassword Sample.env Demo.env2
           (Sample.request "u1" "" Sample.no_body Sample.no_query None) _
           Sample.store _ _ (Some "pw") "pw2" "Ann@x.org" Sample.ann
           (fun v => sample_demo_compare v "pw2") eq_refl eq_refl
           change_password_run); reflexivity.
Defined.

(** ** The courses of an instructor *)

(** X19. [getMyCreatedCourses] always answers 200, with exactly the stored
    courses whose instructor is the caller, newest first, each with the
    summaries of its enrolled students that still exist, and with their
    number as [count]; it writes nothing. *)
Theorem my_created_courses (req : Req.t) (st : Store) :
  exists data,
    getMyCreatedCourses req st =
      (Ok {| r_status := 200; r_data := (data, Z.of_nat (List.length data)) |}, st) /\
    (forall c, c ∈ List.map fst data <->
       c ∈ courses st /\ Course.instructor c = Req.id req) /\
    StronglySorted newest_first (List.map fst data) /\
    (forall c ss, (c, ss) ∈ data ->
       forall s, s ∈ ss <->
         exists i u, i ∈ Course.enrolledStudents c /\ user_at st i = Some u /\
                     s = (User.name u, User.avatar u)).
Proof.
  unfold getMyCreatedCourses, bind, Course_find_instructor,
    populate_enrolledStudents, ret.
  eexists. split; [reflexivity|].
  rewrite List.map_map. cbn [fst]. rewrite List.map_id.
  split; [|split].
  - intros c. rewrite sort_docs_elem, list_elem_of_In, filter_In,
      <- list_elem_of_In, id_is_true. reflexivity.
  - eapply StronglySorted_impl; [|apply sort_docs_sorted].
    intros a b Hab.
    pose proof (proj1 (sort_le_one_key "createdAt" (-1) a b) Hab) as Hle.
    unfold newest_first. unfold sort_value in Hle. cbn [course_field] in Hle. lia.
  - intros c ss Hin s.
    apply list_elem_of_In, in_map_iff in Hin as (c' & [= <- <-] & _).
    rewrite list_elem_of_omap. split.
    + intros (i & Hi & Hs). destruct (user_at st i) as [u|] eqn:Hu; [|discriminate].
      injection Hs as <-. eauto.
    + intros (i & u & Hi & Hu & ->). exists i. rewrite Hu. auto.
Qed.

(** ** Course details *)

Lemma find_snoc {A} (p : A -> bool) l x :
  List.find p (l ++ [x]) =
    match List.find p l with
    | Some y => Some y
    | None => if p x then Some x else None
    end.
Proof.
  induction l as [|y l IH]; simpl; [reflexivity|].
  destruct (p y); [reflexivity | exact IH].
Qed.

Lemma deleteUserAccount_success_inv env req st resp st' :
  deleteUserAccount env req st = (Ok resp, st') ->
  exists u,
    user_at st (Req.id req) = Some u /\
    users st' = remove_first (fun x => id_is (Req.id req) (User._id x)) (users st) /\
    courses st' = courses st /\ lecture_docs st' = lecture_docs st.
Proof.
  unfold deleteUserAccount, bind, User_findById.
  destruct (user_at st (Req.id req)) as [u|] eqn:Hu; [|discriminate].
  assert (Hid : User._id u = Req.id req).
  { apply find_some in Hu as [_ Hu']. apply id_is_true in Hu'. auto. }
  unfold deleteMediaFromCloudinary, User_remove, ret.
  destruct (document_remove env);
    destruct (value_truthy (User.avatar u) && differs_from (User.avatar u) _);
    try discriminate;
    intros [= _ <-]; exists u; cbn [users courses lecture_docs set_users set_media];
    rewrite Hid; auto.
Qed.

Section DetailsFacts.

Variable averageRating : Course.doc -> Z.

(** X20. After a successful [addLectureToCourse] with a fresh lecture id,
    [getCourseDetails] of the course lists the lectures it listed before,
    followed by the new lecture. *)
Theorem added_lecture_in_details (env : Env) (req viewer : Req.t)
    (st st' : Store) (resp : Response) (before : Course.doc) :
  addLectureToCourse env req st = (Ok resp, st') ->
  course_at st (Req.courseId req) = Some before ->
  lecture_at st (fresh_id env) = None ->
  fresh_id env ∉ Course.lectures before ->
  Req.courseId viewer = Req.courseId req ->
  exists lecture m details,
    payload resp = LectureData m lecture /\
    getCourseDetails averageRating viewer st' =
      (Ok {| r_status := 200; r_data := details |}, st') /\
    d_lectures details
      = omap (lecture_at st) (Course.lectures before) ++ [lecture].
Proof.
  intros Hrun Hb Hfresh Hnotin Hsame.
  destruct (addLecture_success_inv _ _ _ _ _ Hrun)
    as (c & path & result & Hc & Hi & Hf & Hu).
  rewrite Hb in Hc. injection Hc as <-.
  rewrite (addLecture_run env req st before path result Hb Hi Hf Hu) in Hrun.
  cbv zeta in Hrun. injection Hrun as <- Hst.
  pose proof (course_at_id _ _ _ Hb) as Hid.
  assert (Hc' : course_at st' (Req.courseId viewer)
                = Some (push_lecture (fresh_id env) before)).
  { rewrite Hsame, <- Hid.
    apply (course_at_after_save st st' before (push_lecture (fresh_id env)));
      [rewrite Hid; exact Hb | reflexivity | rewrite <- Hst; reflexivity]. }
  unfold getCourseDetails, bind, Course_findById_details, findById_result. rewrite Hc'.
  cbn [fmap option_fmap option_map].
  do 3 eexists. split; [reflexivity|]. split; [reflexivity|].
  cbn [d_lectures push_lecture Course.lectures]. rewrite omap_app.
  set (lecture :=
         {| Lecture._id := fresh_id env;
            Lecture.title := b_title (Req.body req);
            Lecture.description := b_description (Req.body req);
            Lecture.isPreview := default false (b_isPreview (Req.body req));
            Lecture.order := Z.of_nat (List.length (Course.lectures before)) + 1;
            Lecture.videoUrl := JS.str_or (secure_url result) path;
            Lecture.publicId := JS.str_or (public_id result) path;
            Lecture.duration := JS.num_or (duration result) 0 |}) in *.
  assert (Hat : forall i, lecture_at st' i =
            match lecture_at st i with
            | Some y => Some y
            | None => if id_is i (fresh_id env) then Some lecture else None
            end).
  { intros i. unfold lecture_at. rewrite <- Hst. cbn [lecture_docs].
    rewrite find_snoc. reflexivity. }
  f_equal.
  - apply list_omap_ext, Forall2_same_length_lookup_2; [reflexivity|].
    intros k i j Hi' Hj. rewrite Hi' in Hj. injection Hj as <-.
    rewrite Hat. destruct (lecture_at st i); [reflexivity|].
    rewrite (proj2 (id_is_false i (fresh_id env))); [reflexivity|].
    intros ->. apply Hnotin, list_elem_of_lookup. eauto.
  - cbn [omap list_omap]. rewrite Hat, Hfresh, (proj2 (id_is_true _ _) eq_refl).
    reflexivity.
Qed.

(** X21. Deleting an account does not cascade: after the instructor of a
    course has deleted their account, the details of the course are still
    served, with the course as it was and no instructor summary. *)
Theorem details_after_instructor_deleted (env : Env) (req viewer : Req.t)
    (st st' : Store) (resp : Response) (c : Course.doc) :
  user_ids_unique st ->
  deleteUserAccount env req st = (Ok resp, st') ->
  course_at st (Req.courseId viewer) = Some c ->
  Course.instructor c = Req.id req ->
  exists details,
    getCourseDetails averageRating viewer st' =
      (Ok {| r_status := 200; r_data := details |}, st') /\
    d_course details = c /\
    d_instructor details = None /\
    d_lectures details = omap (lecture_at st) (Course.lectures c).
Proof.
  intros Hnd Hrun Hc Hi.
  destruct (deleteUserAccount_success_inv _ _ _ _ _ Hrun)
    as (u & Hu & Hus & Hcs & Hls).
  unfold getCourseDetails, bind, Course_findById_details, findById_result.
  unfold course_at in *. rewrite Hcs, Hc. cbn [fmap option_fmap option_map].
  eexists. split; [reflexivity|]. split; [reflexivity|].
  cbn [d_instructor d_lectures]. split.
  - unfold user_at. rewrite Hus, Hi.
    rewrite (find_remove_first_unique (Req.id req) (users st) Hnd). reflexivity.
  - unfold lecture_at. rewrite Hls. reflexivity.
Qed.

End DetailsFacts.

Section Readers.

Variable regex_test : string -> string -> option (string -> bool).
Variable range_cast : option string -> option string -> option (Z -> bool).
Variable averageRating : Course.doc -> Z.

(** X22. The handlers that read never write: whatever they answer, also
    when they fail, the store after [searchCourses], [getPublishedCourses],
    [getCourseLectures], [getMyCreatedCourses] and [getCourseDetails] is the
    store before. *)
Theorem readers_write_nothing (req : Req.t) (st : Store) :
  (searchCourses regex_test range_cast req st).2 = st /\
  (getPublishedCourses regex_test range_cast req st).2 = st /\
  (getCourseLectures req st).2 = st /\
  (getMyCreatedCourses req st).2 = st /\
  (getCourseDetails averageRating req st).2 = st.
Proof.
  assert (Hfind : forall crit spec sk lm,
            (Course_find regex_test range_cast crit spec sk lm st).2 = st).
  { intros. unfold Course_find.
    destruct (criteria_pred _ _ _); [|reflexivity].
    destruct (apply_skip _ _); reflexivity. }
  split; [|split; [|split; [|split; [reflexivity|]]]].
  - unfold searchCourses, bind.
    specialize (Hfind (searchCriteria (Req.query req))
                  (sortOptions (Req.query req)) None None).
    destruct (Course_find _ _ _ _ _ _ st) as [[l|e] st1]; cbn [snd] in Hfind;
      subst st1; reflexivity.
  - unfold getPublishedCourses, bind.
    specialize (Hfind published (<["createdAt" := -1]> ∅)
                  (Some (skip_of (Req.query req))) (Some (limit_of (Req.query req)))).
    destruct (Course_find _ _ _ _ _ _ st) as [[l|e] st1]; cbn [snd] in Hfind;
      subst st1; [|reflexivity].
    unfold populate_instructor, Course_countDocuments.
    destruct (criteria_pred _ _ published); reflexivity.
  - unfold getCourseLectures, bind, Course_findById_with_lectures, findById_result.
    cbn [fst snd].
    destruct (course_at st (Req.courseId req)); [reflexivity|].
    cbn [fmap option_fmap option_map].
    destruct (ObjectId_isValid (Req.courseId req)); reflexivity.
  - unfold getCourseDetails, bind, Course_findById_details, findById_result.
    cbn [fst snd].
    destruct (course_at st (Req.courseId req)); [reflexivity|].
    cbn [fmap option_fmap option_map].
    destruct (ObjectId_isValid (Req.courseId req)); reflexivity.
Qed.

End Readers.

Lemma added_lecture_in_details_witness :
  exists lecture m details,
    payload Demo.resp1 = LectureData m lecture /\
    getCourseDetails (fun _ => 0)
      (Sample.request "u2" "64b7f0c2a1d3e4f5a6b7c8c3" Sample.no_body Sample.no_query None) Demo.st1 =
      (Ok {| r_status := 200; r_data := details |}, Demo.st1) /\
    d_lectures details
      = [Sample.mk_lecture "l1" true 1; Sample.mk_lecture "l2" false 2] ++ [lecture].
Proof.
  apply (added_lecture_in_details (fun _ => 0) Sample.env Demo.add_request
           (Sample.request "u2" "64b7f0c2a1d3e4f5a6b7c8c3" Sample.no_body Sample.no_query None)
           Sample.store Demo.st1 Demo.resp1 (Sample.mk_course "64b7f0c2a1d3e4f5a6b7c8c3" true 3)
           addLecture_run1 eq_refl eq_refl).
  - intros H. apply list_elem_of_In in H. simpl in H.
    destruct H as [H|[H|[]]]; discriminate.
  - reflexivity.
Defined.

Lemma details_after_instructor_deleted_witness :
  exists resp st' details,
    deleteUserAccount Sample.env
      (Sample.request "u1" "" Sample.no_body Sample.no_query None)
      Sample.store = (Ok resp, st') /\
    getCourseDetails (fun _ => 0)
      (Sample.request "u2" "64b7f0c2a1d3e4f5a6b7c8c1" Sample.no_body Sample.no_query None) st' =
      (Ok {| r_status := 200; r_data := details |}, st') /\
    d_course details = Sample.mk_course "64b7f0c2a1d3e4f5a6b7c8c1" true 1 /\
    d_instructor details = None.
Proof.
  destruct (deleteUserAccount Sample.env
              (Sample.request "u1" "" Sample.no_body Sample.no_query None)
              Sample.store) as [[resp|e] st'] eqn:Hrun.
  - destruct (details_after_instructor_deleted (fun _ => 0) Sample.env
                (Sample.request "u1" "" Sample.no_body Sample.no_query None)
                (Sample.request "u2" "64b7f0c2a1d3e4f5a6b7c8c1" Sample.no_body Sample.no_query None)
                Sample.store st' resp (Sample.mk_course "64b7f0c2a1d3e4f5a6b7c8c1" true 1))
      as (details & Hd & Hc & Hi & _).
    + unfold user_ids_unique. simpl.
      repeat constructor; simpl; intros H; apply list_elem_of_In in H;
        simpl in H; [destruct H as [H|[]]; discriminate | exact H].
    + exact Hrun.
    + reflexivity.
    + reflexivity.
    + exists resp, st', details. auto.
  - vm_compute in Hrun. discriminate.
Defined.

(** ** Paging through the listing *)

Section Paging.

Variable regex_test : string -> string -> option (string -> bool).
Variable range_cast : option string -> option string -> option (Z -> bool).

(** A page with page number [p >= 1] and limit [L >= 1] holds the [L]
    courses of the listing after the first [(p - 1) * L]. *)
Lemma listing_page_run (req : Req.t) (st : Store) :
  1 <= page_of (Req.query req) -> 1 <= limit_of (Req.query req) ->
  page_courses (getPublishedCourses regex_test range_cast req st) =
    take (Z.to_nat (limit_of (Req.query req)))
      (drop (Z.to_nat ((page_of (Req.query req) - 1) * limit_of (Req.query req)))
         (listing st)).
Proof.
  intros Hp Hl.
  destruct (criteria_pred_listing regex_test range_cast) as (p & Hcp & Hext).
  unfold page_courses, getPublishedCourses, bind, Course_find,
    Course_countDocuments, populate_instructor, ret.
  rewrite Hcp. cbn [default from_option id]. unfold apply_skip, apply_limit, skip_of.
  set (P := page_of (Req.query req)) in *.
  set (L := limit_of (Req.query req)) in *.
  destruct ((P - 1) * L <? 0) eqn:Hneg; [apply Z.ltb_lt in Hneg; nia|].
  destruct (L =? 0) eqn:Hz; [apply Z.eqb_eq in Hz; lia|].
  rewrite (filter_published_ext p _ Hext). cbn [fst payload].
  rewrite List.map_map. cbn [Course.base]. rewrite List.map_id.
  unfold listing. rewrite Z.abs_eq by lia. reflexivity.
Qed.

Lemma NoDup_map_eq {A B} (f : A -> B) (l : list A) (x y : A) :
  NoDup (List.map f l) -> x ∈ l -> y ∈ l -> f x = f y -> x = y.
Proof.
  induction l as [|z l IH]; cbn [List.map]; intros Hnd Hx Hy Hf.
  - apply elem_of_nil in Hx. destruct Hx.
  - apply NoDup_cons in Hnd as [Hz Hnd].
    apply elem_of_cons in Hx as [->|Hx]; apply elem_of_cons in Hy as [->|Hy].
    + reflexivity.
    + exfalso. apply Hz. rewrite Hf.
      apply list_elem_of_In, in_map, list_elem_of_In, Hy.
    + exfalso. apply Hz. rewrite <- Hf.
      apply list_elem_of_In, in_map, list_elem_of_In, Hx.
    + auto.
Qed.

(** X23. Paging through the public listing with a limit [L >= 1], in a
    store where no two published courses were created at the same time and
    with page numbers and limits within 2^53.  Newest first then leaves the
    database no choice: the listing is the only arrangement of the published
    courses that is newest first, whichever query asks for it.  The pages 1,
    2, ..., [n], one after the other, are the first [n * L] courses of the
    listing, so no course is skipped or repeated between pages; and when
    [n * L] reaches the number of published courses they are the whole
    listing, that is all published courses, newest first. *)
Theorem pages_cover_listing (reqs : list Req.t) (st : Store) (L : Z) :
  1 <= L ->
  Z.of_nat (List.length reqs) * L <= 2 ^ 53 ->
  published_dates_distinct st ->
  (forall i r, reqs !! i = Some r ->
     page_of (Req.query r) = Z.of_nat i + 1 /\ limit_of (Req.query r) = L) ->
  List.concat (List.map (fun r => page_courses
                               (getPublishedCourses regex_test range_cast r st)) reqs)
    = take (List.length reqs * Z.to_nat L) (listing st) /\
  (count_published st <= Z.of_nat (List.length reqs) * L ->
   List.concat (List.map (fun r => page_courses
                                (getPublishedCourses regex_test range_cast r st)) reqs)
     = listing st) /\
  (forall c, c ∈ listing st <-> c ∈ courses st /\ Course.isPublished c = true) /\
  StronglySorted newest_first (listing st) /\
  (forall l, l ≡ₚ List.filter Course.isPublished (courses st) ->
     StronglySorted newest_first l -> l = listing st).
Proof.
  intros HL _ Hdistinct Hreqs.
  assert (Hcat : List.concat (List.map (fun r => page_courses
                   (getPublishedCourses regex_test range_cast r st)) reqs)
                 = take (List.length reqs * Z.to_nat L) (listing st)).
  { induction reqs as [|r reqs IH] using rev_ind; [reflexivity|].
    rewrite List.map_app, concat_app, IH.
    - destruct (Hreqs (List.length reqs) r) as [Hp Hl].
      { rewrite lookup_app_r by lia. rewrite Nat.sub_diag. reflexivity. }
      cbn [List.map List.concat]. rewrite app_nil_r.
      rewrite listing_page_run by lia. rewrite Hp, Hl.
      replace (Z.to_nat ((Z.of_nat (List.length reqs) + 1 - 1) * L))
        with (List.length reqs * Z.to_nat L)%nat by nia.
      rewrite take_take_drop, length_app. cbn [List.length].
      f_equal. lia.
    - intros i r' Hi. apply Hreqs. rewrite lookup_app_l; [exact Hi|].
      apply lookup_lt_Some in Hi. exact Hi. }
  assert (Hsorted : StronglySorted newest_first (listing st)).
  { unfold listing. eapply StronglySorted_impl; [|apply sort_docs_sorted].
    intros a b Hab.
    pose proof (proj1 (sort_le_one_key "createdAt" (-1) a b) Hab) as Hle.
    unfold newest_first. unfold sort_value in Hle. cbn [course_field] in Hle. lia. }
  assert (Hperm : listing st ≡ₚ List.filter Course.isPublished (courses st)).
  { unfold listing, sort_docs. apply merge_sort_Permutation. }
  split; [exact Hcat|]. split; [|split; [|split]].
  - intros Hall. rewrite Hcat. apply take_ge.
    unfold count_published in Hall. rewrite (Permutation_length Hperm). nia.
  - intros c. unfold listing. rewrite sort_docs_elem, list_elem_of_In, filter_In,
      <- list_elem_of_In. reflexivity.
  - exact Hsorted.
  - intros l Hl Hs.
    apply (StronglySorted_unique_strong newest_first); [|exact Hs|exact Hsorted|].
    + intros x1 x2 H1 H2 H12 H21.
      apply (NoDup_map_eq Course.createdAt
               (List.filter Course.isPublished (courses st)));
        [exact Hdistinct | rewrite <- Hl; exact H1 | rewrite <- Hperm; exact H2 |].
      unfold newest_first in H12, H21. lia.
    + rewrite Hl, Hperm. reflexivity.
Qed.

End Paging.

Lemma pages_cover_listing_witness :
  List.concat (List.map (fun r => page_courses
                               (getPublishedCourses Sample.regex_test
                                  Sample.range_cast r Sample.store))
            [Sample.request "u2" "" Sample.no_body
               (Sample.paged None (Some "1")) None;
             Sample.request "u2" "" Sample.no_body
               (Sample.paged (Some "2") (Some "1")) None])
  = listing Sample.store.
Proof.
  destruct (pages_cover_listing Sample.regex_test Sample.range_cast
           [Sample.request "u2" "" Sample.no_body
              (Sample.paged None (Some "1")) None;
            Sample.request "u2" "" Sample.no_body
              (Sample.paged (Some "2") (Some "1")) None]
           Sample.store 1) as (_ & Hall & _).
  - lia.
  - vm_compute. discriminate.
  - unfold published_dates_distinct.
    apply (bool_decide_eq_true_1 _). vm_compute. reflexivity.
  - intros [|[|i]] r [= <-]; split; reflexivity.
  - apply Hall. vm_compute. discriminate.
Defined.

(** ** The price range *)

Lemma append_cons c s t : String c s +:+ t = String c (s +:+ t).
Proof. reflexivity. Qed.

Lemma append_step cur c s : (cur +:+ String c "") +:+ s = cur +:+ String c s.
Proof.
  induction cur as [|d cur IH]; [reflexivity|].
  rewrite !append_cons. f_equal. exact IH.
Qed.

Lemma append_empty_r s : s +:+ "" = s.
Proof.
  induction s as [|c s IH]; [reflexivity|].
  rewrite append_cons. f_equal. exact IH.
Qed.

Lemma split_aux_dash_free s cur :
  dash_free s = true -> JS.split_aux "-" s cur = [cur +:+ s].
Proof.
  revert cur. induction s as [|c s IH]; intros cur.
  - intros _. cbn [JS.split_aux]. now rewrite append_empty_r.
  - cbn [JS.split_aux dash_free]. intros H. apply andb_true_iff in H as [Hc Hs].
    apply negb_true_iff in Hc. rewrite Hc, IH by exact Hs.
    now rewrite append_step.
Qed.

Lemma split_aux_at_dash s rest cur :
  dash_free s = true ->
  JS.split_aux "-" (s +:+ String "-" rest) cur
  = (cur +:+ s) :: JS.split_aux "-" rest "".
Proof.
  revert cur. induction s as [|c s IH]; intros cur.
  - intros _. change ("" +:+ String "-" rest) with (String "-" rest).
    cbn [JS.split_aux]. change (Ascii.eqb "-" "-") with true. cbv iota.
    now rewrite append_empty_r.
  - rewrite append_cons. cbn [JS.split_aux dash_free].
    intros H. apply andb_true_iff in H as [Hc Hs].
    apply negb_true_iff in Hc. rewrite Hc, IH by exact Hs.
    now rewrite append_step.
Qed.

(** X24. The price clause of the search filter.  Without a price range, or
    with an empty one, the filter has no price clause.  A range [lo-hi]
    gives the inclusive bounds [lo] and [hi] as they are written, a lower
    bound that is empty included; what follows a second dash is dropped;
    and a range without a dash gives a lower bound and no upper bound:
    nothing is validated. *)
Theorem price_range_operands (q : Query) :
  (q_priceRange q = None \/ q_priceRange q = Some "" ->
     searchCriteria q !! "price" = None) /\
  (forall lo hi, q_priceRange q = Some (lo +:+ String "-" hi) ->
     dash_free lo = true -> dash_free hi = true ->
     searchCriteria q !! "price" = Some (Field (Range (Some lo) (Some hi)))) /\
  (forall lo hi rest,
     q_priceRange q = Some (lo +:+ String "-" (hi +:+ String "-" rest)) ->
     dash_free lo = true -> dash_free hi = true ->
     searchCriteria q !! "price" = Some (Field (Range (Some lo) (Some hi)))) /\
  (forall r, q_priceRange q = Some r -> r <> "" -> dash_free r = true ->
     searchCriteria q !! "price" = Some (Field (Range (Some r) None))).
Proof.
  assert (Htruthy : forall lo rest, JS.truthy (lo +:+ String "-" rest) = true).
  { intros [|c lo] rest; reflexivity. }
  assert (Hkey : forall r, q_priceRange q = Some r -> JS.truthy r = true ->
            searchCriteria q !! "price"
            = Some (Field (Range (JS.split "-" r !! 0%nat) (JS.split "-" r !! 1%nat)))).
  { intros r Hr Ht. apply searchCriteria_lookup.
    do 4 right. split; [reflexivity|]. exists r. auto. }
  split; [|split; [|split]].
  - intros Hno.
    destruct (searchCriteria q !! "price") as [cl|] eqn:Hl; [|reflexivity].
    apply searchCriteria_lookup in Hl.
    destruct Hl as [[? _]|[[? _]|[[? _]|[[? _]|(_ & r & Hr & Ht & _)]]]];
      try discriminate.
    destruct Hno as [Hno|Hno]; rewrite Hno in Hr; [discriminate|].
    injection Hr as <-. discriminate.
  - intros lo hi Hr Hlo Hhi. rewrite (Hkey _ Hr (Htruthy lo hi)).
    unfold JS.split. rewrite split_aux_at_dash, split_aux_dash_free by assumption.
    reflexivity.
  - intros lo hi rest Hr Hlo Hhi. rewrite (Hkey _ Hr (Htruthy lo _)).
    unfold JS.split. rewrite !split_aux_at_dash by assumption. reflexivity.
  - intros r Hr Hne Hfree. rewrite (Hkey _ Hr).
    + unfold JS.split. rewrite split_aux_dash_free by assumption. reflexivity.
    + destruct r; [congruence | reflexivity].
Qed.

Lemma price_range_operands_witness :
  searchCriteria Sample.no_query !! "price" = None /\
  searchCriteria Demo.full_query !! "price"
    = Some (Field (Range (Some "10") (Some "50"))) /\
  searchCriteria
    {| q_query := None; q_categories := None; q_level := None;
       q_priceRange := Some "100"; q_sortBy := None; q_page := None;
       q_limit := None |} !! "price"
    = Some (Field (Range (Some "100") None)).
Proof.
  split; [|split].
  - apply (proj1 (price_range_operands Sample.no_query)). left. reflexivity.
  - apply (proj1 (proj2 (price_range_operands Demo.full_query)) "10" "50");
      reflexivity.
  - apply (proj2 (proj2 (proj2 (price_range_operands
             {| q_query := None; q_categories := None; q_level := None;
                q_priceRange := Some "100"; q_sortBy := None; q_page := None;
                q_limit := None |}))) "100"); [reflexivity | discriminate | reflexivity].
Defined.
